(** * CAM4 performer-status resolution: a shallow embedding

    The development embeds the status-resolution pipeline of the two
    stand-alone clients

      - [src/cam4_standalone.py]            (module [CAM4Standalone] below)
      - [src/standalone/cam4_standalone.py] (module [CAM4StandaloneLib] below)

    and states the properties of the design document about them.

    Python values that [response.json()] can produce are the type [value];
    dictionaries are finite maps; a [str] is a [string] holding the UTF-8
    bytes of the text.  [re.match] works on the code points of the URL
    ([code_points]), and [re.IGNORECASE] identifies four code points outside
    ASCII with ASCII letters, as Python does; the identifier is lower-cased
    code point by code point ([str_lower]).  The text of a probed body is
    lower-cased with [lower], which acts on the ASCII letters: the phrases
    searched for are ASCII, and no code point outside ASCII lower-cases to a
    letter that occurs in them next to its neighbours.  Network traffic, the
    clock and process spawning are an explicit [World] threaded through a
    state-and-exception monad.

    Left out: [_log] (it only prints), the body of [FlareSolverrClient.get]
    and the command-line front end. *)

From Stdlib Require Import ZArith String Ascii Bool List Lia.
From Stdlib Require Import SpecFloat.
From stdpp Require Import base option strings gmap pretty.

Local Open Scope string_scope.
Local Open Scope Z_scope.

(** ** Strings as Python uses them here *)

Definition is_upper (c : ascii) : bool :=
  let n := N_of_ascii c in ((65 <=? n) && (n <=? 90))%N.

Definition is_lower (c : ascii) : bool :=
  let n := N_of_ascii c in ((97 <=? n) && (n <=? 122))%N.

Definition ascii_lower (c : ascii) : ascii :=
  if is_upper c then ascii_of_N (N_of_ascii c + 32) else c.

Definition ascii_upper (c : ascii) : ascii :=
  if is_lower c then ascii_of_N (N_of_ascii c - 32) else c.

(** [s.lower()] on the ASCII letters, for a text that is then searched for
    ASCII phrases; an identifier goes through [str_lower] below. *)
Fixpoint lower (s : string) : string :=
  match s with
  | EmptyString => EmptyString
  | String c s' => String (ascii_lower c) (lower s')
  end.

Fixpoint starts_with (p s : string) : bool :=
  match p, s with
  | EmptyString, _ => true
  | String a p', String b s' => Ascii.eqb a b && starts_with p' s'
  | String _ _, EmptyString => false
  end.

(** [needle in hay] on [str] *)
Fixpoint str_in (needle hay : string) : bool :=
  starts_with needle hay ||
  match hay with
  | EmptyString => false
  | String _ hay' => str_in needle hay'
  end.

(** ** Code points

    A Python [str] is a sequence of code points, and a [string] holds its
    UTF-8 bytes.  [code_points] cuts the bytes where the code points start: a
    leading byte takes the continuation bytes it announces. *)

Definition is_continuation (c : ascii) : bool :=
  let n := N_of_ascii c in ((128 <=? n) && (n <? 192))%N.

Definition announced (c : ascii) : nat :=
  let n := N_of_ascii c in
  if (n <? 192)%N then 0%nat
  else if (n <? 224)%N then 1%nat
  else if (n <? 240)%N then 2%nat
  else if (n <? 248)%N then 3%nat
  else 0%nat.

Fixpoint cut (need : nat) (cur s : string) : list string :=
  match s with
  | EmptyString => cur :: nil
  | String c s' =>
      match need with
      | S n =>
          if is_continuation c then cut n (cur +:+ String c "") s'
          else cur :: cut (announced c) (String c "") s'
      | O => cur :: cut (announced c) (String c "") s'
      end
  end.

Definition code_points (s : string) : list string :=
  match s with
  | EmptyString => nil
  | String c s' => cut (announced c) (String c "") s'
  end.

Fixpoint glue (l : list string) : string :=
  match l with
  | nil => ""
  | q :: l' => q +:+ glue l'
  end.

(** The code points outside ASCII that take part in what follows. *)
Definition U0130 : string := String "196" (String "176" "").              (* I with dot above *)
Definition U0131 : string := String "196" (String "177" "").              (* dotless i *)
Definition U017F : string := String "197" (String "191" "").              (* long s *)
Definition U212A : string := String "226" (String "132" (String "170" "")).  (* Kelvin sign *)
Definition U0307 : string := String "204" (String "135" "").              (* combining dot above *)

(** [re.IGNORECASE] on a [str] pattern compares a code point through its
    simple lower-case mapping and through the table of extra equivalences of
    [sre].  The code points outside ASCII that equal an ASCII letter in this
    way are U+0130 and U+0131 (with [i]), U+017F (with [s]) and U+212A (with
    [k]); no other one does. *)
Definition ascii_fold (q : string) : option ascii :=
  if String.eqb q U0130 || String.eqb q U0131 then Some "i"%char
  else if String.eqb q U017F then Some "s"%char
  else if String.eqb q U212A then Some "k"%char
  else None.

(** [str.lower] of one code point: the ASCII letters, U+0130 (which becomes
    [i] followed by U+0307) and U+212A (which becomes [k]); U+0131 and U+017F
    are lower-case letters already. *)
Definition cp_lower (q : string) : string :=
  match q with
  | String c EmptyString => String (ascii_lower c) ""
  | _ => if String.eqb q U0130 then String "i" U0307
         else if String.eqb q U212A then "k"
         else q
  end.

(** [s.lower()] of an identifier, code point by code point: exact on the
    code points that [[a-z0-9_]] admits under [re.IGNORECASE]. *)
Definition str_lower (s : string) : string := glue (map cp_lower (code_points s)).

(** ** Python values *)

#[warnings="-register-all"] Inductive value :=
| PyNone
| PyBool (b : bool)
| PyInt (n : Z)
| PyFloat (f : spec_float)
| PyStr (s : string)
| PyList (l : list value)
| PyDict (m : gmap string value).

(** Truth value testing ([if not x]). *)
Definition truthy (v : value) : bool :=
  match v with
  | PyNone => false
  | PyBool b => b
  | PyInt n => negb (n =? 0)
  | PyFloat f => match f with S754_zero _ => false | _ => true end
  | PyStr s => match s with EmptyString => false | _ => true end
  | PyList l => match l with nil => false | _ => true end
  | PyDict m => negb (Nat.eqb (size m) 0)
  end.

(** [str(x)] inside an f-string, for the optional strings of this program.  *)
Definition fmt (o : option string) : string :=
  match o with Some s => s | None => "None" end.

(** ** The closed classification and the result record *)

Inductive PerformerStatus :=
| NOT_FOUND
| OFFLINE
| ONLINE_NOT_STREAMING
| PRIVATE_OR_AWAY
| STREAMING.

Definition PerformerStatus_eqb (a b : PerformerStatus) : bool :=
  match a, b with
  | NOT_FOUND, NOT_FOUND | OFFLINE, OFFLINE
  | ONLINE_NOT_STREAMING, ONLINE_NOT_STREAMING
  | PRIVATE_OR_AWAY, PRIVATE_OR_AWAY | STREAMING, STREAMING => true
  | _, _ => false
  end.

Record PerformerInfo := {
  username : string;
  status : PerformerStatus;
  stream_url : option value;
  thumbnail_url : option string;
  error_message : option string
}.

(** ** Exceptions

    The classes the two files raise or catch.  [HTTPError] and
    [JSONDecodeError] are the ones of [requests.exceptions], both subclasses
    of [RequestException]; [OtherException] stands for every other subclass of
    [Exception] ([json.JSONDecodeError], the plain [Exception] raised by the
    FlareSolverr client, the errors of curl_cffi); [BaseExceptionOnly] for
    [KeyboardInterrupt] and [SystemExit]. *)

Inductive exn :=
| CAM4Error (message : option string) (st : PerformerStatus)
| RequestException (msg : string)
| HTTPError (msg : string)
| JSONDecodeError (msg : string)
| AttributeError (msg : string)
| OtherException (msg : string)
| BaseExceptionOnly (msg : string).

Definition is_RequestException (e : exn) : bool :=
  match e with
  | RequestException _ | HTTPError _ | JSONDecodeError _ => true
  | _ => false
  end.

Definition is_JSONDecodeError (e : exn) : bool :=
  match e with JSONDecodeError _ => true | _ => false end.

Definition is_Exception (e : exn) : bool :=
  match e with BaseExceptionOnly _ => false | _ => true end.

(** [str(e)] *)
Definition exn_str (e : exn) : string :=
  match e with
  | CAM4Error m _ => fmt m
  | RequestException m | HTTPError m | JSONDecodeError m
  | AttributeError m | OtherException m | BaseExceptionOnly m => m
  end.

Inductive Result (A : Type) :=
| Ok (a : A)
| Raise (e : exn).
Arguments Ok {A} a.
Arguments Raise {A} e.

(** [d.get(key, default)]; on anything that is not a dict the attribute
    lookup itself fails. *)
Definition dict_get (d : value) (key : string) (default : value) : Result value :=
  match d with
  | PyDict m => Ok (match m !! key with Some v => v | None => default end)
  | _ => Raise (AttributeError "object has no attribute 'get'")
  end.

(** ** Regular expressions: the fragment [VALID_URL_PATTERN] uses

    A backtracking matcher in continuation-passing style with Python's
    priorities (greedy [?] and [+], first alternative first), anchored at the
    start of the subject as [re.match] is. *)

Inductive atom :=
| AChr (c : ascii)
| ASet (negated : bool) (ranges : list (ascii * ascii)).

Inductive regex :=
| Eps
| Atom (a : atom)
| Cat (r1 r2 : regex)
| Opt (r : regex)
| Plus (a : atom)
| Group (r : regex).

Definition in_range (c : ascii) (r : ascii * ascii) : bool :=
  ((N_of_ascii (fst r) <=? N_of_ascii c) && (N_of_ascii c <=? N_of_ascii (snd r)))%N.

Definition in_ranges (ignorecase : bool) (rs : list (ascii * ascii)) (c : ascii) : bool :=
  existsb (in_range c) rs ||
  (ignorecase && (existsb (in_range (ascii_lower c)) rs || existsb (in_range (ascii_upper c)) rs)).

(** One code point of the subject under an atom.  A code point of a single
    byte is compared as that byte; one of several bytes matches under
    [re.IGNORECASE] only through the ASCII letter it is identified with. *)
Definition atom_matches (ignorecase : bool) (a : atom) (q : string) : bool :=
  match q with
  | String c EmptyString =>
      match a with
      | AChr x => Ascii.eqb x c || (ignorecase && Ascii.eqb (ascii_lower x) (ascii_lower c))
      | ASet negated rs => xorb negated (in_ranges ignorecase rs c)
      end
  | _ =>
      let folded := if ignorecase then ascii_fold q else None in
      match a with
      | AChr x =>
          match folded with Some l => Ascii.eqb (ascii_lower x) l | None => false end
      | ASet negated rs =>
          xorb negated (match folded with Some l => in_ranges true rs l | None => false end)
      end
  end.

Section Matcher.
Context {R : Type}.
Variable ignorecase : bool.

(** [a+]: take one code point, then prefer taking more over stopping. *)
Fixpoint plus_greedy (a : atom) (s : list string) (k : list string -> option R) : option R :=
  match s with
  | nil => None
  | q :: s' =>
      if atom_matches ignorecase a q then
        match plus_greedy a s' k with
        | Some r => Some r
        | None => k s'
        end
      else None
  end.

(** The subject is a list of code points.  The continuation receives the
    rest of the subject and the text of the (single) group captured so far. *)
Fixpoint rmatch (r : regex) (s : list string) (cap : option string)
         (k : list string -> option string -> option R) : option R :=
  match r with
  | Eps => k s cap
  | Atom a =>
      match s with
      | q :: s' => if atom_matches ignorecase a q then k s' cap else None
      | nil => None
      end
  | Cat r1 r2 => rmatch r1 s cap (fun s' cap' => rmatch r2 s' cap' k)
  | Opt r1 =>
      match rmatch r1 s cap k with
      | Some x => Some x
      | None => k s cap
      end
  | Plus a => plus_greedy a s (fun s' => k s' cap)
  | Group r1 =>
      rmatch r1 s cap
        (fun s' _ => k s' (Some (glue (firstn (length s - length s') s))))
  end.
End Matcher.

(** A literal word of the pattern. *)
Fixpoint lit (s : string) : regex :=
  match s with
  | EmptyString => Eps
  | String c s' => Cat (Atom (AChr c)) (lit s')
  end.

(** [re.match(pattern, subject, re.IGNORECASE)] followed by [.group('id')]:
    [None] when there is no match. *)
Definition re_match_id (pattern : regex) (subject : string) : option string :=
  match rmatch true pattern (code_points subject) None (fun _ cap => Some cap) with
  | Some (Some g) => Some g
  | _ => None
  end.

(** ** Class constants (identical in both files) *)

(** [r'https?://(?:[^/]+\.)?cam4\.com/(?P<id>[a-z0-9_]+)'] *)
Definition VALID_URL_PATTERN : regex :=
  Cat (lit "http")
   (Cat (Opt (Atom (AChr "s")))
    (Cat (lit "://")
     (Cat (Opt (Cat (Plus (ASet true (("/", "/") :: nil)%char)) (Atom (AChr "."))))
      (Cat (lit "cam4.com/")
           (Group (Plus (ASet false (("a", "z") :: ("0", "9") :: ("_", "_") :: nil)%char))))))).

Definition BASE_API_URL : string := "https://www.cam4.com/rest/v1.0/profile".
Definition THUMBNAIL_BASE_URL : string := "https://snapshots.xcdnpro.com/thumbnails".

(** ** The world: transport, clock and process table

    [script] is the sequence of transport outcomes: its [n]-th entry answers
    the [n]-th request issued, through whichever transport is plugged in.  An
    outcome is either an exception raised by the transport call or a reply,
    observed through its status code, its body text and what parsing the body
    as JSON gives ([None] when the body is not a JSON document; a zero-length
    body is not one). *)

Record RawResponse := {
  status_code : Z;
  text : string;
  parsed : option value
}.

Inductive Outcome :=
| Fault (e : exn)
| Reply (r : RawResponse).

Inductive Channel :=
| SessionGet        (* [self.session.get(url, timeout=10)] *)
| FlareSolverrGet.  (* [FlareSolverrClient.get(url, timeout=10)] *)

Record World := {
  script : nat -> Outcome;
  requests : list (Channel * value);   (* requests issued so far, oldest first *)
  now : string;                        (* [datetime.now().strftime("%Y%m%d_%H%M%S")] *)
  ffmpeg_present : bool;               (* whether [Popen] finds the executable *)
  spawned : list (list value)          (* argument vectors of the processes started *)
}.

(** Computations: state passing with exceptions. *)
Definition M (A : Type) : Type := World -> Result A * World.

Definition ret {A} (a : A) : M A := fun w => (Ok a, w).
Definition raise {A} (e : exn) : M A := fun w => (Raise e, w).
Definition bind {A B} (m : M A) (f : A -> M B) : M B :=
  fun w => match m w with
           | (Ok a, w') => f a w'
           | (Raise e, w') => (Raise e, w')
           end.
Definition lift {A} (r : Result A) : M A := fun w => (r, w).

(** [try: body / except <classes matched by handler>: ...]: [handler e] is
    [None] when no [except] clause matches [e], which then propagates. *)
Definition try_except {A} (body : M A) (handler : exn -> option (M A)) : M A :=
  fun w => match body w with
           | (Ok a, w') => (Ok a, w')
           | (Raise e, w') =>
               match handler e with
               | Some h => h w'
               | None => (Raise e, w')
               end
           end.

Declare Scope py_scope.
Delimit Scope py_scope with py.
Notation "x <- m ;; k" := (bind m (fun x => k))
  (at level 100, m at next level, right associativity) : py_scope.
Notation "m ;;; k" := (bind m (fun _ => k))
  (at level 100, right associativity) : py_scope.
Local Open Scope py_scope.

(** One transport call: the next entry of the script answers it, and the
    request is recorded. *)
Definition log_request (ch : Channel) (url : value) (w : World) : World :=
  {| script := script w;
     requests := requests w ++ (ch, url) :: nil;
     now := now w;
     ffmpeg_present := ffmpeg_present w;
     spawned := spawned w |}.

Definition transport (ch : Channel) (url : value) : M RawResponse :=
  fun w =>
    match script w (length (requests w)) with
    | Fault e => (Raise e, log_request ch url w)
    | Reply r => (Ok r, log_request ch url w)
    end.

(** [subprocess.Popen(cmd, ...)]: the handle is the index in the process table. *)
Definition Popen (cmd : list value) : M nat :=
  fun w =>
    if ffmpeg_present w then
      (Ok (length (spawned w)),
       {| script := script w;
          requests := requests w;
          now := now w;
          ffmpeg_present := ffmpeg_present w;
          spawned := spawned w ++ cmd :: nil |})
    else (Raise (OtherException "FileNotFoundError"), w).

Definition strftime_now : M string := fun w => (Ok (now w), w).

(** ** Response objects

    The three response classes differ in [raise_for_status] and in the
    exception [json()] raises.  [FlareSolverrResponse] is the class of
    [src/standalone/cam4_standalone.py]; for [requests] the method raises
    [HTTPError] on 4xx and 5xx codes, and for curl_cffi whenever the code is
    outside [200, 400). *)

Inductive ResponseClass :=
| RequestsResponse
| CurlCffiResponse
| FlareSolverrResponse.

Record Response := {
  cls : ResponseClass;
  raw : RawResponse
}.

Definition raise_for_status (r : Response) : Result unit :=
  let s := status_code (raw r) in
  match cls r with
  | RequestsResponse =>
      if (400 <=? s) && (s <? 600) then Raise (HTTPError ("HTTP Error " +:+ pretty s)) else Ok tt
  | CurlCffiResponse =>
      if (200 <=? s) && (s <? 400) then Ok tt else Raise (OtherException ("HTTP Error " +:+ pretty s))
  | FlareSolverrResponse =>
      if 400 <=? s then Raise (OtherException ("HTTP Error " +:+ pretty s)) else Ok tt
  end.

Definition json (r : Response) : Result value :=
  match parsed (raw r) with
  | Some v => Ok v
  | None =>
      match cls r with
      | RequestsResponse => Raise (JSONDecodeError "Expecting value")
      | _ => Raise (OtherException "Expecting value")
      end
  end.

Definition private_message : string :=
  "Stream not accessible - performer may be in a private show or away".

(** The four-way rule both files apply to the probed response. *)
Definition probe_verdict (response : Response) : bool * option string :=
  let content := lower (text (raw response)) in
  if str_in "not allowed to view" content || str_in "session is not allowed" content then
    (false, Some private_message)
  else if (status_code (raw response) =? 400) || (status_code (raw response) =? 403) then
    (false, Some private_message)
  else if str_in "#EXTM3U" (text (raw response)) then
    (true, None)
  else
    (false, Some "Invalid stream response").

(** [extract_username] (the same text in both files). *)
Definition extract_username (url : string) : M string :=
  match re_match_id VALID_URL_PATTERN url with
  | None => raise (CAM4Error (Some ("Invalid CAM4 URL: " +:+ url)) NOT_FOUND)
  | Some id => ret (str_lower id)
  end.

(** ** [src/cam4_standalone.py] *)

Module CAM4Standalone.

Definition session_get (url : value) : M Response :=
  r <- transport SessionGet url ;;
  ret {| cls := RequestsResponse; raw := r |}.

Definition get_profile_info (username : string) : M value :=
  let url := BASE_API_URL +:+ "/" +:+ username +:+ "/info" in
  try_except
    (response <- session_get (PyStr url) ;;
     if status_code (raw response) =? 404 then ret PyNone
     else
       lift (raise_for_status response) ;;;
       lift (json response))
    (fun e =>
       if is_JSONDecodeError e then Some (ret PyNone)
       else if is_RequestException e then Some (ret PyNone)
       else None).

Definition get_stream_info (username : string) : M value :=
  let url := BASE_API_URL +:+ "/" +:+ username +:+ "/streamInfo" in
  try_except
    (response <- session_get (PyStr url) ;;
     if status_code (raw response) =? 204 then ret PyNone
     else if status_code (raw response) =? 404 then ret PyNone
     else
       lift (raise_for_status response) ;;;
       data <- lift (json response) ;;
       ret (if truthy data then data else PyNone))
    (fun e =>
       if is_JSONDecodeError e then Some (ret PyNone)
       else if is_RequestException e then Some (ret PyNone)
       else None).

Definition verify_stream_accessible (m3u8_url : value) : M (bool * option string) :=
  try_except
    (response <- session_get m3u8_url ;;
     ret (probe_verdict response))
    (fun e =>
       if is_RequestException e
       then Some (ret (false, Some ("Error accessing stream: " +:+ exn_str e)))
       else None).

Definition check_performer (url : string) : M PerformerInfo :=
  username <- extract_username url ;;
  let thumbnail_url := THUMBNAIL_BASE_URL +:+ "/" +:+ username in
  profile <- get_profile_info username ;;
  if negb (truthy profile) then
    ret {| username := username; status := NOT_FOUND;
           stream_url := None; thumbnail_url := None;
           error_message := Some (username +:+ ": Performer not found") |}
  else
  is_online <- lift (dict_get profile "online" (PyBool false)) ;;
  if negb (truthy is_online) then
    ret {| username := username; status := OFFLINE;
           stream_url := None; thumbnail_url := Some thumbnail_url;
           error_message := Some (username +:+ ": Performer is currently offline") |}
  else
  stream_info <- get_stream_info username ;;
  if negb (truthy stream_info) then
    ret {| username := username; status := ONLINE_NOT_STREAMING;
           stream_url := None; thumbnail_url := Some thumbnail_url;
           error_message :=
             Some (username +:+ ": Performer is online but not currently streaming") |}
  else
  cdn_url <- lift (dict_get stream_info "cdnURL" PyNone) ;;
  if negb (truthy cdn_url) then
    ret {| username := username; status := ONLINE_NOT_STREAMING;
           stream_url := None; thumbnail_url := Some thumbnail_url;
           error_message :=
             Some (username +:+ ": Stream info found but no playlist URL available") |}
  else
  res <- verify_stream_accessible cdn_url ;;
  if negb (fst res) then
    ret {| username := username; status := PRIVATE_OR_AWAY;
           stream_url := None; thumbnail_url := Some thumbnail_url;
           error_message := Some (username +:+ ": " +:+ fmt (snd res)) |}
  else
    ret {| username := username; status := STREAMING;
           stream_url := Some cdn_url; thumbnail_url := Some thumbnail_url;
           error_message := None |}.

Definition record_stream (url : string) (output_path : option string)
           (ffmpeg_args : option (list value)) : M nat :=
  info <- check_performer url ;;
  if negb (PerformerStatus_eqb (status info) STREAMING) then
    raise (CAM4Error (error_message info) (status info))
  else
  output_path' <-
    (match output_path with
     | Some (String c p) => ret (String c p)
     | _ => timestamp <- strftime_now ;;
            ret (username info +:+ "_" +:+ timestamp +:+ ".ts")
     end) ;;
  let cmd := PyStr "ffmpeg" :: PyStr "-i"
               :: match stream_url info with Some u => u | None => PyNone end
               :: PyStr "-c:v" :: PyStr "copy" :: PyStr "-c:a" :: PyStr "copy"
               :: PyStr "-y" :: nil in
  let cmd := match ffmpeg_args with
             | Some (a :: l) => (cmd ++ a :: l)%list
             | _ => cmd
             end in
  let cmd := (cmd ++ PyStr output_path' :: nil)%list in
  Popen cmd.

End CAM4Standalone.

(** ** [src/standalone/cam4_standalone.py] *)

Module CAM4StandaloneLib.

(** What [__init__] leaves in the object: whether curl_cffi was importable,
    the [use_flaresolverr] argument, and whether [self._flaresolverr] is set
    (a URL was given and its health check passed). *)
Record Config := {
  USING_CURL_CFFI : bool;
  _use_flaresolverr : bool;
  _flaresolverr : bool
}.

Definition session_cls (cfg : Config) : ResponseClass :=
  if USING_CURL_CFFI cfg && negb (_use_flaresolverr cfg)
  then CurlCffiResponse else RequestsResponse.

Definition session_get (cfg : Config) (url : value) : M Response :=
  r <- transport SessionGet url ;;
  ret {| cls := session_cls cfg; raw := r |}.

(** [FlareSolverrClient.get]: the proxy round trip is one transport call; a
    reply carries the solution's status and response text, every failure of
    the round trip (HTTP error of the proxy, status other than "ok") is the
    fault of that call. *)
Definition flaresolverr_get (url : value) : M Response :=
  r <- transport FlareSolverrGet url ;;
  ret {| cls := FlareSolverrResponse; raw := r |}.

Definition _make_request (cfg : Config) (url : value) : M Response :=
  if _use_flaresolverr cfg && _flaresolverr cfg then
    try_except (flaresolverr_get url)
      (fun e => if is_Exception e then Some (session_get cfg url) else None)
  else session_get cfg url.

Definition get_profile_info (cfg : Config) (username : string) : M value :=
  try_except
    (response <- _make_request cfg (PyStr (BASE_API_URL +:+ "/" +:+ username +:+ "/info")) ;;
     if status_code (raw response) =? 404 then ret PyNone
     else
       lift (raise_for_status response) ;;;
       lift (json response))
    (fun _ => Some (ret PyNone)).

Definition get_stream_info (cfg : Config) (username : string) : M value :=
  try_except
    (response <- _make_request cfg (PyStr (BASE_API_URL +:+ "/" +:+ username +:+ "/streamInfo")) ;;
     if (status_code (raw response) =? 204) || (status_code (raw response) =? 404)
     then ret PyNone
     else
       lift (raise_for_status response) ;;;
       data <- lift (json response) ;;
       ret (if truthy data then data else PyNone))
    (fun _ => Some (ret PyNone)).

Definition verify_stream_accessible (cfg : Config) (m3u8_url : value)
  : M (bool * option string) :=
  try_except
    (response <- _make_request cfg m3u8_url ;;
     ret (probe_verdict response))
    (fun e =>
       if is_Exception e
       then Some (ret (false, Some ("Error accessing stream: " +:+ exn_str e)))
       else None).

(** [d[key]] *)
Definition dict_index (d : value) (key : string) : Result value :=
  match d with
  | PyDict m => match m !! key with
                | Some v => Ok v
                | None => Raise (OtherException "KeyError")
                end
  | _ => Raise (OtherException "TypeError")
  end.

Definition check_performer (cfg : Config) (url : string) : M PerformerInfo :=
  username <- extract_username url ;;
  let thumbnail_url := THUMBNAIL_BASE_URL +:+ "/" +:+ username in
  profile <- get_profile_info cfg username ;;
  if negb (truthy profile) then
    ret {| username := username; status := NOT_FOUND;
           stream_url := None; thumbnail_url := None;
           error_message := Some (username +:+ ": Performer not found") |}
  else
  is_online <- lift (dict_get profile "online" (PyBool false)) ;;
  if negb (truthy is_online) then
    ret {| username := username; status := OFFLINE;
           stream_url := None; thumbnail_url := Some thumbnail_url;
           error_message := Some (username +:+ ": Performer is currently offline") |}
  else
  stream_info <- get_stream_info cfg username ;;
  no_url <- (if negb (truthy stream_info) then ret true
             else v <- lift (dict_get stream_info "cdnURL" PyNone) ;;
                  ret (negb (truthy v))) ;;
  if (no_url : bool) then
    ret {| username := username; status := ONLINE_NOT_STREAMING;
           stream_url := None; thumbnail_url := Some thumbnail_url;
           error_message :=
             Some (username +:+ ": Performer is online but not currently streaming") |}
  else
  cdn_url <- lift (dict_index stream_info "cdnURL") ;;
  res <- verify_stream_accessible cfg cdn_url ;;
  if negb (fst res) then
    ret {| username := username; status := PRIVATE_OR_AWAY;
           stream_url := None; thumbnail_url := Some thumbnail_url;
           error_message := Some (username +:+ ": " +:+ fmt (snd res)) |}
  else
    ret {| username := username; status := STREAMING;
           stream_url := Some cdn_url; thumbnail_url := Some thumbnail_url;
           error_message := None |}.

Definition record_stream (cfg : Config) (url : string) (output_path : option string)
           (ffmpeg_args : option (list value)) : M nat :=
  info <- check_performer cfg url ;;
  if negb (PerformerStatus_eqb (status info) STREAMING) then
    raise (CAM4Error (error_message info) (status info))
  else
  output_path' <-
    (match output_path with
     | Some (String c p) => ret (String c p)
     | _ => timestamp <- strftime_now ;;
            ret (username info +:+ "_" +:+ timestamp +:+ ".ts")
     end) ;;
  let cmd := PyStr "ffmpeg" :: PyStr "-i"
               :: match stream_url info with Some u => u | None => PyNone end
               :: PyStr "-c:v" :: PyStr "copy" :: PyStr "-c:a" :: PyStr "copy"
               :: PyStr "-y" :: nil in
  let cmd := match ffmpeg_args with
             | Some (a :: l) => (cmd ++ a :: l)%list
             | _ => cmd
             end in
  let cmd := (cmd ++ PyStr output_path' :: nil)%list in
  Popen cmd.

End CAM4StandaloneLib.

(** ** Occurrences in a body *)

(** A case-insensitive occurrence of [phrase] in [body]: some stretch of the
    body differs from the phrase in letter case only. *)
Definition occurs_nocase (phrase body : string) : Prop :=
  exists pre mid post, body = pre +:+ mid +:+ post /\ lower mid = lower phrase.

Definition occurs (word body : string) : Prop :=
  exists pre post, body = pre +:+ word +:+ post.

(** The marker phrases of the private/away gate. *)
Definition has_private_marker (body : string) : Prop :=
  occurs_nocase "not allowed to view" body \/ occurs_nocase "session is not allowed" body.

Definition private_marker_b (body : string) : bool :=
  str_in "not allowed to view" (lower body) || str_in "session is not allowed" (lower body).

(** ** What the pattern means

    The words (of code points) a regular expression of the fragment accepts,
    independently of the matcher. *)
Inductive lang (ignorecase : bool) : regex -> list string -> Prop :=
| lang_eps : lang ignorecase Eps nil
| lang_atom a q :
    atom_matches ignorecase a q = true -> lang ignorecase (Atom a) (q :: nil)
| lang_cat r1 r2 x y :
    lang ignorecase r1 x -> lang ignorecase r2 y -> lang ignorecase (Cat r1 r2) (x ++ y)%list
| lang_opt_skip r : lang ignorecase (Opt r) nil
| lang_opt_take r x : lang ignorecase r x -> lang ignorecase (Opt r) x
| lang_plus_one a q :
    atom_matches ignorecase a q = true -> lang ignorecase (Plus a) (q :: nil)
| lang_plus_more a q x :
    atom_matches ignorecase a q = true -> lang ignorecase (Plus a) x ->
    lang ignorecase (Plus a) (q :: x)
| lang_group r x : lang ignorecase r x -> lang ignorecase (Group r) x.

(** The pattern's last component is its group. *)
Fixpoint ends_in_group (r : regex) : bool :=
  match r with
  | Group _ => true
  | Cat _ r2 => ends_in_group r2
  | _ => false
  end.

(** [url] matches the identifier pattern: some prefix of its code points is
    a word of [VALID_URL_PATTERN], letter case ignored. *)
Definition url_matches (url : string) : Prop :=
  exists pre rest, code_points url = (pre ++ rest)%list /\ lang true VALID_URL_PATTERN pre.

(** A continuation whose success does not depend on the captured group. *)
Definition cap_blind {R} (k : list string -> option string -> option R) : Prop :=
  forall s c1 c2, is_Some (k s c1) -> is_Some (k s c2).

(** ** Vocabulary of the properties *)

(** The outcome of the [k]-th request issued from world [w] on. *)
Definition nth_outcome (w : World) (k : nat) : Outcome :=
  script w (length (requests w) + k).

(** Transport-level faults: timeouts, refused or reset connections, invalid
    URLs, HTTP errors and undecodable bodies all reach the caller of
    [requests] as subclasses of [RequestException]. *)
Definition transport_fault (e : exn) : Prop := is_RequestException e = true.

(** A zero-length body is not a JSON document. *)
Definition json_coherent (r : RawResponse) : Prop :=
  text r = "" -> parsed r = None.

(** The profile lookup succeeded with the record [m]. *)
Definition profile_found (o : Outcome) (m : gmap string value) : Prop :=
  exists r, o = Reply r /\ status_code r <> 404 /\ ~ (400 <= status_code r < 600) /\
            parsed r = Some (PyDict m) /\ m <> ∅.

Definition reports_online (m : gmap string value) : Prop :=
  exists v, m !! "online" = Some v /\ truthy v = true.

(** The online flag is absent, [false], or another false value. *)
Definition reports_offline (m : gmap string value) : Prop :=
  forall v, m !! "online" = Some v -> truthy v = false.

(** The stream-descriptor lookup succeeded with the descriptor [d]. *)
Definition descriptor_found (o : Outcome) (d : gmap string value) : Prop :=
  exists r, o = Reply r /\ status_code r <> 204 /\ status_code r <> 404 /\
            ~ (400 <= status_code r < 600) /\ parsed r = Some (PyDict d).

Definition playback_url (d : gmap string value) (u : value) : Prop :=
  d !! "cdnURL" = Some u /\ truthy u = true.

(** The first two requests of the chain yield the playback URL [u]. *)
Definition playback_url_obtained (w : World) (u : value) : Prop :=
  exists m d, profile_found (nth_outcome w 0) m /\ reports_online m /\
              descriptor_found (nth_outcome w 1) d /\ playback_url d u.

(** The profile lookup signals absence. *)
Inductive profile_absent : Outcome -> Prop :=
| absent_status r : status_code r = 404 -> profile_absent (Reply r)
| absent_unparsable r : parsed r = None -> profile_absent (Reply r)
| absent_zero_length r : json_coherent r -> text r = "" -> profile_absent (Reply r)
| absent_empty_value r v : parsed r = Some v -> truthy v = false -> profile_absent (Reply r)
| absent_fault e : transport_fault e -> profile_absent (Fault e).

(** The stream-descriptor lookup yields no playback URL. *)
Inductive no_playback_url : Outcome -> Prop :=
| npu_no_content r : status_code r = 204 -> no_playback_url (Reply r)
| npu_resource_absent r : status_code r = 404 -> no_playback_url (Reply r)
| npu_unparsable r : parsed r = None -> no_playback_url (Reply r)
| npu_zero_length r : json_coherent r -> text r = "" -> no_playback_url (Reply r)
| npu_empty_value r v : parsed r = Some v -> truthy v = false -> no_playback_url (Reply r)
| npu_field_missing r d :
    parsed r = Some (PyDict d) -> d !! "cdnURL" = None -> no_playback_url (Reply r)
| npu_field_empty r d v :
    parsed r = Some (PyDict d) -> d !! "cdnURL" = Some v -> truthy v = false ->
    no_playback_url (Reply r)
| npu_fault e : transport_fault e -> no_playback_url (Fault e).

Definition five_states (s : PerformerStatus) : Prop :=
  s = NOT_FOUND \/ s = OFFLINE \/ s = ONLINE_NOT_STREAMING \/ s = PRIVATE_OR_AWAY \/ s = STREAMING.

Definition thumbnail_template (identifier : string) : string :=
  THUMBNAIL_BASE_URL +:+ "/" +:+ identifier.

(** What each lookup of [src/cam4_standalone.py] makes of one outcome. *)
Definition profile_result (o : Outcome) : Result value :=
  match o with
  | Fault e => if is_RequestException e then Ok PyNone else Raise e
  | Reply r =>
      if status_code r =? 404 then Ok PyNone
      else if (400 <=? status_code r) && (status_code r <? 600) then Ok PyNone
      else match parsed r with Some v => Ok v | None => Ok PyNone end
  end.

Definition stream_result (o : Outcome) : Result value :=
  match o with
  | Fault e => if is_RequestException e then Ok PyNone else Raise e
  | Reply r =>
      if status_code r =? 204 then Ok PyNone
      else if status_code r =? 404 then Ok PyNone
      else if (400 <=? status_code r) && (status_code r <? 600) then Ok PyNone
      else match parsed r with
           | Some v => Ok (if truthy v then v else PyNone)
           | None => Ok PyNone
           end
  end.

Definition probe_result (o : Outcome) : Result (bool * option string) :=
  match o with
  | Fault e =>
      if is_RequestException e
      then Ok (false, Some ("Error accessing stream: " +:+ exn_str e))
      else Raise e
  | Reply r => Ok (probe_verdict {| cls := RequestsResponse; raw := r |})
  end.

(** The decision tree of [check_performer] in [src/cam4_standalone.py] over
    the outcomes of its three requests, for the identifier [u]. *)
Definition classify (u : string) (o0 o1 o2 : Outcome) : Result PerformerInfo :=
  match profile_result o0 with
  | Raise e => Raise e
  | Ok profile =>
  if negb (truthy profile) then
    Ok {| username := u; status := NOT_FOUND; stream_url := None; thumbnail_url := None;
          error_message := Some (u +:+ ": Performer not found") |}
  else
  match dict_get profile "online" (PyBool false) with
  | Raise e => Raise e
  | Ok is_online =>
  if negb (truthy is_online) then
    Ok {| username := u; status := OFFLINE; stream_url := None;
          thumbnail_url := Some (thumbnail_template u);
          error_message := Some (u +:+ ": Performer is currently offline") |}
  else
  match stream_result o1 with
  | Raise e => Raise e
  | Ok stream_info =>
  if negb (truthy stream_info) then
    Ok {| username := u; status := ONLINE_NOT_STREAMING; stream_url := None;
          thumbnail_url := Some (thumbnail_template u);
          error_message := Some (u +:+ ": Performer is online but not currently streaming") |}
  else
  match dict_get stream_info "cdnURL" PyNone with
  | Raise e => Raise e
  | Ok cdn_url =>
  if negb (truthy cdn_url) then
    Ok {| username := u; status := ONLINE_NOT_STREAMING; stream_url := None;
          thumbnail_url := Some (thumbnail_template u);
          error_message := Some (u +:+ ": Stream info found but no playlist URL available") |}
  else
  match probe_result o2 with
  | Raise e => Raise e
  | Ok res =>
  if negb (fst res) then
    Ok {| username := u; status := PRIVATE_OR_AWAY; stream_url := None;
          thumbnail_url := Some (thumbnail_template u);
          error_message := Some (u +:+ ": " +:+ fmt (snd res)) |}
  else
    Ok {| username := u; status := STREAMING; stream_url := Some cdn_url;
          thumbnail_url := Some (thumbnail_template u); error_message := None |}
  end end end end end.

(** A computation that starts no process. *)
Definition keeps_processes {A} (m : M A) : Prop :=
  forall w, spawned (snd (m w)) = spawned w.

(** The thumbnail a result carries, by state. *)
Definition thumbnail_for (identifier : string) (s : PerformerStatus) : option string :=
  match s with
  | NOT_FOUND => None
  | _ => Some (thumbnail_template identifier)
  end.

(** ** Comparing the two implementations *)

(** Two outcomes of [check_performer] that a caller cannot tell apart by
    status, stream URL and thumbnail URL (the messages may differ). *)
Definition same_result (a b : Result PerformerInfo) : Prop :=
  match a, b with
  | Ok i, Ok j =>
      status i = status j /\ stream_url i = stream_url j /\
      thumbnail_url i = thumbnail_url j
  | Raise e, Raise e' => e = e'
  | _, _ => False
  end.

(** The class of the response objects, and the channel, that
    [_make_request] uses while no request fails. *)
Definition request_cls (cfg : CAM4StandaloneLib.Config) : ResponseClass :=
  if CAM4StandaloneLib._use_flaresolverr cfg && CAM4StandaloneLib._flaresolverr cfg
  then FlareSolverrResponse else CAM4StandaloneLib.session_cls cfg.

Definition request_channel (cfg : CAM4StandaloneLib.Config) : Channel :=
  if CAM4StandaloneLib._use_flaresolverr cfg && CAM4StandaloneLib._flaresolverr cfg
  then FlareSolverrGet else SessionGet.

Definition passes (c : ResponseClass) (r : RawResponse) : bool :=
  match raise_for_status {| cls := c; raw := r |} with
  | Ok _ => true
  | Raise _ => false
  end.

(** Status codes on which the three [raise_for_status] agree, or a client
    that runs on the plain [requests] session as the script does. *)
Definition comparable (cfg : CAM4StandaloneLib.Config) (r : RawResponse) : Prop :=
  200 <= status_code r < 600 \/ request_cls cfg = RequestsResponse.

(** ** Test worlds *)

Definition fresh_world (s : nat -> Outcome) : World :=
  {| script := s; requests := nil; now := "20240101_000000";
     ffmpeg_present := true; spawned := nil |}.

Definition reply (code : Z) (body : string) (doc : option value) : Outcome :=
  Reply {| status_code := code; text := body; parsed := doc |}.

(** The scenario of the design document: [foo_1], profile [{online: true}],
    descriptor [{cdnURL: "https://cdn/x.m3u8"}], a playlist body. *)
Definition scenario_streaming (n : nat) : Outcome :=
  match n with
  | O => reply 200 "{online: true}" (Some (PyDict {[ "online" := PyBool true ]}))
  | S O => reply 200 "{cdnURL: https://cdn/x.m3u8}"
             (Some (PyDict {[ "cdnURL" := PyStr "https://cdn/x.m3u8" ]}))
  | _ => reply 200 "#EXTM3U
#EXT-X-VERSION:3" None
  end.

(** A private-gate body that also carries the playlist header, behind a
    benign status. *)
Definition scenario_private (n : nat) : Outcome :=
  match n with
  | O => reply 200 "{online: true}" (Some (PyDict {[ "online" := PyBool true ]}))
  | S O => reply 200 "{cdnURL: https://cdn/x.m3u8}"
             (Some (PyDict {[ "cdnURL" := PyStr "https://cdn/x.m3u8" ]}))
  | _ => reply 200 "#EXTM3U Session is NOT Allowed to view this stream" None
  end.

(** A playlist body behind status 403. *)
Definition scenario_forbidden_playlist (n : nat) : Outcome :=
  match n with
  | O => reply 200 "{online: true}" (Some (PyDict {[ "online" := PyBool true ]}))
  | S O => reply 200 "{cdnURL: https://cdn/x.m3u8}"
             (Some (PyDict {[ "cdnURL" := PyStr "https://cdn/x.m3u8" ]}))
  | _ => reply 403 "#EXTM3U" None
  end.

(** The profile endpoint answers with a JSON array. *)
Definition scenario_array_profile (n : nat) : Outcome :=
  match n with
  | O => reply 200 "[1]" (Some (PyList (PyInt 1 :: nil)))
  | _ => reply 200 "" None
  end.

(** The profile endpoint answers with the empty object. *)
Definition scenario_empty_profile (n : nat) : Outcome :=
  reply 200 "{}" (Some (PyDict ∅)).


(** The profile endpoint answers 404. *)
Definition scenario_absent (n : nat) : Outcome :=
  reply 404 "Not Found" None.

(** The profile reports the performer offline. *)
Definition scenario_offline (n : nat) : Outcome :=
  reply 200 "{online: false}" (Some (PyDict {[ "online" := PyBool false ]})).

Definition plain_requests : CAM4StandaloneLib.Config :=
  {| CAM4StandaloneLib.USING_CURL_CFFI := false;
     CAM4StandaloneLib._use_flaresolverr := false;
     CAM4StandaloneLib._flaresolverr := false |}.

Definition through_flaresolverr : CAM4StandaloneLib.Config :=
  {| CAM4StandaloneLib.USING_CURL_CFFI := false;
     CAM4StandaloneLib._use_flaresolverr := true;
     CAM4StandaloneLib._flaresolverr := true |}.

(** Online, and the descriptor endpoint answers 204 No Content. *)
Definition scenario_no_content (n : nat) : Outcome :=
  match n with
  | O => reply 200 "{online: true}" (Some (PyDict {[ "online" := PyBool true ]}))
  | _ => reply 204 "" None
  end.

(** An offline profile delivered with the status code 600. *)
Definition scenario_status_600 (n : nat) : Outcome :=
  reply 600 "{online: false}" (Some (PyDict {[ "online" := PyBool false ]})).

(** The FlareSolverr round trip fails, the session then gets a 404. *)
Definition scenario_proxy_down (n : nat) : Outcome :=
  match n with
  | O => Fault (OtherException "FlareSolverr error: Unknown error")
  | _ => reply 404 "Not Found" None
  end.

(** ** Identifiers *)

(** The characters of [a-z0-9_]. *)
Definition is_ident_char (c : ascii) : bool :=
  let n := N_of_ascii c in
  (((97 <=? n) && (n <=? 122)) || ((48 <=? n) && (n <=? 57)) || (n =? 95))%N.

Fixpoint str_forall (p : ascii -> bool) (s : string) : bool :=
  match s with
  | EmptyString => true
  | String c s' => p c && str_forall p s'
  end.

(** A text of ASCII characters only, and its code points. *)
Definition is_ascii (s : string) : bool :=
  str_forall (fun c => (N_of_ascii c <? 128)%N) s.

Fixpoint singles (s : string) : list string :=
  match s with
  | EmptyString => nil
  | String c s' => String c "" :: singles s'
  end.

(** The atom repeated inside the group a pattern ends in. *)
Fixpoint last_group_plus (r : regex) : option atom :=
  match r with
  | Group (Plus a) => Some a
  | Cat _ r2 => last_group_plus r2
  | _ => None
  end.

(** ** The result record *)

(** What every result record satisfies: a stream URL exactly in the state
    STREAMING, a message exactly in the other states, and a stream URL that
    is never an empty value. *)
Definition well_formed_result (info : PerformerInfo) : Prop :=
  (stream_url info = None <-> status info <> STREAMING) /\
  (error_message info = None <-> status info = STREAMING) /\
  (forall v, stream_url info = Some v -> truthy v = true).

(** ** Request traces *)

Definition info_url (identifier : string) : value :=
  PyStr (BASE_API_URL +:+ "/" +:+ identifier +:+ "/info").

Definition stream_info_url (identifier : string) : value :=
  PyStr (BASE_API_URL +:+ "/" +:+ identifier +:+ "/streamInfo").

(** The requests the script issues for a result in state [s], in order. *)
Definition requests_in_state (identifier : string) (s : PerformerStatus) (probed : value)
  : list (Channel * value) :=
  (SessionGet, info_url identifier) ::
  match s with
  | NOT_FOUND | OFFLINE => nil
  | ONLINE_NOT_STREAMING => (SessionGet, stream_info_url identifier) :: nil
  | PRIVATE_OR_AWAY | STREAMING =>
      (SessionGet, stream_info_url identifier) :: (SessionGet, probed) :: nil
  end.

(** The probe meets a connection reset. *)
Definition scenario_probe_reset (n : nat) : Outcome :=
  match n with
  | O => reply 200 "{online: true}" (Some (PyDict {[ "online" := PyBool true ]}))
  | S O => reply 200 "{cdnURL: https://cdn/x.m3u8}"
             (Some (PyDict {[ "cdnURL" := PyStr "https://cdn/x.m3u8" ]}))
  | _ => Fault (RequestException "Connection reset by peer")
  end.

(** The user interrupts every request. *)
Definition scenario_interrupted (n : nat) : Outcome :=
  Fault (BaseExceptionOnly "KeyboardInterrupt").

(** ** Recording *)

(** A computation that leaves an observation [f] of the world alone. *)
Definition preserves {A X} (f : World -> X) (m : M A) : Prop :=
  forall w, f (snd (m w)) = f w.

(** The argument vector [record_stream] builds. *)
Definition ffmpeg_command (playback : value) (extra : list value) (path : string)
  : list value :=
  (PyStr "ffmpeg" :: PyStr "-i" :: playback
     :: PyStr "-c:v" :: PyStr "copy" :: PyStr "-c:a" :: PyStr "copy" :: PyStr "-y" :: nil)
    ++ extra ++ PyStr path :: nil.

(** The output path [record_stream] writes to. *)
Definition recording_path (output_path : option string) (identifier : string)
           (timestamp : string) : string :=
  match output_path with
  | Some (String c p) => String c p
  | _ => identifier +:+ "_" +:+ timestamp +:+ ".ts"
  end.

(** ** Constructing the library client

    [FlareSolverrClient.is_available] and the part of
    [CAM4Standalone.__init__] that selects the transport, in
    [src/standalone/cam4_standalone.py].  [health] is the outcome of the
    health request, which is issued only when a URL was given. *)

Module FlareSolverrClient.

(** [requests.get(f"{base_url}/health", timeout=5)], then
    [status_code == 200]; the bare [except] turns every exception into
    [False]. *)
Definition is_available (health : Outcome) : bool :=
  match health with
  | Reply r => status_code r =? 200
  | Fault _ => false
  end.

End FlareSolverrClient.

Module CAM4StandaloneLibSetup.

(** [requests_importable] tells whether [import requests] succeeded (the
    module binds [requests = None] otherwise, and then needs curl_cffi to
    load at all); the constructor raises when it needs [requests.Session]
    and there is none. *)
Definition __init__ (curl_cffi_importable requests_importable : bool)
           (flaresolverr_url : option string) (use_flaresolverr : bool)
           (health : Outcome) : Result CAM4StandaloneLib.Config :=
  let available :=
    match flaresolverr_url with
    | Some (String _ _) =>
        FlareSolverrClient.is_available
          (if requests_importable then health
           else Fault (AttributeError "'NoneType' object has no attribute 'get'"))
    | _ => false
    end in
  if (curl_cffi_importable && negb use_flaresolverr) || requests_importable then
    Ok {| CAM4StandaloneLib.USING_CURL_CFFI := curl_cffi_importable;
          CAM4StandaloneLib._use_flaresolverr := use_flaresolverr;
          CAM4StandaloneLib._flaresolverr := available |}
  else Raise (AttributeError "'NoneType' object has no attribute 'Session'").

End CAM4StandaloneLibSetup.

(** ** Loading cookies: [_load_cookies_from_file] of the library module

    A cookie is the argument list of one call
    [self.session.cookies.set(name, value, domain=, path=, secure=)]; the jar
    is the list of the calls made, oldest first. *)

Module Cookies.

Record Cookie := {
  name : string;
  value_ : string;
  domain : string;
  path : string;
  secure : bool
}.

(** The ASCII characters [str.isspace] accepts. *)
Definition ascii_space (c : ascii) : bool :=
  let n := N_of_ascii c in
  (((9 <=? n) && (n <=? 13)) || ((28 <=? n) && (n <=? 32)))%N.

(** The rest of [s] after one leading whitespace character, if it starts
    with one: an ASCII one, or the UTF-8 form of U+0085, U+00A0, U+1680,
    U+2000..U+200A, U+2028, U+2029, U+202F, U+205F or U+3000. *)
Definition drop_space (s : string) : option string :=
  match s with
  | EmptyString => None
  | String c r =>
      if ascii_space c then Some r
      else if (N_of_ascii c =? 194)%N then
        match r with
        | String d r' =>
            if ((N_of_ascii d =? 133) || (N_of_ascii d =? 160))%N then Some r' else None
        | _ => None
        end
      else if ((N_of_ascii c =? 225) || (N_of_ascii c =? 226) || (N_of_ascii c =? 227))%N
      then
        match r with
        | String d (String e r') =>
            let x := N_of_ascii c in
            let y := N_of_ascii d in
            let z := N_of_ascii e in
            if (((x =? 225) && (y =? 154) && (z =? 128)) ||
                ((x =? 226) && (y =? 128) &&
                 (((128 <=? z) && (z <=? 138)) || (z =? 168) || (z =? 169) || (z =? 175))) ||
                ((x =? 226) && (y =? 129) && (z =? 159)) ||
                ((x =? 227) && (y =? 128) && (z =? 128)))%N
            then Some r' else None
        | _ => None
        end
      else None
  end.

(** [s.lstrip()], on at most [fuel] leading characters. *)
Fixpoint lstrip_fuel (fuel : nat) (s : string) : string :=
  match fuel with
  | O => s
  | S fuel' =>
      match drop_space s with
      | Some r => lstrip_fuel fuel' r
      | None => s
      end
  end.

Definition lstrip (s : string) : string := lstrip_fuel (String.length s) s.

(** [s] consists of whitespace only. *)
Definition all_space (s : string) : bool :=
  match lstrip s with EmptyString => true | _ => false end.

(** [s.rstrip()] *)
Fixpoint rstrip (s : string) : string :=
  match s with
  | EmptyString => EmptyString
  | String c s' => if all_space s then EmptyString else String c (rstrip s')
  end.

(** [s.strip()] *)
Definition strip (s : string) : string := rstrip (lstrip s).

(** [s.upper()] *)
Fixpoint upper (s : string) : string :=
  match s with
  | EmptyString => EmptyString
  | String c s' => String (ascii_upper c) (upper s')
  end.

(** [s.split(sep)] for a one-character separator. *)
Fixpoint split (sep : ascii) (s : string) : list string :=
  match s with
  | EmptyString => EmptyString :: nil
  | String c s' =>
      if Ascii.eqb c sep then EmptyString :: split sep s'
      else match split sep s' with
           | h :: t => String c h :: t
           | nil => String c EmptyString :: nil
           end
  end.

Definition tab : ascii := "009"%char.

(** The body of the loop, for one line: the cookie to set, if any. *)
Definition load_line (line : string) : option Cookie :=
  let line := strip line in
  match line with
  | EmptyString => None
  | String c _ =>
      if Ascii.eqb c "#" then None
      else
        match split tab line with
        | domain :: _ :: path :: secure :: expires :: name :: value :: _ =>
            if str_in "cam4.com" domain then
              Some {| name := name; value_ := value; domain := domain; path := path;
                      secure := String.eqb (upper secure) "TRUE" |}
            else None
        | _ => None
        end
  end.

(** The loop over what iterating the file yields: a line, or the exception
    reading raised at that point. *)
Fixpoint load_lines (reads : list (Result string)) (jar : list Cookie)
  : Result unit * list Cookie :=
  match reads with
  | nil => (Ok tt, jar)
  | Ok line :: rest =>
      load_lines rest
        (match load_line line with Some c => jar ++ c :: nil | None => jar end)
  | Raise e :: _ => (Raise e, jar)
  end.

(** [_load_cookies_from_file]: [file] is what [open(filepath, 'r')] gives,
    the reads of the file or the exception raised on opening; [except
    Exception] ends the loading silently. *)
Definition _load_cookies_from_file (file : Result (list (Result string)))
           (jar : list Cookie) : Result unit * list Cookie :=
  match file with
  | Raise e => (if is_Exception e then Ok tt else Raise e, jar)
  | Ok reads =>
      match load_lines reads jar with
      | (Raise e, jar') => (if is_Exception e then Ok tt else Raise e, jar')
      | done => done
      end
  end.

(** The tab-separated line of a list of fields. *)
Fixpoint join_tab (fields : list string) : string :=
  match fields with
  | nil => EmptyString
  | f :: nil => f
  | f :: rest => f +:+ String tab (join_tab rest)
  end.

Fixpoint has_char (c : ascii) (s : string) : bool :=
  match s with
  | EmptyString => false
  | String d s' => Ascii.eqb d c || has_char c s'
  end.

(** An ASCII character that is not whitespace. *)
Definition solid (c : ascii) : bool :=
  (N_of_ascii c <? 128)%N && negb (ascii_space c).

Definition nonsolid (c : ascii) : bool := negb (solid c).

Definition first_solid (s : string) : bool :=
  match s with String c _ => solid c | EmptyString => false end.

Fixpoint last_solid (s : string) : bool :=
  match s with
  | EmptyString => false
  | String c EmptyString => solid c
  | String _ r => last_solid r
  end.

Fixpoint count (c : ascii) (s : string) : nat :=
  match s with
  | EmptyString => O
  | String d s' => ((if Ascii.eqb d c then 1 else 0) + count c s')%nat
  end.

(** The line of the cookie-jar text format for a cookie: domain, flag, path,
    secure-flag, expiry, name, value, separated by tabs and ended by a
    newline. *)
Definition netscape_line (c : Cookie) (flag expires : string) : string :=
  join_tab (domain c :: flag :: path c :: (if secure c then "TRUE" else "FALSE")
              :: expires :: name c :: value_ c :: nil) +:+ String "010" "".

(** The cookies a list of lines contributes, in order. *)
Fixpoint cookies_of (lines : list string) : list Cookie :=
  match lines with
  | nil => nil
  | l :: rest =>
      match load_line l with
      | Some c => c :: cookies_of rest
      | None => cookies_of rest
      end
  end.

End Cookies.

(** ** Downloading the thumbnail: [download_thumbnail] of both files

    The disk is a finite map from paths to contents, with the paths that
    cannot be opened for writing; [content] gives the bytes of a response
    body ([response.content]). *)

Module Thumbnails.

Record Disk := {
  files : gmap string string;
  unwritable : string -> bool
}.

(** [with open(path, 'wb') as f: f.write(data)] *)
Definition write_file (path data : string) (d : Disk) : Result unit * Disk :=
  if unwritable d path then (Raise (OtherException "PermissionError"), d)
  else (Ok tt, {| files := <[ path := data ]> (files d); unwritable := unwritable d |}).

Definition thumb_path (output_path : option string) (username : string) : string :=
  match output_path with
  | Some (String c p) => String c p
  | _ => username +:+ "_thumb.jpg"
  end.

Section Content.
Variable content : RawResponse -> string.

(** The [try] block both files share, after the request. *)
Definition save_response (response : Response) (output_path : string) (d : Disk)
  : Result (option string) * Disk :=
  match raise_for_status response with
  | Raise e => (Raise e, d)
  | Ok _ =>
      match write_file output_path (content (raw response)) d with
      | (Raise e, d') => (Raise e, d')
      | (Ok _, d') => (Ok (Some output_path), d')
      end
  end.

Definition fetch_and_save (get : value -> M Response) (catches : exn -> bool)
           (username : string) (output_path : string) (w : World) (d : Disk)
  : Result (option string) * World * Disk :=
  match get (PyStr (THUMBNAIL_BASE_URL +:+ "/" +:+ username)) w with
  | (Raise e, w') => (if catches e then Ok None else Raise e, w', d)
  | (Ok response, w') =>
      match save_response response output_path d with
      | (Raise e, d') => (if catches e then Ok None else Raise e, w', d')
      | (Ok r, d') => (Ok r, w', d')
      end
  end.

(** [src/cam4_standalone.py]: [except Exception]. *)
Definition download_thumbnail (url : string) (output_path : option string)
           (w : World) (d : Disk) : Result (option string) * World * Disk :=
  match extract_username url w with
  | (Raise e, w') => (Raise e, w', d)
  | (Ok username, w') =>
      fetch_and_save CAM4Standalone.session_get is_Exception
        username (thumb_path output_path username) w' d
  end.

(** [src/standalone/cam4_standalone.py]: a bare [except], and the session
    directly, not [_make_request]. *)
Definition download_thumbnail_lib (cfg : CAM4StandaloneLib.Config) (url : string)
           (output_path : option string) (w : World) (d : Disk)
  : Result (option string) * World * Disk :=
  match extract_username url w with
  | (Raise e, w') => (Raise e, w', d)
  | (Ok username, w') =>
      fetch_and_save (CAM4StandaloneLib.session_get cfg) (fun _ => true)
        username (thumb_path output_path username) w' d
  end.

End Content.

End Thumbnails.

(** ** The extractor: [CAM4IE._real_extract] of [src/yt_dlp/extractor/cam4.py]

    The methods of the base class [InfoExtractor] are not in [src/]; they are
    parameters: [_match_id], [_download_json] (called with [fatal=False], so
    it returns a value also on failure) and [_extract_m3u8_formats]. *)

Module CAM4IE.

Record info_dict := {
  id : string;
  title : string;
  is_live : bool;
  age_limit : Z;
  formats : value;
  thumbnail : string
}.

Inductive extraction :=
| Extracted (info : info_dict)
| ExtractorError (msg : string) (expected : bool)
| Raised (e : exn).

Section Base.
Variable _match_id : string -> string.
Variable _download_json : string -> list Z -> value.
Variable _extract_m3u8_formats : value -> string -> Result value.

Definition _real_extract (url : string) : extraction :=
  let channel_id := _match_id url in
  let profile_info :=
    _download_json ("https://www.cam4.com/rest/v1.0/profile/" +:+ channel_id +:+ "/info")
      (404 :: nil) in
  if negb (truthy profile_info) then
    ExtractorError (channel_id +:+ ": Performer not found") true
  else
  match dict_get profile_info "online" (PyBool false) with
  | Raise e => Raised e
  | Ok is_online =>
  if negb (truthy is_online) then
    ExtractorError (channel_id +:+ ": Performer is currently offline") true
  else
  let stream_info :=
    _download_json
      ("https://www.cam4.com/rest/v1.0/profile/" +:+ channel_id +:+ "/streamInfo")
      (204 :: 404 :: nil) in
  if negb (truthy stream_info) then
    ExtractorError (channel_id +:+ ": Performer is online but not currently streaming") true
  else
  match dict_get stream_info "cdnURL" PyNone with
  | Raise e => Raised e
  | Ok m3u8_playlist =>
  if negb (truthy m3u8_playlist) then
    ExtractorError (channel_id +:+ ": Stream info found but no playlist URL available") true
  else
  match _extract_m3u8_formats m3u8_playlist channel_id with
  | Raise e => Raised e
  | Ok fmts =>
      Extracted {| id := channel_id; title := channel_id; is_live := true;
                   age_limit := 18; formats := fmts;
                   thumbnail := "https://snapshots.xcdnpro.com/thumbnails/" +:+ channel_id |}
  end end end.

End Base.

End CAM4IE.

(** Two results of a matcher run that succeed together, on results related by [P]. *)
Definition both {A B} (P : A -> B -> Prop) (a : option A) (b : option B) : Prop :=
  match a, b with
  | Some x, Some y => P x y
  | None, None => True
  | _, _ => False
  end.

Definition lower_cap (c : option string) : option string :=
  match c with Some g => Some (lower g) | None => None end.

(** An online profile, and a descriptor without [cdnURL]. *)
Definition scenario_no_url (n : nat) : Outcome :=
  match n with
  | O => reply 200 "{online: true}" (Some (PyDict {[ "online" := PyBool true ]}))
  | _ => reply 200 "{viewers: 3}" (Some (PyDict {[ "viewers" := PyInt 3 ]}))
  end.

(** * Properties *)

Example re_ex1 : re_match_id VALID_URL_PATTERN "https://www.cam4.com/Foo_1?x=1" = Some "Foo_1".
Proof. reflexivity. Qed.
Example re_ex2 : re_match_id VALID_URL_PATTERN "HTTP://cam4.com/abc/def" = Some "abc".
Proof. reflexivity. Qed.
Example re_ex3 : re_match_id VALID_URL_PATTERN "https://www.cam4.com/" = None.
Proof. reflexivity. Qed.
Example re_ex4 : re_match_id VALID_URL_PATTERN "https://a.b.cam4.com.cam4.com/x-y" = Some "x".
Proof. reflexivity. Qed.
Example re_ex5 : re_match_id VALID_URL_PATTERN "https://notcam4.com/abc" = None.
Proof. reflexivity. Qed.

Example scenario_streaming_ok :
  fst (CAM4Standalone.check_performer "https://www.cam4.com/foo_1" (fresh_world scenario_streaming))
  = Ok {| username := "foo_1"; status := STREAMING;
          stream_url := Some (PyStr "https://cdn/x.m3u8");
          thumbnail_url := Some "https://snapshots.xcdnpro.com/thumbnails/foo_1";
          error_message := None |}.
Proof. vm_compute. reflexivity. Qed.

(** ** Facts about strings *)

Lemma starts_with_iff (p s : string) :
  starts_with p s = true <-> exists post, s = p +:+ post.
Proof.
  revert s. induction p as [|a p IH]; intros s; simpl.
  - split; [intros _; exists s; reflexivity | reflexivity].
  - destruct s as [|b s].
    + split; [discriminate | intros [post H]; discriminate].
    + rewrite andb_true_iff, IH. split.
      * intros [Hab [post ->]]. apply Ascii.eqb_eq in Hab. subst b.
        exists post. reflexivity.
      * intros [post H]. injection H as -> ->. split.
        -- apply Ascii.eqb_refl.
        -- exists post. reflexivity.
Qed.

Lemma str_in_iff (needle hay : string) :
  str_in needle hay = true <-> exists pre post, hay = pre +:+ needle +:+ post.
Proof.
  induction hay as [|c hay IH]; simpl.
  - rewrite orb_false_r, starts_with_iff. split.
    + intros [post H]. exists "", post. exact H.
    + intros [pre [post H]]. destruct pre; [exists post; exact H | discriminate].
  - rewrite orb_true_iff, starts_with_iff, IH. split.
    + intros [[post H] | [pre [post H]]].
      * exists "", post. exact H.
      * exists (String c pre), post. simpl. rewrite H. reflexivity.
    + intros [pre [post H]]. destruct pre as [|d pre]; simpl in H.
      * left. exists post. exact H.
      * right. injection H as _ H. exists pre, post. exact H.
Qed.

Lemma lower_app (a b : string) : lower (a +:+ b) = lower a +:+ lower b.
Proof. induction a as [|c a IH]; simpl; [reflexivity | rewrite IH; reflexivity]. Qed.

Lemma lower_split (s a b : string) :
  lower s = a +:+ b -> exists s1 s2, s = s1 +:+ s2 /\ lower s1 = a /\ lower s2 = b.
Proof.
  revert s. induction a as [|c a IH]; intros s H; simpl in H.
  - exists "", s. auto.
  - destruct s as [|d s]; simpl in H; [discriminate|].
    injection H as Hc H. destruct (IH _ H) as (s1 & s2 & -> & <- & <-).
    exists (String d s1), s2. simpl. rewrite Hc. auto.
Qed.

Lemma str_in_lower_iff (phrase body : string) :
  str_in (lower phrase) (lower body) = true <-> occurs_nocase phrase body.
Proof.
  rewrite str_in_iff. split.
  - intros (pre & post & H).
    apply lower_split in H as (s1 & s2 & -> & <- & H).
    apply lower_split in H as (s3 & s4 & -> & H & <-).
    exists s1, s3, s4. auto.
  - intros (pre & mid & post & -> & H).
    exists (lower pre), (lower post). rewrite !lower_app, H. reflexivity.
Qed.

Lemma private_marker_b_iff (body : string) :
  private_marker_b body = true <-> has_private_marker body.
Proof.
  unfold private_marker_b, has_private_marker.
  rewrite orb_true_iff, <- !str_in_lower_iff. reflexivity.
Qed.

Lemma private_marker_b_false (body : string) :
  ~ has_private_marker body -> private_marker_b body = false.
Proof.
  intros H. destruct (private_marker_b body) eqn:E; [|reflexivity].
  apply private_marker_b_iff in E. contradiction.
Qed.

(** ** The matcher decides the pattern *)

Lemma str_app_assoc (a b c : string) : (a +:+ b) +:+ c = a +:+ (b +:+ c).
Proof.
  induction a as [|x a IH]; [reflexivity|].
  change (String x ((a +:+ b) +:+ c) = String x (a +:+ (b +:+ c))).
  rewrite IH. reflexivity.
Qed.

Lemma str_app_nil (s : string) : "" +:+ s = s.
Proof. reflexivity. Qed.

Lemma str_app_cons (c : ascii) (a b : string) : String c a +:+ b = String c (a +:+ b).
Proof. reflexivity. Qed.

Ltac norm_app H := rewrite ?str_app_cons, ?str_app_nil in H.

Section MatcherCorrect.
Context {R : Type}.
Variable ic : bool.

Lemma plus_greedy_some (a : atom) (s : list string) (k : list string -> option R) :
  is_Some (plus_greedy ic a s k) <->
  exists pre rest, s = (pre ++ rest)%list /\ lang ic (Plus a) pre /\ is_Some (k rest).
Proof.
  induction s as [|q s IH]; simpl.
  - split; [intros [x H]; discriminate|].
    intros (pre & rest & E & L & _). inversion L; subst; discriminate.
  - destruct (atom_matches ic a q) eqn:M.
    + split.
      * intros H. destruct (plus_greedy ic a s k) as [x|] eqn:E.
        -- destruct (proj1 IH (ex_intro _ x eq_refl)) as (pre & rest & -> & L & K).
           exists (q :: pre), rest. repeat split; [|exact K].
           apply lang_plus_more; assumption.
        -- exists (q :: nil), s. repeat split; [|exact H].
           apply lang_plus_one; assumption.
      * intros (pre & rest & E & L & K). inversion L; subst.
        -- simpl in E. injection E as _ ->.
           destruct (plus_greedy ic a rest k); [eexists; reflexivity | exact K].
        -- simpl in E. injection E as _ ->.
           assert (S : is_Some (plus_greedy ic a (x ++ rest)%list k))
             by (apply IH; exists x, rest; auto).
           destruct S as [y ->]. eexists; reflexivity.
    + split; [intros [x H]; discriminate|].
      intros (pre & rest & E & L & _). inversion L; subst;
        simpl in E; injection E as <- _; congruence.
Qed.

Lemma rmatch_some (r : regex) :
  forall (k : list string -> option string -> option R), cap_blind k ->
  forall s cap,
    is_Some (rmatch ic r s cap k) <->
    exists pre rest, s = (pre ++ rest)%list /\ lang ic r pre /\ is_Some (k rest None).
Proof.
  induction r as [|a|r1 IH1 r2 IH2|r1 IH1|a|r1 IH1]; intros k Hk s cap; simpl.
  - split.
    + intros H. exists nil, s. repeat split; [constructor | eapply Hk, H].
    + intros (pre & rest & -> & L & K). inversion L; subst. eapply Hk, K.
  - destruct s as [|q s].
    + split; [intros [x H]; discriminate|].
      intros (pre & rest & E & L & _). inversion L; subst; discriminate.
    + destruct (atom_matches ic a q) eqn:M.
      * split.
        -- intros H. exists (q :: nil), s. repeat split;
             [constructor; exact M | eapply Hk, H].
        -- intros (pre & rest & E & L & K). inversion L; subst.
           simpl in E. injection E as _ ->. eapply Hk, K.
      * split; [intros [x H]; discriminate|].
        intros (pre & rest & E & L & _). inversion L; subst.
        simpl in E. injection E as <- _. congruence.
  - assert (Hk2 : cap_blind (fun s' cap' => rmatch ic r2 s' cap' k)).
    { intros s' c1 c2 H. apply (IH2 k Hk). apply (IH2 k Hk) in H. exact H. }
    rewrite (IH1 _ Hk2). split.
    + intros (p1 & rest1 & -> & L1 & K1).
      apply (IH2 k Hk) in K1 as (p2 & rest2 & -> & L2 & K2).
      exists (p1 ++ p2)%list, rest2. rewrite <- app_assoc. repeat split; [|exact K2].
      constructor; assumption.
    + intros (pre & rest & -> & L & K). inversion L; subst.
      exists x, (y ++ rest)%list. rewrite <- app_assoc. repeat split; [assumption|].
      apply (IH2 k Hk). exists y, rest. auto.
  - split.
    + intros H. destruct (rmatch ic r1 s cap k) as [x|] eqn:E.
      * destruct (proj1 (IH1 k Hk s cap)) as (pre & rest & -> & L & K).
        { rewrite E. eexists; reflexivity. }
        exists pre, rest. repeat split; [|exact K]. apply lang_opt_take, L.
      * exists nil, s. repeat split; [apply lang_opt_skip | eapply Hk, H].
    + intros (pre & rest & -> & L & K). inversion L; subst.
      * change (nil ++ rest)%list with rest.
        destruct (rmatch ic r1 rest cap k); [eexists; reflexivity | eapply Hk, K].
      * assert (S : is_Some (rmatch ic r1 (pre ++ rest)%list cap k))
          by (apply (IH1 k Hk); exists pre, rest; auto).
        destruct S as [y ->]. eexists; reflexivity.
  - rewrite plus_greedy_some. split.
    + intros (pre & rest & -> & L & K). exists pre, rest. repeat split;
        [exact L | eapply Hk, K].
    + intros (pre & rest & -> & L & K). exists pre, rest. repeat split;
        [exact L | eapply Hk, K].
  - match goal with
    | |- is_Some (rmatch ic r1 s cap ?k') <-> _ =>
        assert (Hk' : cap_blind k') by (intros s' c1 c2 H; exact H);
        rewrite (IH1 k' Hk')
    end.
    split.
    + intros (pre & rest & -> & L & K). exists pre, rest. repeat split;
        [constructor; exact L | eapply Hk, K].
    + intros (pre & rest & -> & L & K). inversion L; subst.
      exists pre, rest. repeat split; [assumption | eapply Hk, K].
Qed.

(** Whatever the matcher returns, the continuation returned it, on a rest of
    the subject. *)
Lemma plus_greedy_from_k (a : atom) (s : list string) (k : list string -> option R) (x : R) :
  plus_greedy ic a s k = Some x ->
  exists pre s', s = (pre ++ s')%list /\ k s' = Some x.
Proof.
  induction s as [|q s IH]; simpl; [discriminate|].
  destruct (atom_matches ic a q); [|discriminate].
  destruct (plus_greedy ic a s k) as [y|] eqn:E.
  - intros H. injection H as <-. destruct (IH eq_refl) as (pre & s' & -> & K).
    exists (q :: pre), s'. auto.
  - intros H. exists (q :: nil), s. auto.
Qed.

Lemma rmatch_from_k (r : regex) :
  forall (k : list string -> option string -> option R) s cap x,
    rmatch ic r s cap k = Some x ->
    exists pre s' cap', s = (pre ++ s')%list /\ k s' cap' = Some x.
Proof.
  induction r as [|a|r1 IH1 r2 IH2|r1 IH1|a|r1 IH1]; intros k s cap x; simpl.
  - intros H. exists nil, s, cap. auto.
  - destruct s as [|q s]; [discriminate|].
    destruct (atom_matches ic a q); [|discriminate]. intros H.
    exists (q :: nil), s, cap. auto.
  - intros H. apply IH1 in H as (p1 & s1 & c1 & -> & H).
    apply IH2 in H as (p2 & s2 & c2 & -> & H).
    exists (p1 ++ p2)%list, s2, c2. rewrite <- app_assoc. auto.
  - destruct (rmatch ic r1 s cap k) as [y|] eqn:E.
    + intros H. injection H as <-. apply IH1 in E. exact E.
    + intros H. exists nil, s, cap. auto.
  - intros H. apply plus_greedy_from_k in H as (pre & s' & -> & H). eauto.
  - intros H. apply IH1 in H as (pre & s1 & c1 & -> & H). eauto.
Qed.

End MatcherCorrect.

(** A pattern that ends in its group hands a captured text to the continuation. *)
Lemma rmatch_captures (ic : bool) {R} (r : regex) :
  ends_in_group r = true ->
  forall (k : list string -> option string -> option R) s cap x,
    rmatch ic r s cap k = Some x -> exists s' g, k s' (Some g) = Some x.
Proof.
  induction r as [|a|r1 IH1 r2 IH2|r1 IH1|a|r1 IH1]; intros E k s cap x;
    try discriminate E; cbn [rmatch].
  - intros H. apply rmatch_from_k in H as (p1 & s1 & c1 & _ & H).
    apply (IH2 E) in H. exact H.
  - intros H. apply rmatch_from_k in H as (p1 & s1 & c1 & _ & H). eauto.
Qed.

Lemma VALID_URL_PATTERN_captures (s : list string) (c : option string) :
  rmatch true VALID_URL_PATTERN s None (fun _ cap => Some cap) = Some c ->
  exists g, c = Some g.
Proof.
  intros H. apply rmatch_captures in H as (s' & g & H); [|reflexivity].
  injection H as <-. eauto.
Qed.

Lemma re_match_id_none_iff (url : string) :
  re_match_id VALID_URL_PATTERN url = None <-> ~ url_matches url.
Proof.
  unfold re_match_id, url_matches.
  assert (B : cap_blind (fun (_ : list string) (cap : option string) => Some cap))
    by (intros s c1 c2 _; eexists; reflexivity).
  pose proof (rmatch_some true VALID_URL_PATTERN _ B (code_points url) None) as I.
  destruct (rmatch true VALID_URL_PATTERN (code_points url) None (fun _ cap => Some cap))
    as [c|] eqn:E.
  - destruct (VALID_URL_PATTERN_captures _ _ E) as [g ->].
    split; [discriminate|]. intros N. exfalso. apply N.
    destruct (proj1 I (ex_intro _ _ eq_refl)) as (pre & rest & Hs & L & _).
    exists pre, rest. auto.
  - split; [|reflexivity]. intros _ (pre & rest & Hs & L).
    destruct (proj2 I) as [x Hx]; [|discriminate Hx].
    exists pre, rest. repeat split; [exact Hs | exact L | eexists; reflexivity].
Qed.

(** ** One request at a time *)

Lemma nth_outcome_log (ch : Channel) (url : value) (w : World) (k : nat) :
  nth_outcome (log_request ch url w) k = nth_outcome w (S k).
Proof.
  unfold nth_outcome, log_request. simpl.
  rewrite length_app. simpl. f_equal. lia.
Qed.

Lemma nth_outcome_0 (w : World) : script w (length (requests w)) = nth_outcome w 0.
Proof. unfold nth_outcome. f_equal. lia. Qed.

Lemma get_profile_info_eq (u : string) (w : World) :
  CAM4Standalone.get_profile_info u w =
  (profile_result (nth_outcome w 0),
   log_request SessionGet (PyStr (BASE_API_URL +:+ "/" +:+ u +:+ "/info")) w).
Proof.
  rewrite <- nth_outcome_0.
  unfold CAM4Standalone.get_profile_info, CAM4Standalone.session_get, try_except,
    transport, profile_result, bind.
  destruct (script w (length (requests w))) as [e|r]; simpl.
  - destruct e; reflexivity.
  - unfold ret, lift, raise_for_status, json; simpl.
    destruct (status_code r =? 404); [reflexivity|].
    destruct ((400 <=? status_code r) && (status_code r <? 600)); simpl; [reflexivity|].
    destruct (parsed r); reflexivity.
Qed.

Lemma get_stream_info_eq (u : string) (w : World) :
  CAM4Standalone.get_stream_info u w =
  (stream_result (nth_outcome w 0),
   log_request SessionGet (PyStr (BASE_API_URL +:+ "/" +:+ u +:+ "/streamInfo")) w).
Proof.
  rewrite <- nth_outcome_0.
  unfold CAM4Standalone.get_stream_info, CAM4Standalone.session_get, try_except,
    transport, stream_result, bind.
  destruct (script w (length (requests w))) as [e|r]; simpl.
  - destruct e; reflexivity.
  - unfold ret, lift, raise_for_status, json; simpl.
    destruct (status_code r =? 204); [reflexivity|].
    destruct (status_code r =? 404); [reflexivity|].
    destruct ((400 <=? status_code r) && (status_code r <? 600)); simpl; [reflexivity|].
    destruct (parsed r); reflexivity.
Qed.

Lemma verify_stream_accessible_eq (url : value) (w : World) :
  CAM4Standalone.verify_stream_accessible url w =
  (probe_result (nth_outcome w 0), log_request SessionGet url w).
Proof.
  rewrite <- nth_outcome_0.
  unfold CAM4Standalone.verify_stream_accessible, CAM4Standalone.session_get,
    try_except, transport, probe_result, bind.
  destruct (script w (length (requests w))) as [e|r]; simpl.
  - destruct e; reflexivity.
  - reflexivity.
Qed.

(** ** The resolver of [src/cam4_standalone.py] as a decision tree *)

Lemma extract_username_match (url id : string) (w : World) :
  re_match_id VALID_URL_PATTERN url = Some id ->
  extract_username url w = (Ok (str_lower id), w).
Proof. intros H. unfold extract_username. rewrite H. reflexivity. Qed.

Lemma extract_username_no_match (url : string) (w : World) :
  re_match_id VALID_URL_PATTERN url = None ->
  extract_username url w = (Raise (CAM4Error (Some ("Invalid CAM4 URL: " +:+ url)) NOT_FOUND), w).
Proof. intros H. unfold extract_username. rewrite H. reflexivity. Qed.

Lemma check_performer_classify (url id : string) (w : World) :
  re_match_id VALID_URL_PATTERN url = Some id ->
  fst (CAM4Standalone.check_performer url w) =
  classify (str_lower id) (nth_outcome w 0) (nth_outcome w 1) (nth_outcome w 2).
Proof.
  intros H. unfold CAM4Standalone.check_performer, classify, thumbnail_template.
  unfold bind at 1. rewrite (extract_username_match _ _ _ H).
  unfold bind at 1. rewrite get_profile_info_eq.
  destruct (profile_result (nth_outcome w 0)) as [profile|e]; [|reflexivity].
  destruct (negb (truthy profile)); [reflexivity|].
  unfold bind at 1, lift at 1.
  destruct (dict_get profile "online" (PyBool false)) as [is_online|e]; [|reflexivity].
  destruct (negb (truthy is_online)); [reflexivity|].
  unfold bind at 1. rewrite get_stream_info_eq, nth_outcome_log.
  destruct (stream_result (nth_outcome w 1)) as [stream_info|e]; [|reflexivity].
  destruct (negb (truthy stream_info)); [reflexivity|].
  unfold bind at 1, lift at 1.
  destruct (dict_get stream_info "cdnURL" PyNone) as [cdn_url|e]; [|reflexivity].
  destruct (negb (truthy cdn_url)); [reflexivity|].
  unfold bind at 1. rewrite verify_stream_accessible_eq, !nth_outcome_log.
  destruct (probe_result (nth_outcome w 2)) as [res|e]; [|reflexivity].
  destruct (negb (fst res)); reflexivity.
Qed.

Lemma check_performer_no_match (url : string) (w : World) :
  re_match_id VALID_URL_PATTERN url = None ->
  CAM4Standalone.check_performer url w
  = (Raise (CAM4Error (Some ("Invalid CAM4 URL: " +:+ url)) NOT_FOUND), w).
Proof.
  intros H. unfold CAM4Standalone.check_performer. unfold bind at 1.
  rewrite (extract_username_no_match _ _ H). reflexivity.
Qed.

Lemma check_performer_lib_no_match (cfg : CAM4StandaloneLib.Config) (url : string)
      (w : World) :
  re_match_id VALID_URL_PATTERN url = None ->
  CAM4StandaloneLib.check_performer cfg url w
  = (Raise (CAM4Error (Some ("Invalid CAM4 URL: " +:+ url)) NOT_FOUND), w).
Proof.
  intros H. unfold CAM4StandaloneLib.check_performer. unfold bind at 1.
  rewrite (extract_username_no_match _ _ H). reflexivity.
Qed.

(** ** From the vocabulary to the decision tree *)

Lemma status_passes (s : Z) :
  ~ (400 <= s < 600) -> (400 <=? s) && (s <? 600) = false.
Proof.
  intros H. apply andb_false_iff.
  destruct (Z.leb_spec 400 s); [|left; reflexivity].
  destruct (Z.ltb_spec s 600); [|right; reflexivity].
  exfalso. apply H. lia.
Qed.

Lemma dict_truthy (m : gmap string value) : m <> ∅ -> truthy (PyDict m) = true.
Proof.
  intros H. simpl. apply negb_true_iff, Nat.eqb_neq.
  intros Hs. apply H. apply map_size_empty_iff. exact Hs.
Qed.

Lemma dict_with_key (m : gmap string value) (k : string) (v : value) :
  m !! k = Some v -> m <> ∅.
Proof. intros H ->. rewrite lookup_empty in H. discriminate. Qed.

Lemma profile_found_result (o : Outcome) (m : gmap string value) :
  profile_found o m -> profile_result o = Ok (PyDict m) /\ truthy (PyDict m) = true.
Proof.
  intros (r & -> & H404 & Hst & Hp & Hne). split; [|apply dict_truthy, Hne].
  unfold profile_result.
  apply Z.eqb_neq in H404. rewrite H404, (status_passes _ Hst), Hp. reflexivity.
Qed.

Lemma descriptor_found_result (o : Outcome) (d : gmap string value) (u : value) :
  descriptor_found o d -> playback_url d u ->
  stream_result o = Ok (PyDict d) /\ truthy (PyDict d) = true.
Proof.
  intros (r & -> & H204 & H404 & Hst & Hp) [Hu _].
  assert (Ht : truthy (PyDict d) = true) by (eapply dict_truthy, dict_with_key, Hu).
  split; [|exact Ht].
  unfold stream_result.
  apply Z.eqb_neq in H204, H404.
  rewrite H204, H404, (status_passes _ Hst), Hp, Ht. reflexivity.
Qed.

Lemma classify_at_probe (u : string) (o0 o1 o2 : Outcome)
      (m d : gmap string value) (cdn : value) :
  profile_found o0 m -> reports_online m ->
  descriptor_found o1 d -> playback_url d cdn ->
  classify u o0 o1 o2 =
  match probe_result o2 with
  | Raise e => Raise e
  | Ok res =>
      if negb (fst res) then
        Ok {| username := u; status := PRIVATE_OR_AWAY; stream_url := None;
              thumbnail_url := Some (thumbnail_template u);
              error_message := Some (u +:+ ": " +:+ fmt (snd res)) |}
      else
        Ok {| username := u; status := STREAMING; stream_url := Some cdn;
              thumbnail_url := Some (thumbnail_template u); error_message := None |}
  end.
Proof.
  intros Hp (v & Hv & Hon) Hd Hu.
  destruct (profile_found_result _ _ Hp) as [E0 T0].
  destruct (descriptor_found_result _ _ _ Hd Hu) as [E1 T1].
  destruct Hu as [Hu Tu].
  unfold classify. rewrite E0, T0. cbn [negb dict_get]. rewrite Hv, Hon.
  cbn [negb]. rewrite E1, T1. cbn [negb dict_get]. rewrite Hu, Tu. reflexivity.
Qed.

Lemma probe_verdict_private (c : ResponseClass) (r : RawResponse) :
  has_private_marker (text r) ->
  probe_verdict {| cls := c; raw := r |} = (false, Some private_message).
Proof.
  intros H. apply private_marker_b_iff in H.
  unfold probe_verdict. cbn [raw].
  unfold private_marker_b in H. rewrite H. reflexivity.
Qed.

Lemma probe_verdict_playlist (c : ResponseClass) (r : RawResponse) :
  ~ has_private_marker (text r) ->
  status_code r <> 400 -> status_code r <> 403 ->
  occurs "#EXTM3U" (text r) ->
  probe_verdict {| cls := c; raw := r |} = (true, None).
Proof.
  intros Hm H400 H403 Hocc. apply private_marker_b_false in Hm.
  unfold probe_verdict. cbn [raw].
  unfold private_marker_b in Hm. rewrite Hm.
  apply Z.eqb_neq in H400, H403. rewrite H400, H403. cbn [orb].
  apply str_in_iff in Hocc. rewrite Hocc. reflexivity.
Qed.

(** ** The accessibility probe *)

(** C1: a body with a private-gate marker phrase, in any letter case, makes
    the probe reject with the private/away message and the resolver classify
    PRIVATE_OR_AWAY, whatever the status code and whether or not the body
    also carries the playlist header: the body check comes first. *)
Theorem private_marker_overrides_status_and_header
        (url id : string) (w : World) (cdn : value) (r : RawResponse) :
  re_match_id VALID_URL_PATTERN url = Some id ->
  playback_url_obtained w cdn ->
  nth_outcome w 2 = Reply r ->
  has_private_marker (text r) ->
  (forall (m3u8 : value) (w' : World),
      nth_outcome w' 0 = Reply r ->
      fst (CAM4Standalone.verify_stream_accessible m3u8 w')
      = Ok (false, Some private_message)) /\
  exists info,
    fst (CAM4Standalone.check_performer url w) = Ok info /\
    status info = PRIVATE_OR_AWAY /\
    stream_url info = None /\
    error_message info = Some (str_lower id +:+ ": " +:+ private_message).
Proof.
  intros Hid (m & d & Hp & Hon & Hd & Hu) H2 Hmark. split.
  - intros m3u8 w' H0. rewrite verify_stream_accessible_eq. cbn [fst].
    rewrite H0. unfold probe_result. rewrite (probe_verdict_private _ _ Hmark).
    reflexivity.
  - rewrite (check_performer_classify _ _ _ Hid).
    rewrite (classify_at_probe _ _ _ _ _ _ _ Hp Hon Hd Hu), H2.
    unfold probe_result. rewrite (probe_verdict_private _ _ Hmark). cbn [fst snd negb fmt].
    eexists. repeat split.
Qed.

Lemma scenario_obtains_url (s : nat -> Outcome) :
  s 0%nat = reply 200 "{online: true}" (Some (PyDict {[ "online" := PyBool true ]})) ->
  s 1%nat = reply 200 "{cdnURL: https://cdn/x.m3u8}"
              (Some (PyDict {[ "cdnURL" := PyStr "https://cdn/x.m3u8" ]})) ->
  playback_url_obtained (fresh_world s) (PyStr "https://cdn/x.m3u8").
Proof.
  intros H0 H1.
  exists {[ "online" := PyBool true ]}, {[ "cdnURL" := PyStr "https://cdn/x.m3u8" ]}.
  repeat split.
  - eexists. split; [exact H0|]. cbn [status_code parsed].
    repeat split; try lia. apply (dict_with_key _ "online" (PyBool true)). reflexivity.
  - exists (PyBool true). split; reflexivity.
  - eexists. split; [exact H1|]. cbn [status_code parsed]. repeat split; lia.
Qed.

Lemma private_marker_overrides_witness :
  exists info,
    fst (CAM4Standalone.check_performer "https://www.cam4.com/foo_1"
           (fresh_world scenario_private)) = Ok info /\
    status info = PRIVATE_OR_AWAY /\
    stream_url info = None /\
    error_message info = Some ("foo_1: " +:+ private_message).
Proof.
  refine (proj2 (private_marker_overrides_status_and_header
            "https://www.cam4.com/foo_1" "foo_1" (fresh_world scenario_private)
            (PyStr "https://cdn/x.m3u8")
            {| status_code := 200;
               text := "#EXTM3U Session is NOT Allowed to view this stream";
               parsed := None |} _ _ _ _)).
  - reflexivity.
  - apply scenario_obtains_url; reflexivity.
  - reflexivity.
  - apply private_marker_b_iff. vm_compute. reflexivity.
Defined.

(** C2 (corrected statement): when the probed body carries the playlist header
    [#EXTM3U] and no private-gate phrase, and the status code is neither 400
    nor 403, the resolver classifies STREAMING and the result's stream URL is
    the descriptor's [cdnURL] value, unmodified. *)
Theorem playlist_header_gives_streaming
        (url id : string) (w : World) (m d : gmap string value) (cdn : value)
        (r : RawResponse) :
  re_match_id VALID_URL_PATTERN url = Some id ->
  profile_found (nth_outcome w 0) m ->
  reports_online m ->
  descriptor_found (nth_outcome w 1) d ->
  playback_url d cdn ->
  nth_outcome w 2 = Reply r ->
  occurs "#EXTM3U" (text r) ->
  ~ has_private_marker (text r) ->
  status_code r <> 400 ->
  status_code r <> 403 ->
  exists info,
    fst (CAM4Standalone.check_performer url w) = Ok info /\
    status info = STREAMING /\
    stream_url info = d !! "cdnURL" /\
    stream_url info = Some cdn.
Proof.
  intros Hid Hp Hon Hd Hu H2 Hocc Hm H400 H403.
  rewrite (check_performer_classify _ _ _ Hid).
  rewrite (classify_at_probe _ _ _ _ _ _ _ Hp Hon Hd Hu), H2.
  unfold probe_result. rewrite (probe_verdict_playlist _ _ Hm H400 H403 Hocc).
  cbn [fst negb]. eexists. repeat split. cbn [stream_url].
  destruct Hu as [Hu _]. symmetry. exact Hu.
Qed.

Lemma playlist_header_gives_streaming_witness :
  exists info,
    fst (CAM4Standalone.check_performer "https://www.cam4.com/foo_1"
           (fresh_world scenario_streaming)) = Ok info /\
    status info = STREAMING /\
    stream_url info
    = ({[ "cdnURL" := PyStr "https://cdn/x.m3u8" ]} : gmap string value) !! "cdnURL" /\
    stream_url info = Some (PyStr "https://cdn/x.m3u8").
Proof.
  refine (playlist_header_gives_streaming
            "https://www.cam4.com/foo_1" "foo_1" (fresh_world scenario_streaming)
            {[ "online" := PyBool true ]} {[ "cdnURL" := PyStr "https://cdn/x.m3u8" ]}
            (PyStr "https://cdn/x.m3u8")
            {| status_code := 200; text := "#EXTM3U
#EXT-X-VERSION:3"; parsed := None |} _ _ _ _ _ _ _ _ _ _).
  - reflexivity.
  - eexists. split; [reflexivity|]. cbn [status_code parsed].
    repeat split; try lia. apply (dict_with_key _ "online" (PyBool true)). reflexivity.
  - exists (PyBool true). split; reflexivity.
  - eexists. split; [reflexivity|]. cbn [status_code parsed]. repeat split; lia.
  - split; reflexivity.
  - reflexivity.
  - apply str_in_iff. vm_compute. reflexivity.
  - intros H. apply private_marker_b_iff in H. vm_compute in H. discriminate.
  - cbn [status_code]. lia.
  - cbn [status_code]. lia.
Defined.

(** C2 (counterexample to the statement without the status proviso): a body with the playlist header and no
    private-gate phrase, answered with status 403, is classified
    PRIVATE_OR_AWAY and carries no stream URL. *)
Lemma playlist_header_behind_403_is_private :
  let body := "#EXTM3U" in
  nth_outcome (fresh_world scenario_forbidden_playlist) 2
  = Reply {| status_code := 403; text := body; parsed := None |} /\
  playback_url_obtained (fresh_world scenario_forbidden_playlist) (PyStr "https://cdn/x.m3u8") /\
  occurs "#EXTM3U" body /\
  ~ has_private_marker body /\
  fst (CAM4Standalone.check_performer "https://www.cam4.com/foo_1"
         (fresh_world scenario_forbidden_playlist))
  = Ok {| username := "foo_1"; status := PRIVATE_OR_AWAY; stream_url := None;
          thumbnail_url := Some "https://snapshots.xcdnpro.com/thumbnails/foo_1";
          error_message := Some ("foo_1: " +:+ private_message) |}.
Proof.
  cbv zeta. split; [reflexivity|]. split; [apply scenario_obtains_url; reflexivity|].
  split; [apply str_in_iff; vm_compute; reflexivity|].
  split.
  - intros H. apply private_marker_b_iff in H. vm_compute in H. discriminate.
  - vm_compute. reflexivity.
Qed.

(** ** Totality of the resolver *)




Lemma five_states_all (s : PerformerStatus) : five_states s.
Proof. unfold five_states. destruct s; auto 6. Qed.



(** C3: the resolver does not always return a state.  An identifier is
    extracted and no request meets a fault, yet a profile body that is the
    JSON array [[1]] makes [get_profile_info] return a list, against its
    docstring (a dict or [None]), and [check_performer] raise
    [AttributeError] on [profile.get], against its own (it returns a
    [PerformerInfo]). *)
Lemma array_profile_raises :
  re_match_id VALID_URL_PATTERN "https://www.cam4.com/foo_1" = Some "foo_1" /\
  (forall k, exists r, nth_outcome (fresh_world scenario_array_profile) k = Reply r) /\
  fst (CAM4Standalone.check_performer "https://www.cam4.com/foo_1"
         (fresh_world scenario_array_profile))
  = Raise (AttributeError "object has no attribute 'get'").
Proof.
  split; [reflexivity|]. split.
  - intros [|k]; eexists; reflexivity.
  - vm_compute. reflexivity.
Qed.

(** ** Malformed input *)

(** C4: a URL that does not match the identifier pattern yields the
    NOT_FOUND classification with an invalid-URL message, carried by the
    [CAM4Error] raised, and no request is issued: the world is unchanged. *)
Theorem invalid_url_is_not_found_without_request (url : string) (w : World) :
  ~ url_matches url ->
  CAM4Standalone.check_performer url w
  = (Raise (CAM4Error (Some ("Invalid CAM4 URL: " +:+ url)) NOT_FOUND), w) /\
  requests (snd (CAM4Standalone.check_performer url w)) = requests w.
Proof.
  intros H. apply re_match_id_none_iff in H.
  rewrite (check_performer_no_match _ _ H). split; reflexivity.
Qed.

Lemma invalid_url_witness :
  CAM4Standalone.check_performer "https://example.org/foo_1" (fresh_world scenario_streaming)
  = (Raise (CAM4Error (Some "Invalid CAM4 URL: https://example.org/foo_1") NOT_FOUND),
     fresh_world scenario_streaming) /\
  requests (snd (CAM4Standalone.check_performer "https://example.org/foo_1"
                   (fresh_world scenario_streaming))) = nil.
Proof.
  apply (invalid_url_is_not_found_without_request
           "https://example.org/foo_1" (fresh_world scenario_streaming)).
  apply re_match_id_none_iff. reflexivity.
Defined.

(** ** The thumbnail URL *)

Ltac split_result H :=
  repeat match type of H with
         | context [match ?x with _ => _ end] => destruct x eqn:?
         end.

Lemma thumbnail_of_classify (u : string) (o0 o1 o2 : Outcome) (info : PerformerInfo) :
  classify u o0 o1 o2 = Ok info ->
  username info = u /\ thumbnail_url info = thumbnail_for u (status info).
Proof.
  unfold classify. intros H. split_result H;
    first [discriminate H | injection H as <-; split; reflexivity].
Qed.

Lemma thumbnail_of_check_performer_lib
      (cfg : CAM4StandaloneLib.Config) (url id : string) (w : World) (info : PerformerInfo) :
  re_match_id VALID_URL_PATTERN url = Some id ->
  fst (CAM4StandaloneLib.check_performer cfg url w) = Ok info ->
  username info = str_lower id /\ thumbnail_url info = thumbnail_for (str_lower id) (status info).
Proof.
  intros Hid. unfold CAM4StandaloneLib.check_performer.
  unfold bind at 1. rewrite (extract_username_match _ _ _ Hid).
  unfold bind, lift, ret. intros H.
  split_result H; cbn [fst] in H;
    first [discriminate H | injection H as <-; split; reflexivity].
Qed.

(** C5 (corrected statement): when identifier extraction succeeds, the
    returned result carries the thumbnail URL built from the template and the
    identifier in the states OFFLINE, ONLINE_NOT_STREAMING, PRIVATE_OR_AWAY and
    STREAMING, and carries none in the state NOT_FOUND; when extraction fails
    no result is returned at all.  So in both implementations. *)
Theorem thumbnail_present_except_not_found (url : string) (w : World) :
  (forall id info,
      re_match_id VALID_URL_PATTERN url = Some id ->
      fst (CAM4Standalone.check_performer url w) = Ok info ->
      thumbnail_url info
      = match status info with
        | NOT_FOUND => None
        | _ => Some (THUMBNAIL_BASE_URL +:+ "/" +:+ str_lower id)
        end) /\
  (forall cfg id info,
      re_match_id VALID_URL_PATTERN url = Some id ->
      fst (CAM4StandaloneLib.check_performer cfg url w) = Ok info ->
      thumbnail_url info
      = match status info with
        | NOT_FOUND => None
        | _ => Some (THUMBNAIL_BASE_URL +:+ "/" +:+ str_lower id)
        end) /\
  (re_match_id VALID_URL_PATTERN url = None ->
   forall info,
     fst (CAM4Standalone.check_performer url w) <> Ok info /\
     forall cfg, fst (CAM4StandaloneLib.check_performer cfg url w) <> Ok info).
Proof.
  split; [|split].
  - intros id info Hid H. rewrite (check_performer_classify _ _ _ Hid) in H.
    apply thumbnail_of_classify in H as [_ ->]. reflexivity.
  - intros cfg id info Hid H.
    apply (thumbnail_of_check_performer_lib _ _ _ _ _ Hid) in H as [_ ->]. reflexivity.
  - intros Hid info. split; [|intros cfg].
    + rewrite (check_performer_no_match _ _ Hid). discriminate.
    + rewrite (check_performer_lib_no_match _ _ _ Hid). discriminate.
Qed.

Lemma thumbnail_present_witness :
  thumbnail_url
    {| username := "foo_1"; status := OFFLINE; stream_url := None;
       thumbnail_url := Some "https://snapshots.xcdnpro.com/thumbnails/foo_1";
       error_message := Some "foo_1: Performer is currently offline" |}
  = Some (THUMBNAIL_BASE_URL +:+ "/" +:+ "foo_1").
Proof.
  refine (proj1 (thumbnail_present_except_not_found
                   "https://www.cam4.com/Foo_1" (fresh_world scenario_offline))
                "Foo_1"
                {| username := "foo_1"; status := OFFLINE; stream_url := None;
                   thumbnail_url := Some "https://snapshots.xcdnpro.com/thumbnails/foo_1";
                   error_message := Some "foo_1: Performer is currently offline" |} _ _).
  - reflexivity.
  - vm_compute. reflexivity.
Defined.

(** C5 (counterexample to a thumbnail in every state): extraction succeeds, the profile lookup finds
    no performer, and the NOT_FOUND result carries no thumbnail URL. *)
Lemma not_found_has_no_thumbnail :
  re_match_id VALID_URL_PATTERN "https://www.cam4.com/foo_1" = Some "foo_1" /\
  fst (CAM4Standalone.check_performer "https://www.cam4.com/foo_1"
         (fresh_world scenario_absent))
  = Ok {| username := "foo_1"; status := NOT_FOUND; stream_url := None;
          thumbnail_url := None;
          error_message := Some "foo_1: Performer not found" |} /\
  fst (CAM4StandaloneLib.check_performer plain_requests "https://www.cam4.com/foo_1"
         (fresh_world scenario_absent))
  = Ok {| username := "foo_1"; status := NOT_FOUND; stream_url := None;
          thumbnail_url := None;
          error_message := Some "foo_1: Performer not found" |}.
Proof. repeat split; vm_compute; reflexivity. Qed.

(** ** The recording operation *)

Lemma kp_ret {A} (a : A) : keeps_processes (ret a).
Proof. intros w. reflexivity. Qed.

Lemma kp_raise {A} (e : exn) : keeps_processes (@raise A e).
Proof. intros w. reflexivity. Qed.

Lemma kp_lift {A} (r : Result A) : keeps_processes (lift r).
Proof. intros w. reflexivity. Qed.

Lemma kp_transport (ch : Channel) (url : value) : keeps_processes (transport ch url).
Proof. intros w. unfold transport. destruct (script w _); reflexivity. Qed.

Lemma kp_bind {A B} (m : M A) (f : A -> M B) :
  keeps_processes m -> (forall a, keeps_processes (f a)) -> keeps_processes (bind m f).
Proof.
  intros Hm Hf w. unfold bind. specialize (Hm w).
  destruct (m w) as [[a|e] w1]; cbn [snd] in *.
  - rewrite (Hf a w1). exact Hm.
  - exact Hm.
Qed.

Lemma kp_try {A} (body : M A) (handler : exn -> option (M A)) :
  keeps_processes body ->
  (forall e, match handler e with Some h => keeps_processes h | None => True end) ->
  keeps_processes (try_except body handler).
Proof.
  intros Hb Hh w. unfold try_except. specialize (Hb w).
  destruct (body w) as [[a|e] w1]; cbn [snd] in *; [exact Hb|].
  specialize (Hh e). destruct (handler e) as [h|]; cbn [snd].
  - rewrite (Hh w1). exact Hb.
  - exact Hb.
Qed.

Create HintDb processes.
#[local] Hint Resolve kp_ret kp_raise kp_lift kp_transport : processes.

Ltac keeps_using known :=
  repeat first
    [ exact I
    | known
    | solve [auto with processes]
    | apply kp_bind; [|intros ?]
    | apply kp_try; [|intros ?]
    | match goal with
      | |- keeps_processes (if ?b then _ else _) => destruct b
      | |- keeps_processes (match ?x with _ => _ end) => destruct x
      | |- match (if ?b then _ else _) with _ => _ end => destruct b
      end ].

Ltac keeps := keeps_using fail.

Lemma extract_username_keeps (url : string) : keeps_processes (extract_username url).
Proof. unfold extract_username. keeps. Qed.

Lemma check_performer_keeps (url : string) :
  keeps_processes (CAM4Standalone.check_performer url).
Proof.
  unfold CAM4Standalone.check_performer, CAM4Standalone.get_profile_info,
    CAM4Standalone.get_stream_info, CAM4Standalone.verify_stream_accessible,
    CAM4Standalone.session_get.
  apply kp_bind; [apply extract_username_keeps | intros ?]. keeps.
Qed.

Lemma make_request_keeps (cfg : CAM4StandaloneLib.Config) (url : value) :
  keeps_processes (CAM4StandaloneLib._make_request cfg url).
Proof.
  unfold CAM4StandaloneLib._make_request, CAM4StandaloneLib.flaresolverr_get,
    CAM4StandaloneLib.session_get. keeps.
Qed.

Lemma check_performer_lib_keeps (cfg : CAM4StandaloneLib.Config) (url : string) :
  keeps_processes (CAM4StandaloneLib.check_performer cfg url).
Proof.
  pose proof (make_request_keeps cfg) as Hreq.
  unfold CAM4StandaloneLib.check_performer, CAM4StandaloneLib.get_profile_info,
    CAM4StandaloneLib.get_stream_info, CAM4StandaloneLib.verify_stream_accessible.
  apply kp_bind; [apply extract_username_keeps | intros ?].
  keeps_using ltac:(apply Hreq).
Qed.

Lemma status_not_streaming (s : PerformerStatus) :
  s <> STREAMING -> PerformerStatus_eqb s STREAMING = false.
Proof. destruct s; intros H; try reflexivity. contradiction. Qed.

(** C6: when the resolved status is not STREAMING, the recording operation
    raises [CAM4Error] with exactly the result's message and classification,
    and starts no process; so in both implementations. *)
Theorem recording_refused_unless_streaming
        (url : string) (output_path : option string) (ffmpeg_args : option (list value))
        (w : World) :
  (forall info,
      fst (CAM4Standalone.check_performer url w) = Ok info ->
      status info <> STREAMING ->
      fst (CAM4Standalone.record_stream url output_path ffmpeg_args w)
      = Raise (CAM4Error (error_message info) (status info)) /\
      spawned (snd (CAM4Standalone.record_stream url output_path ffmpeg_args w))
      = spawned w) /\
  (forall cfg info,
      fst (CAM4StandaloneLib.check_performer cfg url w) = Ok info ->
      status info <> STREAMING ->
      fst (CAM4StandaloneLib.record_stream cfg url output_path ffmpeg_args w)
      = Raise (CAM4Error (error_message info) (status info)) /\
      spawned (snd (CAM4StandaloneLib.record_stream cfg url output_path ffmpeg_args w))
      = spawned w).
Proof.
  split.
  - intros info H Hs. pose proof (check_performer_keeps url w) as K.
    destruct (CAM4Standalone.check_performer url w) as [[i|e] w1] eqn:E0;
      cbn [fst snd] in *; [|discriminate H].
    injection H as ->.
    assert (E : CAM4Standalone.record_stream url output_path ffmpeg_args w
                = (Raise (CAM4Error (error_message info) (status info)), w1)).
    { unfold CAM4Standalone.record_stream. unfold bind at 1.
      rewrite E0, (status_not_streaming _ Hs). reflexivity. }
    rewrite E. split; [reflexivity | exact K].
  - intros cfg info H Hs. pose proof (check_performer_lib_keeps cfg url w) as K.
    destruct (CAM4StandaloneLib.check_performer cfg url w) as [[i|e] w1] eqn:E0;
      cbn [fst snd] in *; [|discriminate H].
    injection H as ->.
    assert (E : CAM4StandaloneLib.record_stream cfg url output_path ffmpeg_args w
                = (Raise (CAM4Error (error_message info) (status info)), w1)).
    { unfold CAM4StandaloneLib.record_stream. unfold bind at 1.
      rewrite E0, (status_not_streaming _ Hs). reflexivity. }
    rewrite E. split; [reflexivity | exact K].
Qed.

Lemma recording_refused_witness :
  fst (CAM4Standalone.record_stream "https://www.cam4.com/foo_1" None None
         (fresh_world scenario_offline))
  = Raise (CAM4Error (Some "foo_1: Performer is currently offline") OFFLINE) /\
  spawned (snd (CAM4Standalone.record_stream "https://www.cam4.com/foo_1" None None
                  (fresh_world scenario_offline))) = nil.
Proof.
  refine (proj1 (recording_refused_unless_streaming
                   "https://www.cam4.com/foo_1" None None (fresh_world scenario_offline))
                {| username := "foo_1"; status := OFFLINE; stream_url := None;
                   thumbnail_url := Some "https://snapshots.xcdnpro.com/thumbnails/foo_1";
                   error_message := Some "foo_1: Performer is currently offline" |} _ _).
  - vm_compute. reflexivity.
  - discriminate.
Defined.

Example recording_starts_when_streaming :
  let out := CAM4Standalone.record_stream "https://www.cam4.com/foo_1" (Some "out.ts") None
               (fresh_world scenario_streaming) in
  fst out = Ok 0%nat /\
  spawned (snd out)
  = (PyStr "ffmpeg" :: PyStr "-i" :: PyStr "https://cdn/x.m3u8" :: PyStr "-c:v"
       :: PyStr "copy" :: PyStr "-c:a" :: PyStr "copy" :: PyStr "-y"
       :: PyStr "out.ts" :: nil) :: nil.
Proof. split; vm_compute; reflexivity. Qed.

(** ** The three lookups, state by state *)

Ltac case_status :=
  repeat match goal with
         | |- context [if (?a =? ?b) then _ else _] => destruct (a =? b)
         | |- context [if (?a && ?b) then _ else _] => destruct (a && b)
         end.

Lemma profile_absent_result (o : Outcome) :
  profile_absent o -> exists v, profile_result o = Ok v /\ truthy v = false.
Proof.
  intros H. destruct H as [r H|r H|r Hc H|r v H T|e H]; unfold profile_result.
  - apply Z.eqb_eq in H. rewrite H. exists PyNone. auto.
  - rewrite H. case_status; exists PyNone; auto.
  - rewrite (Hc H). case_status; exists PyNone; auto.
  - rewrite H. case_status; try (exists PyNone; auto; fail).
    exists v. auto.
  - unfold transport_fault in H. rewrite H. exists PyNone. auto.
Qed.

Lemma no_playback_url_result (o : Outcome) :
  no_playback_url o ->
  exists v, stream_result o = Ok v /\
            (truthy v = false \/
             exists c, dict_get v "cdnURL" PyNone = Ok c /\ truthy c = false).
Proof.
  intros H. destruct H as [r H|r H|r H|r Hc H|r v H T|r d H L|r d v H L T|e H];
    unfold stream_result.
  - apply Z.eqb_eq in H. rewrite H. exists PyNone. auto.
  - apply Z.eqb_eq in H. rewrite H. case_status; exists PyNone; auto.
  - rewrite H. case_status; exists PyNone; auto.
  - rewrite (Hc H). case_status; exists PyNone; auto.
  - rewrite H, T. case_status; exists PyNone; auto.
  - rewrite H. case_status; try (exists PyNone; auto; fail).
    destruct (truthy (PyDict d)); [|exists PyNone; auto].
    exists (PyDict d). split; [reflexivity|]. right. exists PyNone.
    cbn [dict_get]. rewrite L. auto.
  - rewrite H. case_status; try (exists PyNone; auto; fail).
    destruct (truthy (PyDict d)); [|exists PyNone; auto].
    exists (PyDict d). split; [reflexivity|]. right. exists v.
    cbn [dict_get]. rewrite L. auto.
  - unfold transport_fault in H. rewrite H. exists PyNone. auto.
Qed.

(** C7: if the profile lookup answers 404, or with an unparsable or empty
    body, or fails with a transport fault, the resolver classifies NOT_FOUND
    and the result carries no stream URL. *)
Theorem absent_profile_is_not_found (url id : string) (w : World) :
  re_match_id VALID_URL_PATTERN url = Some id ->
  profile_absent (nth_outcome w 0) ->
  exists info,
    fst (CAM4Standalone.check_performer url w) = Ok info /\
    username info = str_lower id /\
    status info = NOT_FOUND /\
    stream_url info = None.
Proof.
  intros Hid Habs.
  rewrite (check_performer_classify _ _ _ Hid). unfold classify.
  destruct (profile_absent_result _ Habs) as (v & -> & ->). cbn [negb].
  eexists. repeat split.
Qed.

Lemma absent_profile_witness :
  exists info,
    fst (CAM4Standalone.check_performer "https://www.cam4.com/foo_1"
           (fresh_world scenario_absent)) = Ok info /\
    username info = "foo_1" /\
    status info = NOT_FOUND /\
    stream_url info = None.
Proof.
  refine (absent_profile_is_not_found
            "https://www.cam4.com/foo_1" "foo_1" (fresh_world scenario_absent) _ _).
  - reflexivity.
  - apply absent_status. reflexivity.
Defined.

(** C8 (corrected statement): if the profile lookup succeeds with a
    non-empty profile object and the online flag is false or absent, the
    resolver classifies OFFLINE and the result's thumbnail URL is the
    template [<thumbnail-base>/{identifier}]. *)
Theorem offline_profile_is_offline
        (url id : string) (w : World) (m : gmap string value) :
  re_match_id VALID_URL_PATTERN url = Some id ->
  profile_found (nth_outcome w 0) m ->
  reports_offline m ->
  exists info,
    fst (CAM4Standalone.check_performer url w) = Ok info /\
    status info = OFFLINE /\
    thumbnail_url info = Some (THUMBNAIL_BASE_URL +:+ "/" +:+ str_lower id).
Proof.
  intros Hid Hp Hoff.
  rewrite (check_performer_classify _ _ _ Hid). unfold classify.
  destruct (profile_found_result _ _ Hp) as [-> ->]. cbn [negb dict_get].
  assert (T : truthy (match m !! "online" with Some v => v | None => PyBool false end)
              = false).
  { destruct (m !! "online") as [v|] eqn:E; [exact (Hoff v E) | reflexivity]. }
  rewrite T. cbn [negb]. eexists. repeat split.
Qed.

Lemma offline_profile_witness :
  exists info,
    fst (CAM4Standalone.check_performer "https://www.cam4.com/Foo_1"
           (fresh_world scenario_offline)) = Ok info /\
    status info = OFFLINE /\
    thumbnail_url info = Some (THUMBNAIL_BASE_URL +:+ "/" +:+ "foo_1").
Proof.
  refine (offline_profile_is_offline
            "https://www.cam4.com/Foo_1" "Foo_1" (fresh_world scenario_offline)
            {[ "online" := PyBool false ]} _ _ _).
  - reflexivity.
  - eexists. split; [reflexivity|]. cbn [status_code parsed].
    repeat split; try lia. apply (dict_with_key _ "online" (PyBool false)). reflexivity.
  - intros v H. vm_compute in H. injection H as <-. reflexivity.
Defined.

(** C8 (counterexample to the statement for every successful lookup): the
    profile lookup is answered with status 200 and the empty object, so the
    online flag is absent; the guard [if not profile] takes the empty object
    for no profile, and the result is NOT_FOUND without thumbnail URL, not
    OFFLINE. *)
Lemma empty_profile_is_not_found :
  re_match_id VALID_URL_PATTERN "https://www.cam4.com/foo_1" = Some "foo_1" /\
  nth_outcome (fresh_world scenario_empty_profile) 0
  = Reply {| status_code := 200; text := "{}"; parsed := Some (PyDict ∅) |} /\
  reports_offline ∅ /\
  fst (CAM4Standalone.check_performer "https://www.cam4.com/foo_1"
         (fresh_world scenario_empty_profile))
  = Ok {| username := "foo_1"; status := NOT_FOUND; stream_url := None;
          thumbnail_url := None;
          error_message := Some "foo_1: Performer not found" |}.
Proof.
  split; [reflexivity|]. split; [reflexivity|]. split.
  - intros v H. rewrite lookup_empty in H. discriminate H.
  - vm_compute. reflexivity.
Qed.

(** C9: if the profile reports online and the stream-descriptor lookup
    answers 204 or 404, or with an empty body, or with a descriptor whose
    [cdnURL] field is missing or empty, the resolver classifies
    ONLINE_NOT_STREAMING and the result carries no stream URL. *)
Theorem online_without_playback_url
        (url id : string) (w : World) (m : gmap string value) :
  re_match_id VALID_URL_PATTERN url = Some id ->
  profile_found (nth_outcome w 0) m ->
  reports_online m ->
  no_playback_url (nth_outcome w 1) ->
  exists info,
    fst (CAM4Standalone.check_performer url w) = Ok info /\
    status info = ONLINE_NOT_STREAMING /\
    stream_url info = None.
Proof.
  intros Hid Hp (v & Hv & Hon) Hno.
  rewrite (check_performer_classify _ _ _ Hid). unfold classify.
  destruct (profile_found_result _ _ Hp) as [-> ->]. cbn [negb dict_get].
  rewrite Hv, Hon. cbn [negb].
  destruct (no_playback_url_result _ Hno) as (s & -> & [T | (c & Hc & T)]).
  - rewrite T. cbn [negb]. eexists. repeat split.
  - destruct (negb (truthy s)); [eexists; repeat split|].
    rewrite Hc, T. cbn [negb]. eexists. repeat split.
Qed.

Lemma online_without_playback_url_witness :
  exists info,
    fst (CAM4Standalone.check_performer "https://www.cam4.com/foo_1"
           (fresh_world scenario_no_content)) = Ok info /\
    status info = ONLINE_NOT_STREAMING /\
    stream_url info = None.
Proof.
  refine (online_without_playback_url
            "https://www.cam4.com/foo_1" "foo_1" (fresh_world scenario_no_content)
            {[ "online" := PyBool true ]} _ _ _ _).
  - reflexivity.
  - eexists. split; [reflexivity|]. cbn [status_code parsed].
    repeat split; try lia. apply (dict_with_key _ "online" (PyBool true)). reflexivity.
  - exists (PyBool true). split; reflexivity.
  - apply npu_no_content. reflexivity.
Defined.

(** ** The two implementations side by side *)

Lemma passes_comparable (cfg : CAM4StandaloneLib.Config) (r : RawResponse) :
  comparable cfg r -> passes (request_cls cfg) r = passes RequestsResponse r.
Proof.
  intros [H | ->]; [|reflexivity].
  unfold passes, raise_for_status. cbn [cls raw].
  destruct (request_cls cfg).
  - reflexivity.
  - destruct (Z.leb_spec 200 (status_code r)); [|lia].
    destruct (Z.leb_spec 400 (status_code r)), (Z.ltb_spec (status_code r) 400),
      (Z.ltb_spec (status_code r) 600); cbn [andb]; first [reflexivity | lia].
  - destruct (Z.leb_spec 400 (status_code r)), (Z.ltb_spec (status_code r) 600);
      cbn [andb]; first [reflexivity | lia].
Qed.

Lemma make_request_reply (cfg : CAM4StandaloneLib.Config) (url : value) (w : World)
      (r : RawResponse) :
  nth_outcome w 0 = Reply r ->
  CAM4StandaloneLib._make_request cfg url w
  = (Ok {| cls := request_cls cfg; raw := r |}, log_request (request_channel cfg) url w).
Proof.
  rewrite <- nth_outcome_0. intros H.
  unfold CAM4StandaloneLib._make_request, request_cls, request_channel.
  destruct (_ && _).
  - unfold try_except, CAM4StandaloneLib.flaresolverr_get, transport, bind.
    rewrite H. reflexivity.
  - unfold CAM4StandaloneLib.session_get, transport, bind. rewrite H. reflexivity.
Qed.

Lemma get_profile_info_lib_eq (cfg : CAM4StandaloneLib.Config) (u : string) (w : World)
      (r : RawResponse) :
  nth_outcome w 0 = Reply r -> comparable cfg r ->
  CAM4StandaloneLib.get_profile_info cfg u w
  = (profile_result (Reply r),
     log_request (request_channel cfg) (PyStr (BASE_API_URL +:+ "/" +:+ u +:+ "/info")) w).
Proof.
  intros H C. apply passes_comparable in C. unfold passes in C.
  unfold CAM4StandaloneLib.get_profile_info, try_except. unfold bind at 1.
  rewrite (make_request_reply _ _ _ _ H). cbn [raw]. unfold profile_result.
  destruct (status_code r =? 404); [reflexivity|].
  unfold bind, lift, ret.
  destruct (raise_for_status {| cls := request_cls cfg; raw := r |}) as [[]|e].
  - unfold raise_for_status in C. cbn [cls raw] in C.
    destruct ((400 <=? status_code r) && (status_code r <? 600)); [discriminate C|].
    unfold json. cbn [raw]. destruct (parsed r); [reflexivity|].
    destruct (cls _); reflexivity.
  - unfold raise_for_status in C. cbn [cls raw] in C.
    destruct ((400 <=? status_code r) && (status_code r <? 600)); [|discriminate C].
    reflexivity.
Qed.

Lemma get_stream_info_lib_eq (cfg : CAM4StandaloneLib.Config) (u : string) (w : World)
      (r : RawResponse) :
  nth_outcome w 0 = Reply r -> comparable cfg r ->
  CAM4StandaloneLib.get_stream_info cfg u w
  = (stream_result (Reply r),
     log_request (request_channel cfg)
       (PyStr (BASE_API_URL +:+ "/" +:+ u +:+ "/streamInfo")) w).
Proof.
  intros H C. apply passes_comparable in C. unfold passes in C.
  unfold CAM4StandaloneLib.get_stream_info, try_except. unfold bind at 1.
  rewrite (make_request_reply _ _ _ _ H). cbn [raw]. unfold stream_result.
  destruct (status_code r =? 204); [reflexivity|].
  destruct (status_code r =? 404); [reflexivity|]. cbn [orb].
  unfold bind, lift, ret.
  destruct (raise_for_status {| cls := request_cls cfg; raw := r |}) as [[]|e].
  - unfold raise_for_status in C. cbn [cls raw] in C.
    destruct ((400 <=? status_code r) && (status_code r <? 600)); [discriminate C|].
    unfold json. cbn [raw]. destruct (parsed r); [reflexivity|].
    destruct (cls _); reflexivity.
  - unfold raise_for_status in C. cbn [cls raw] in C.
    destruct ((400 <=? status_code r) && (status_code r <? 600)); [|discriminate C].
    reflexivity.
Qed.

Lemma verify_stream_accessible_lib_eq (cfg : CAM4StandaloneLib.Config) (url : value)
      (w : World) (r : RawResponse) :
  nth_outcome w 0 = Reply r ->
  CAM4StandaloneLib.verify_stream_accessible cfg url w
  = (probe_result (Reply r), log_request (request_channel cfg) url w).
Proof.
  intros H.
  unfold CAM4StandaloneLib.verify_stream_accessible, try_except. unfold bind at 1.
  rewrite (make_request_reply _ _ _ _ H). reflexivity.
Qed.

Lemma dict_index_of_get (v c : value) (k : string) :
  dict_get v k PyNone = Ok c -> truthy c = true -> CAM4StandaloneLib.dict_index v k = Ok c.
Proof.
  destruct v; try discriminate. cbn [dict_get CAM4StandaloneLib.dict_index].
  destruct (m !! k) as [x|].
  - intros H _. exact H.
  - intros H T. injection H as <-. discriminate T.
Qed.

Lemma same_result_refl (a : Result PerformerInfo) : same_result a a.
Proof. destruct a; simpl; auto. Qed.

Lemma check_performer_lib_classify
      (cfg : CAM4StandaloneLib.Config) (url id : string) (w : World) :
  re_match_id VALID_URL_PATTERN url = Some id ->
  (forall k : nat, (k < 3)%nat ->
     exists r, nth_outcome w k = Reply r /\ comparable cfg r) ->
  same_result
    (classify (str_lower id) (nth_outcome w 0) (nth_outcome w 1) (nth_outcome w 2))
    (fst (CAM4StandaloneLib.check_performer cfg url w)).
Proof.
  intros Hid Hrep.
  destruct (Hrep 0%nat) as (r0 & E0 & C0); [lia|].
  destruct (Hrep 1%nat) as (r1 & E1 & C1); [lia|].
  destruct (Hrep 2%nat) as (r2 & E2 & _); [lia|].
  unfold CAM4StandaloneLib.check_performer, classify, thumbnail_template.
  unfold bind at 1. rewrite (extract_username_match _ _ _ Hid).
  unfold bind at 1. rewrite (get_profile_info_lib_eq _ _ _ _ E0 C0), E0.
  destruct (profile_result (Reply r0)) as [profile|e]; [|apply same_result_refl].
  destruct (negb (truthy profile)); [simpl; auto|].
  unfold bind at 1, lift at 1.
  destruct (dict_get profile "online" (PyBool false)) as [is_online|e]; [|apply same_result_refl].
  destruct (negb (truthy is_online)); [simpl; auto|].
  unfold bind at 1.
  rewrite (get_stream_info_lib_eq cfg (str_lower id) _ r1), E1;
    [|rewrite nth_outcome_log; exact E1 | exact C1].
  destruct (stream_result (Reply r1)) as [stream_info|e]; [|apply same_result_refl].
  unfold bind at 1.
  destruct (truthy stream_info) eqn:Ts; cbn [negb]; [|simpl; auto].
  unfold bind at 1, lift at 1.
  destruct (dict_get stream_info "cdnURL" PyNone) as [cdn_url|e] eqn:Eg; [|apply same_result_refl].
  unfold ret at 1.
  destruct (truthy cdn_url) eqn:Tc; cbn [negb]; [|simpl; auto].
  unfold bind at 1, lift at 1. rewrite (dict_index_of_get _ _ _ Eg Tc).
  unfold bind at 1.
  rewrite (verify_stream_accessible_lib_eq cfg cdn_url _ r2), E2;
    [|rewrite !nth_outcome_log; exact E2].
  destruct (probe_result (Reply r2)) as [res|e]; [|apply same_result_refl].
  destruct (negb (fst res)); simpl; auto.
Qed.

(** C10 (corrected statement): given the same sequence of transport responses, each
    with a status code from 200 to 599 (or with the second implementation on
    the plain requests session), the two [check_performer] return results
    with the same status, the same stream URL and the same thumbnail URL, or
    raise the same exception. *)
Theorem implementations_agree_on_comparable_responses
        (cfg : CAM4StandaloneLib.Config) (url : string) (w : World) :
  (forall k : nat, (k < 3)%nat ->
     exists r, nth_outcome w k = Reply r /\
               (200 <= status_code r < 600 \/ request_cls cfg = RequestsResponse)) ->
  same_result (fst (CAM4Standalone.check_performer url w))
              (fst (CAM4StandaloneLib.check_performer cfg url w)).
Proof.
  intros Hrep.
  destruct (re_match_id VALID_URL_PATTERN url) as [id|] eqn:Hid.
  - rewrite (check_performer_classify _ _ _ Hid).
    apply check_performer_lib_classify; assumption.
  - rewrite (check_performer_no_match _ _ Hid), (check_performer_lib_no_match _ _ _ Hid).
    apply same_result_refl.
Qed.

Lemma implementations_agree_witness :
  same_result
    (fst (CAM4Standalone.check_performer "https://www.cam4.com/foo_1"
            (fresh_world scenario_streaming)))
    (fst (CAM4StandaloneLib.check_performer through_flaresolverr
            "https://www.cam4.com/foo_1" (fresh_world scenario_streaming))).
Proof.
  apply (implementations_agree_on_comparable_responses through_flaresolverr
           "https://www.cam4.com/foo_1" (fresh_world scenario_streaming)).
  intros k Hk.
  destruct k as [|[|k]]; eexists; (split; [reflexivity|]); left; cbn [status_code]; lia.
Defined.

(** C10 (counterexample to agreement on every status code): on the same
    single response (status code
    600, an offline profile as body) the script classifies OFFLINE while the
    library module, reading through FlareSolverr, classifies NOT_FOUND. *)
Lemma implementations_differ_on_status_600 :
  (forall k, nth_outcome (fresh_world scenario_status_600) k
             = Reply {| status_code := 600; text := "{online: false}";
                        parsed := Some (PyDict {[ "online" := PyBool false ]}) |}) /\
  fst (CAM4Standalone.check_performer "https://www.cam4.com/foo_1"
         (fresh_world scenario_status_600))
  = Ok {| username := "foo_1"; status := OFFLINE; stream_url := None;
          thumbnail_url := Some "https://snapshots.xcdnpro.com/thumbnails/foo_1";
          error_message := Some "foo_1: Performer is currently offline" |} /\
  fst (CAM4StandaloneLib.check_performer through_flaresolverr "https://www.cam4.com/foo_1"
         (fresh_world scenario_status_600))
  = Ok {| username := "foo_1"; status := NOT_FOUND; stream_url := None;
          thumbnail_url := None;
          error_message := Some "foo_1: Performer not found" |}.
Proof.
  split; [intros k; reflexivity|]. split; vm_compute; reflexivity.
Qed.

(** ** The scenarios of the design document *)

Example scenario_no_content_ok :
  fst (CAM4Standalone.check_performer "https://www.cam4.com/foo_1"
         (fresh_world scenario_no_content))
  = Ok {| username := "foo_1"; status := ONLINE_NOT_STREAMING; stream_url := None;
          thumbnail_url := Some "https://snapshots.xcdnpro.com/thumbnails/foo_1";
          error_message := Some "foo_1: Performer is online but not currently streaming" |}.
Proof. vm_compute. reflexivity. Qed.

Example scenario_private_ok :
  status_code {| status_code := 200;
                 text := "Session is not allowed to view this stream";
                 parsed := None |} = 200 /\
  probe_verdict {| cls := RequestsResponse;
                   raw := {| status_code := 200;
                             text := "Session is not allowed to view this stream";
                             parsed := None |} |}
  = (false, Some private_message).
Proof. split; vm_compute; reflexivity. Qed.

Example requests_of_streaming_run :
  requests (snd (CAM4Standalone.check_performer "https://www.cam4.com/foo_1"
                   (fresh_world scenario_streaming)))
  = (SessionGet, PyStr "https://www.cam4.com/rest/v1.0/profile/foo_1/info")
      :: (SessionGet, PyStr "https://www.cam4.com/rest/v1.0/profile/foo_1/streamInfo")
      :: (SessionGet, PyStr "https://cdn/x.m3u8") :: nil.
Proof. vm_compute. reflexivity. Qed.

Example flaresolverr_falls_back_to_session :
  let out := CAM4StandaloneLib.check_performer through_flaresolverr
               "https://www.cam4.com/foo_1" (fresh_world scenario_proxy_down) in
  fst out = Ok {| username := "foo_1"; status := NOT_FOUND; stream_url := None;
                  thumbnail_url := None;
                  error_message := Some "foo_1: Performer not found" |} /\
  requests (snd out)
  = (FlareSolverrGet, PyStr "https://www.cam4.com/rest/v1.0/profile/foo_1/info")
      :: (SessionGet, PyStr "https://www.cam4.com/rest/v1.0/profile/foo_1/info") :: nil.
Proof. split; vm_compute; reflexivity. Qed.

(** ** The extracted identifier *)

Lemma str_length_app (a b : string) :
  String.length (a +:+ b) = (String.length a + String.length b)%nat.
Proof.
  induction a as [|c a IH]; [reflexivity|].
  rewrite str_app_cons. cbn [String.length]. rewrite IH. reflexivity.
Qed.

Lemma plus_greedy_split (ic : bool) {R} (a : atom) (s : list string)
      (k : list string -> option R) (x : R) :
  plus_greedy ic a s k = Some x ->
  exists pre rest, s = (pre ++ rest)%list /\ pre <> nil /\
                   forallb (atom_matches ic a) pre = true /\ k rest = Some x.
Proof.
  induction s as [|q s IH]; cbn [plus_greedy]; [discriminate|].
  destruct (atom_matches ic a q) eqn:M; [|discriminate].
  destruct (plus_greedy ic a s k) as [y|] eqn:E.
  - intros H. injection H as <-.
    destruct (IH eq_refl) as (pre & rest & -> & _ & F & K).
    exists (q :: pre), rest. repeat split; [discriminate | | exact K].
    cbn [forallb]. rewrite M, F. reflexivity.
  - intros H. exists (q :: nil), s. repeat split; [discriminate | | exact H].
    cbn [forallb]. rewrite M. reflexivity.
Qed.

Lemma firstn_prefix (pre rest : list string) :
  firstn (length (pre ++ rest)%list - length rest) (pre ++ rest)%list = pre.
Proof.
  rewrite length_app.
  replace (length pre + length rest - length rest)%nat with (length pre) by lia.
  induction pre as [|q pre IH]; [destruct rest; reflexivity|].
  cbn [length firstn app]. f_equal. exact IH.
Qed.

(** The group is a stretch of the subject's code points, each one admitted
    by the repeated atom. *)
Lemma rmatch_last_group (ic : bool) {R} (r : regex) (a : atom) :
  last_group_plus r = Some a ->
  forall (k : list string -> option string -> option R) s cap x,
    rmatch ic r s cap k = Some x ->
    exists front pre s',
      s = (front ++ pre ++ s')%list /\ k s' (Some (glue pre)) = Some x /\
      pre <> nil /\ forallb (atom_matches ic a) pre = true.
Proof.
  induction r as [|b|r1 IH1 r2 IH2|r1 IH1|b|r1 IH1]; intros E k s cap x;
    try discriminate E.
  - cbn [rmatch]. intros H. apply rmatch_from_k in H as (p1 & s1 & c1 & -> & H).
    apply (IH2 E) in H as (front & pre & s' & -> & K & N & F).
    exists (p1 ++ front)%list, pre, s'. rewrite <- app_assoc. auto.
  - destruct r1; try discriminate E. injection E as ->.
    cbn [rmatch]. intros H.
    apply plus_greedy_split in H as (pre & rest & -> & N & F & K).
    rewrite firstn_prefix in K. exists nil, pre, rest. auto.
Qed.

Lemma re_match_id_group (url g : string) :
  re_match_id VALID_URL_PATTERN url = Some g ->
  exists front pre rest,
    code_points url = (front ++ pre ++ rest)%list /\ g = glue pre /\ pre <> nil /\
    forallb (atom_matches true
      (ASet false (("a", "z") :: ("0", "9") :: ("_", "_") :: nil)%char)) pre = true.
Proof.
  unfold re_match_id.
  destruct (rmatch true VALID_URL_PATTERN (code_points url) None (fun _ cap => Some cap))
    as [[c|]|] eqn:E; try discriminate.
  intros H. injection H as ->.
  eapply rmatch_last_group in E as (front & pre & s' & Hs & K & N & F); [|reflexivity].
  injection K as <-. exists front, pre, s'. auto.
Qed.

(** *** Code points are never empty *)

Lemma cut_nonempty (s : string) :
  forall need cur, cur <> "" -> Forall (fun q => q <> "") (cut need cur s).
Proof.
  induction s as [|c s IH]; intros need cur Hc; cbn [cut].
  - constructor; [exact Hc | constructor].
  - assert (N1 : String c "" <> "") by discriminate.
    assert (N2 : cur +:+ String c "" <> "") by (destruct cur; [contradiction | discriminate]).
    destruct need as [|n]; [constructor; [exact Hc | apply IH, N1]|].
    destruct (is_continuation c); [apply IH, N2 | constructor; [exact Hc | apply IH, N1]].
Qed.

Lemma code_points_nonempty (s : string) : Forall (fun q => q <> "") (code_points s).
Proof.
  destruct s as [|c s]; [constructor|]. apply cut_nonempty. discriminate.
Qed.

Lemma cut_head (s : string) :
  forall need cur, exists q l, cut need cur s = (cur +:+ q) :: l.
Proof.
  induction s as [|c s IH]; intros need cur; cbn [cut].
  - exists "", nil. f_equal.
    induction cur as [|d cur IHc]; [reflexivity | rewrite str_app_cons, <- IHc; reflexivity].
  - assert (Z0 : exists q l, cur :: cut (announced c) (String c "") s = (cur +:+ q) :: l).
    { exists "", (cut (announced c) (String c "") s). f_equal.
      induction cur as [|d cur IHc]; [reflexivity | rewrite str_app_cons, <- IHc; reflexivity]. }
    destruct need as [|n]; [exact Z0|].
    destruct (is_continuation c); [|exact Z0].
    destruct (IH n (cur +:+ String c "")) as (q & l & ->).
    exists (String c q), l. f_equal. rewrite str_app_assoc. reflexivity.
Qed.

Lemma cp_lower_nonempty (q : string) : q <> "" -> cp_lower q <> "".
Proof.
  intros N. unfold cp_lower. destruct q as [|c [|d q]]; [contradiction | discriminate |].
  destruct (String.eqb _ U0130); [discriminate|].
  destruct (String.eqb _ U212A); discriminate.
Qed.

Lemma str_lower_nonempty (g : string) : g <> "" -> str_lower g <> "".
Proof.
  intros N. unfold str_lower. destruct g as [|c g]; [contradiction|].
  cbn [code_points]. destruct (cut_head g (announced c) (String c "")) as (q & l & ->).
  cbn [map glue]. rewrite str_app_cons.
  pose proof (cp_lower_nonempty (String c ("" +:+ q))) as P.
  destruct (cp_lower (String c ("" +:+ q))); [exfalso; apply P; [discriminate | reflexivity]|].
  discriminate.
Qed.

Lemma glue_nonempty (pre : list string) :
  pre <> nil -> Forall (fun q => q <> "") pre -> glue pre <> "".
Proof.
  destruct pre as [|q pre]; [contradiction|]. intros _ F.
  inversion F as [|? ? Hq _]; subst. cbn [glue].
  destruct q; [contradiction | discriminate].
Qed.

(** *** ASCII text *)

Lemma cut_ascii (s : string) :
  forall cur, is_ascii s = true -> cut 0 cur s = cur :: singles s.
Proof.
  induction s as [|c s IH]; intros cur H; cbn [cut singles]; [reflexivity|].
  unfold is_ascii in H. cbn [str_forall] in H. apply andb_true_iff in H as [Hc Hs].
  assert (A : announced c = 0%nat).
  { unfold announced. apply N.ltb_lt in Hc.
    destruct (N.ltb_spec (N_of_ascii c) 192); [reflexivity | lia]. }
  rewrite A, (IH _ Hs). reflexivity.
Qed.

Lemma code_points_ascii (s : string) : is_ascii s = true -> code_points s = singles s.
Proof.
  destruct s as [|c s]; [reflexivity|]. intros H. cbn [code_points singles].
  unfold is_ascii in H. cbn [str_forall] in H. apply andb_true_iff in H as [Hc Hs].
  assert (A : announced c = 0%nat).
  { unfold announced. apply N.ltb_lt in Hc.
    destruct (N.ltb_spec (N_of_ascii c) 192); [reflexivity | lia]. }
  rewrite A. apply cut_ascii, Hs.
Qed.

Lemma glue_singles (s : string) : glue (singles s) = s.
Proof. induction s as [|c s IH]; cbn [singles glue]; [reflexivity|]. rewrite IH. reflexivity. Qed.

Lemma glue_lower_singles (s : string) : glue (map cp_lower (singles s)) = lower s.
Proof.
  induction s as [|c s IH]; cbn [singles map glue lower cp_lower]; [reflexivity|].
  rewrite IH. reflexivity.
Qed.

Lemma str_lower_ascii (s : string) : is_ascii s = true -> str_lower s = lower s.
Proof.
  intros H. unfold str_lower. rewrite (code_points_ascii _ H). apply glue_lower_singles.
Qed.

Lemma is_ascii_app (a b : string) :
  is_ascii (a +:+ b) = is_ascii a && is_ascii b.
Proof.
  unfold is_ascii. induction a as [|c a IH]; [reflexivity|].
  rewrite str_app_cons. cbn [str_forall]. rewrite IH, andb_assoc. reflexivity.
Qed.

Lemma singles_split (l1 l2 : list string) :
  forall s, singles s = (l1 ++ l2)%list ->
  exists s1 s2, s = s1 +:+ s2 /\ l1 = singles s1 /\ l2 = singles s2.
Proof.
  induction l1 as [|q l1 IH]; intros s H.
  - exists "", s. auto.
  - destruct s as [|c s]; [discriminate H|]. cbn [singles app] in H.
    injection H as <- H. destruct (IH _ H) as (s1 & s2 & -> & -> & ->).
    exists (String c s1), s2. auto.
Qed.

Lemma is_ascii_lower (s : string) : is_ascii (lower s) = is_ascii s.
Proof.
  unfold is_ascii. induction s as [|c s IH]; [reflexivity|].
  cbn [lower str_forall]. rewrite IH. f_equal.
  destruct c as [[] [] [] [] [] [] [] []]; reflexivity.
Qed.

Lemma ident_class_lower (c : ascii) :
  atom_matches true
    (ASet false (("a", "z") :: ("0", "9") :: ("_", "_") :: nil)%char) (String c "") = true ->
  is_ident_char (ascii_lower c) = true.
Proof.
  destruct c as [[] [] [] [] [] [] [] []]; vm_compute; intros H;
    first [reflexivity | discriminate H].
Qed.

Lemma ident_char_lower_fixed (c : ascii) :
  is_ident_char c = true -> ascii_lower c = c.
Proof.
  destruct c as [[] [] [] [] [] [] [] []]; vm_compute; intros H;
    first [reflexivity | discriminate H].
Qed.

Lemma lower_of_ident_class (g : string) :
  forallb (atom_matches true
    (ASet false (("a", "z") :: ("0", "9") :: ("_", "_") :: nil)%char)) (singles g) = true ->
  str_forall is_ident_char (lower g) = true.
Proof.
  induction g as [|c g IH]; cbn [singles forallb str_forall lower]; [reflexivity|].
  intros H. apply andb_true_iff in H as [Hc Hg].
  rewrite (ident_class_lower _ Hc), (IH Hg). reflexivity.
Qed.

Lemma lower_ident_fixed (u : string) :
  str_forall is_ident_char u = true -> lower u = u.
Proof.
  induction u as [|c u IH]; cbn [str_forall lower]; [reflexivity|].
  intros H. apply andb_true_iff in H as [Hc Hu].
  rewrite (ident_char_lower_fixed _ Hc), (IH Hu). reflexivity.
Qed.

(** The group of an ASCII URL is ASCII, and its code points are its bytes. *)
Lemma ascii_group (url : string) (front pre rest : list string) :
  is_ascii url = true -> code_points url = (front ++ pre ++ rest)%list ->
  is_ascii (glue pre) = true /\ pre = singles (glue pre).
Proof.
  intros A H. rewrite (code_points_ascii _ A) in H.
  apply singles_split in H as (s1 & s2 & -> & _ & H). symmetry in H.
  apply singles_split in H as (s3 & s4 & -> & -> & _).
  rewrite glue_singles. rewrite !is_ascii_app in A.
  apply andb_true_iff in A as [_ A]. apply andb_true_iff in A as [A _]. auto.
Qed.

(** Identifiers outside [[a-z0-9_]]: what [re.IGNORECASE] lets through. *)
Example identifier_long_s :
  forall w, extract_username ("https://www.cam4.com/" +:+ U017F) w = (Ok U017F, w).
Proof. reflexivity. Qed.
Example identifier_behind_long_s_scheme :
  forall w, extract_username ("http" +:+ U017F +:+ "://www.cam4.com/abc") w = (Ok "abc", w).
Proof. reflexivity. Qed.
Example identifier_kelvin_sign :
  forall w, extract_username ("https://www.cam4.com/ab" +:+ U212A +:+ "cd") w
            = (Ok "abkcd", w).
Proof. reflexivity. Qed.
Example identifier_dotted_capital_i :
  forall w, extract_username ("https://www.cam4.com/" +:+ U0130) w
            = (Ok (String "i" U0307), w).
Proof. reflexivity. Qed.

(** X1: an identifier that [extract_username] returns is never empty and is
    produced without touching the world.  For a URL of ASCII characters it
    consists of the characters [a-z0-9_] only and is its own lower-case form;
    outside ASCII the identifier can leave that class, because
    [re.IGNORECASE] admits U+0130, U+0131, U+017F and U+212A in [[a-z0-9_]]. *)
Theorem extracted_identifier_is_normalised (url u : string) (w : World) :
  fst (extract_username url w) = Ok u ->
  u <> "" /\ snd (extract_username url w) = w /\
  (is_ascii url = true -> str_forall is_ident_char u = true /\ str_lower u = u).
Proof.
  unfold extract_username.
  destruct (re_match_id VALID_URL_PATTERN url) as [g|] eqn:E; [|discriminate].
  cbn [ret fst snd]. intros H. injection H as <-.
  destruct (re_match_id_group _ _ E) as (front & pre & rest & Hs & -> & N & F).
  split; [|split; [reflexivity|]].
  - apply str_lower_nonempty, glue_nonempty; [exact N|].
    pose proof (code_points_nonempty url) as P. rewrite Hs in P.
    apply Forall_app in P as [_ P]. apply Forall_app in P as [P _]. exact P.
  - intros A. destruct (ascii_group _ _ _ _ A Hs) as [Ag Ep].
    rewrite Ep in F. pose proof (lower_of_ident_class _ F) as I.
    rewrite (str_lower_ascii _ Ag). split; [exact I|].
    rewrite str_lower_ascii by (rewrite is_ascii_lower; exact Ag).
    rewrite (lower_ident_fixed _ I). reflexivity.
Qed.

Lemma extracted_identifier_witness :
  "foo_1" <> "" /\
  snd (extract_username "HTTPS://WWW.CAM4.COM/Foo_1/x" (fresh_world scenario_streaming))
  = fresh_world scenario_streaming /\
  (is_ascii "HTTPS://WWW.CAM4.COM/Foo_1/x" = true ->
   str_forall is_ident_char "foo_1" = true /\ str_lower "foo_1" = "foo_1").
Proof.
  apply (extracted_identifier_is_normalised
           "HTTPS://WWW.CAM4.COM/Foo_1/x" "foo_1" (fresh_world scenario_streaming)).
  reflexivity.
Defined.

(** ** The shape of a result *)

Ltac record_facts :=
  unfold well_formed_result; cbn [stream_url status error_message];
  repeat split; intros; try congruence; try discriminate.

Lemma classify_well_formed (u : string) (o0 o1 o2 : Outcome) (info : PerformerInfo) :
  classify u o0 o1 o2 = Ok info -> well_formed_result info.
Proof.
  unfold classify. intros H. split_result H;
    first [discriminate H | injection H as <-; record_facts].
  match goal with
  | Hv : Some _ = Some _ |- _ => injection Hv as <-
  end.
  match goal with
  | Hn : negb (truthy ?x) = false |- truthy ?x = true => apply negb_false_iff, Hn
  end.
Qed.

Lemma indexed_url_is_truthy (si c : value) (k : string) (w2 w3 : World) :
  (if negb (truthy si)
   then fun w : World => (Ok true, w)
   else fun w : World =>
          match dict_get si k PyNone with
          | Ok a => (Ok (negb (truthy a)), w)
          | Raise e => (Raise e, w)
          end) w2 = (Ok false, w3) ->
  CAM4StandaloneLib.dict_index si k = Ok c ->
  truthy c = true.
Proof.
  destruct (negb (truthy si)); [discriminate|].
  destruct (dict_get si k PyNone) as [a|e] eqn:G; [|discriminate].
  intros H I. injection H as H _. apply negb_false_iff in H.
  rewrite (dict_index_of_get _ _ _ G H) in I. injection I as <-. exact H.
Qed.

Lemma check_performer_lib_well_formed
      (cfg : CAM4StandaloneLib.Config) (url : string) (w : World) (info : PerformerInfo) :
  fst (CAM4StandaloneLib.check_performer cfg url w) = Ok info -> well_formed_result info.
Proof.
  unfold CAM4StandaloneLib.check_performer, extract_username.
  unfold bind, lift, ret, raise. intros H.
  split_result H; cbn [fst] in H;
    first [discriminate H | injection H as <-; record_facts].
  match goal with
  | Hv : Some _ = Some _ |- _ => injection Hv as <-
  end.
  subst. eapply indexed_url_is_truthy; eassumption.
Qed.

(** X2: every result either implementation returns has a stream URL exactly
    when its status is STREAMING, has a message exactly when it is not, and
    its stream URL is never an empty value. *)
Theorem results_are_well_formed (url : string) (w : World) :
  (forall info,
      fst (CAM4Standalone.check_performer url w) = Ok info -> well_formed_result info) /\
  (forall cfg info,
      fst (CAM4StandaloneLib.check_performer cfg url w) = Ok info ->
      well_formed_result info).
Proof.
  split.
  - intros info H.
    destruct (re_match_id VALID_URL_PATTERN url) as [id|] eqn:E.
    + rewrite (check_performer_classify _ _ _ E) in H.
      apply classify_well_formed in H. exact H.
    + rewrite (check_performer_no_match _ _ E) in H. discriminate H.
  - intros cfg info H. apply check_performer_lib_well_formed in H. exact H.
Qed.

Lemma results_are_well_formed_witness :
  well_formed_result
    {| username := "foo_1"; status := STREAMING;
       stream_url := Some (PyStr "https://cdn/x.m3u8");
       thumbnail_url := Some "https://snapshots.xcdnpro.com/thumbnails/foo_1";
       error_message := None |}.
Proof.
  refine (proj1 (results_are_well_formed "https://www.cam4.com/foo_1"
                   (fresh_world scenario_streaming)) _ _).
  vm_compute. reflexivity.
Defined.

(** ** The probe, case by case *)

Lemma probe_verdict_accepts (c : ResponseClass) (r : RawResponse) (m : option string) :
  probe_verdict {| cls := c; raw := r |} = (true, m) <->
  m = None /\ occurs "#EXTM3U" (text r) /\ ~ has_private_marker (text r) /\
  status_code r <> 400 /\ status_code r <> 403.
Proof.
  split.
  - unfold probe_verdict. cbn [raw].
    destruct (str_in "not allowed to view" (lower (text r))
              || str_in "session is not allowed" (lower (text r))) eqn:M;
      [discriminate|].
    destruct (status_code r =? 400) eqn:E400; [discriminate|].
    destruct (status_code r =? 403) eqn:E403; [discriminate|]. cbn [orb].
    destruct (str_in "#EXTM3U" (text r)) eqn:P; [|discriminate].
    intros H. injection H as <-. repeat split.
    + apply str_in_iff, P.
    + intros N. apply private_marker_b_iff in N. unfold private_marker_b in N. congruence.
    + apply Z.eqb_neq, E400.
    + apply Z.eqb_neq, E403.
  - intros (-> & P & M & E400 & E403). apply probe_verdict_playlist; assumption.
Qed.

(** X3: on any response, the probe of either implementation accepts exactly
    when the body carries [#EXTM3U] (in this letter case), carries no
    private-gate phrase, and the status code is neither 400 nor 403; a body
    with neither marker behind another status code is rejected as an invalid
    stream response. *)
Theorem probe_accepts_exactly_live_playlists
        (cfg : CAM4StandaloneLib.Config) (m3u8 : value) (w : World) (r : RawResponse) :
  nth_outcome w 0 = Reply r ->
  let live := occurs "#EXTM3U" (text r) /\ ~ has_private_marker (text r) /\
              status_code r <> 400 /\ status_code r <> 403 in
  (fst (CAM4Standalone.verify_stream_accessible m3u8 w) = Ok (true, None) <-> live) /\
  (fst (CAM4StandaloneLib.verify_stream_accessible cfg m3u8 w) = Ok (true, None)
   <-> live) /\
  (~ occurs "#EXTM3U" (text r) -> ~ has_private_marker (text r) ->
   status_code r <> 400 -> status_code r <> 403 ->
   fst (CAM4Standalone.verify_stream_accessible m3u8 w)
   = Ok (false, Some "Invalid stream response") /\
   fst (CAM4StandaloneLib.verify_stream_accessible cfg m3u8 w)
   = Ok (false, Some "Invalid stream response")).
Proof.
  intros H live.
  rewrite verify_stream_accessible_eq, (verify_stream_accessible_lib_eq _ _ _ _ H), H.
  cbn [fst probe_result].
  assert (I : Ok (probe_verdict {| cls := RequestsResponse; raw := r |})
              = Ok (true, None) <-> live).
  { split.
    - intros E. injection E as E. apply probe_verdict_accepts in E as (_ & E). exact E.
    - intros L. f_equal. apply probe_verdict_accepts. split; [reflexivity | exact L]. }
  split; [exact I|]. split; [exact I|].
  intros P M E400 E403.
  assert (V : probe_verdict {| cls := RequestsResponse; raw := r |}
              = (false, Some "Invalid stream response")).
  { unfold probe_verdict. cbn [raw].
    apply private_marker_b_false in M. unfold private_marker_b in M. rewrite M.
    apply Z.eqb_neq in E400, E403. rewrite E400, E403. cbn [orb].
    destruct (str_in "#EXTM3U" (text r)) eqn:S; [|reflexivity].
    exfalso. apply P, str_in_iff, S. }
  rewrite V. split; reflexivity.
Qed.

Lemma probe_accepts_witness :
  fst (CAM4Standalone.verify_stream_accessible (PyStr "https://cdn/x.m3u8")
         (fresh_world (fun _ => reply 200 "#extm3u" None)))
  = Ok (false, Some "Invalid stream response") /\
  fst (CAM4StandaloneLib.verify_stream_accessible plain_requests (PyStr "https://cdn/x.m3u8")
         (fresh_world (fun _ => reply 200 "#extm3u" None)))
  = Ok (false, Some "Invalid stream response").
Proof.
  refine (proj2 (proj2 (probe_accepts_exactly_live_playlists
            plain_requests (PyStr "https://cdn/x.m3u8")
            (fresh_world (fun _ => reply 200 "#extm3u" None))
            {| status_code := 200; text := "#extm3u"; parsed := None |} _)) _ _ _ _).
  - reflexivity.
  - intros H. apply str_in_iff in H. vm_compute in H. discriminate.
  - intros H. apply private_marker_b_iff in H. vm_compute in H. discriminate.
  - cbn [status_code]. lia.
  - cbn [status_code]. lia.
Defined.

(** ** Reading a result backwards *)

Lemma profile_result_inv (o : Outcome) (v : value) :
  profile_result o = Ok v -> truthy v = true ->
  exists r, o = Reply r /\ parsed r = Some v.
Proof.
  destruct o as [e|r]; unfold profile_result.
  - destruct (is_RequestException e); [|discriminate].
    intros H T. injection H as <-. discriminate T.
  - case_status; try (intros H T; injection H as <-; discriminate T);
      destruct (parsed r) as [x|] eqn:P; intros H T; injection H as <-;
      [eauto | discriminate T].
Qed.

Lemma stream_result_inv (o : Outcome) (v : value) :
  stream_result o = Ok v -> truthy v = true ->
  exists r, o = Reply r /\ parsed r = Some v.
Proof.
  destruct o as [e|r]; unfold stream_result.
  - destruct (is_RequestException e); [|discriminate].
    intros H T. injection H as <-. discriminate T.
  - case_status; try (intros H T; injection H as <-; discriminate T);
      (destruct (parsed r) as [x|] eqn:P;
       [|intros H T; injection H as <-; discriminate T]);
      destruct (truthy x) eqn:Tx; intros H T; injection H as <-;
      [eauto | discriminate T].
Qed.

Lemma dict_get_inv (d v : value) (k : string) (default : value) :
  dict_get d k default = Ok v ->
  exists m, d = PyDict m /\ v = match m !! k with Some x => x | None => default end.
Proof. destruct d; try discriminate. intros H. injection H as <-. eauto. Qed.

(** X4: a result of the script in the state STREAMING is never reported
    without evidence: the profile reply was an object with a true online
    flag, the descriptor reply an object whose [cdnURL] is the result's stream
    URL, and the probe reply a body with [#EXTM3U], without a private-gate
    phrase, behind a status code other than 400 and 403. *)
Theorem streaming_is_backed_by_a_live_playlist
        (url id : string) (w : World) (info : PerformerInfo) :
  re_match_id VALID_URL_PATTERN url = Some id ->
  fst (CAM4Standalone.check_performer url w) = Ok info ->
  status info = STREAMING ->
  exists r0 m r1 d r2,
    nth_outcome w 0 = Reply r0 /\ parsed r0 = Some (PyDict m) /\ reports_online m /\
    nth_outcome w 1 = Reply r1 /\ parsed r1 = Some (PyDict d) /\
    stream_url info = d !! "cdnURL" /\
    nth_outcome w 2 = Reply r2 /\
    occurs "#EXTM3U" (text r2) /\ ~ has_private_marker (text r2) /\
    status_code r2 <> 400 /\ status_code r2 <> 403.
Proof.
  intros Hid H S. rewrite (check_performer_classify _ _ _ Hid) in H.
  unfold classify in H.
  destruct (profile_result (nth_outcome w 0)) as [profile|] eqn:E0; [|discriminate H].
  destruct (truthy profile) eqn:T0; cbn [negb] in H;
    [|injection H as <-; discriminate S].
  destruct (dict_get profile "online" (PyBool false)) as [on|] eqn:G0; [|discriminate H].
  destruct (truthy on) eqn:Ton; cbn [negb] in H; [|injection H as <-; discriminate S].
  destruct (stream_result (nth_outcome w 1)) as [si|] eqn:E1; [|discriminate H].
  destruct (truthy si) eqn:T1; cbn [negb] in H; [|injection H as <-; discriminate S].
  destruct (dict_get si "cdnURL" PyNone) as [cdn|] eqn:G1; [|discriminate H].
  destruct (truthy cdn) eqn:Tc; cbn [negb] in H; [|injection H as <-; discriminate S].
  destruct (probe_result (nth_outcome w 2)) as [[ok msg]|] eqn:E2; [|discriminate H].
  destruct ok; cbn [fst negb] in H; [|injection H as <-; discriminate S].
  injection H as <-. cbn [stream_url].
  destruct (profile_result_inv _ _ E0 T0) as (r0 & O0 & P0).
  destruct (stream_result_inv _ _ E1 T1) as (r1 & O1 & P1).
  destruct (dict_get_inv _ _ _ _ G0) as (m & -> & ->).
  destruct (dict_get_inv _ _ _ _ G1) as (d & -> & ->).
  destruct (nth_outcome w 2) as [e|r2] eqn:O2.
  { cbn [probe_result] in E2. destruct (is_RequestException e); discriminate E2. }
  cbn [probe_result] in E2. injection E2 as E2.
  apply probe_verdict_accepts in E2 as (_ & P & M & E400 & E403).
  exists r0, m, r1, d, r2. repeat split; try assumption.
  - destruct (m !! "online") as [x|] eqn:L; [exists x; auto | discriminate Ton].
  - destruct (d !! "cdnURL") as [x|] eqn:L; [reflexivity | discriminate Tc].
Qed.

Lemma streaming_is_backed_witness :
  exists r0 m r1 d r2,
    nth_outcome (fresh_world scenario_streaming) 0 = Reply r0 /\
    parsed r0 = Some (PyDict m) /\ reports_online m /\
    nth_outcome (fresh_world scenario_streaming) 1 = Reply r1 /\
    parsed r1 = Some (PyDict d) /\
    Some (PyStr "https://cdn/x.m3u8") = d !! "cdnURL" /\
    nth_outcome (fresh_world scenario_streaming) 2 = Reply r2 /\
    occurs "#EXTM3U" (text r2) /\ ~ has_private_marker (text r2) /\
    status_code r2 <> 400 /\ status_code r2 <> 403.
Proof.
  refine (streaming_is_backed_by_a_live_playlist
            "https://www.cam4.com/foo_1" "foo_1" (fresh_world scenario_streaming)
            {| username := "foo_1"; status := STREAMING;
               stream_url := Some (PyStr "https://cdn/x.m3u8");
               thumbnail_url := Some "https://snapshots.xcdnpro.com/thumbnails/foo_1";
               error_message := None |} _ _ _).
  - reflexivity.
  - vm_compute. reflexivity.
  - reflexivity.
Defined.

(** ** Faults, absorbed and propagated *)

(** X5: when a playback URL was obtained and the probe request itself meets
    a transport fault, the script classifies PRIVATE_OR_AWAY and the message
    quotes the fault. *)
Theorem probe_fault_is_private_or_away
        (url id : string) (w : World) (cdn : value) (e : exn) :
  re_match_id VALID_URL_PATTERN url = Some id ->
  playback_url_obtained w cdn ->
  nth_outcome w 2 = Fault e ->
  transport_fault e ->
  exists info,
    fst (CAM4Standalone.check_performer url w) = Ok info /\
    status info = PRIVATE_OR_AWAY /\
    stream_url info = None /\
    error_message info
    = Some (str_lower id +:+ ": " +:+ "Error accessing stream: " +:+ exn_str e).
Proof.
  intros Hid (m & d & Hp & Hon & Hd & Hu) H2 Hf.
  rewrite (check_performer_classify _ _ _ Hid).
  rewrite (classify_at_probe _ _ _ _ _ _ _ Hp Hon Hd Hu), H2.
  unfold probe_result. unfold transport_fault in Hf. rewrite Hf. cbn [fst snd negb fmt].
  eexists. repeat split.
Qed.

Lemma probe_fault_witness :
  exists info,
    fst (CAM4Standalone.check_performer "https://www.cam4.com/foo_1"
           (fresh_world scenario_probe_reset)) = Ok info /\
    status info = PRIVATE_OR_AWAY /\
    stream_url info = None /\
    error_message info
    = Some ("foo_1" +:+ ": " +:+ "Error accessing stream: " +:+ "Connection reset by peer").
Proof.
  refine (probe_fault_is_private_or_away
            "https://www.cam4.com/foo_1" "foo_1" (fresh_world scenario_probe_reset)
            (PyStr "https://cdn/x.m3u8") (RequestException "Connection reset by peer")
            _ _ _ _).
  - reflexivity.
  - apply scenario_obtains_url; reflexivity.
  - reflexivity.
  - reflexivity.
Defined.

(** X6: the script absorbs [RequestException]s only: an exception of
    another class raised by the request of the step it has reached (profile,
    descriptor or probe) leaves [check_performer] unchanged. *)
Theorem script_propagates_other_exceptions (url id : string) (w : World) (e : exn) :
  re_match_id VALID_URL_PATTERN url = Some id ->
  is_RequestException e = false ->
  nth_outcome w 0 = Fault e \/
  (exists m, profile_found (nth_outcome w 0) m /\ reports_online m /\
             nth_outcome w 1 = Fault e) \/
  (exists cdn, playback_url_obtained w cdn /\ nth_outcome w 2 = Fault e) ->
  fst (CAM4Standalone.check_performer url w) = Raise e.
Proof.
  intros Hid He H. rewrite (check_performer_classify _ _ _ Hid).
  destruct H as [H0 | [(m & Hp & (v & Hv & Hon) & H1) | (cdn & (m & d & Hp & Hon & Hd & Hu) & H2)]].
  - unfold classify. rewrite H0. cbn [profile_result]. rewrite He. reflexivity.
  - unfold classify. destruct (profile_found_result _ _ Hp) as [-> ->].
    cbn [negb dict_get]. rewrite Hv, Hon. cbn [negb].
    rewrite H1. cbn [stream_result]. rewrite He. reflexivity.
  - rewrite (classify_at_probe _ _ _ _ _ _ _ Hp Hon Hd Hu), H2.
    cbn [probe_result]. rewrite He. reflexivity.
Qed.

Lemma script_propagates_witness :
  fst (CAM4Standalone.check_performer "https://www.cam4.com/foo_1"
         (fresh_world scenario_interrupted))
  = Raise (BaseExceptionOnly "KeyboardInterrupt").
Proof.
  refine (script_propagates_other_exceptions
            "https://www.cam4.com/foo_1" "foo_1" (fresh_world scenario_interrupted)
            (BaseExceptionOnly "KeyboardInterrupt") _ _ _).
  - reflexivity.
  - reflexivity.
  - left. reflexivity.
Defined.

Lemma transport_fault_step (ch : Channel) (url : value) (w : World) (e : exn) :
  nth_outcome w 0 = Fault e ->
  transport ch url w = (Raise e, log_request ch url w).
Proof. rewrite <- nth_outcome_0. unfold transport. intros ->. reflexivity. Qed.

Lemma make_request_faults (cfg : CAM4StandaloneLib.Config) (url : value) (w : World) :
  (forall k : nat, (k < 2)%nat -> exists e, nth_outcome w k = Fault e) ->
  exists e w', CAM4StandaloneLib._make_request cfg url w = (Raise e, w').
Proof.
  intros H.
  destruct (H 0%nat) as [e0 H0]; [lia|]. destruct (H 1%nat) as [e1 H1]; [lia|].
  unfold CAM4StandaloneLib._make_request.
  destruct (_ && _).
  - unfold try_except, CAM4StandaloneLib.flaresolverr_get. unfold bind at 1.
    rewrite (transport_fault_step _ _ _ _ H0).
    destruct (is_Exception e0); [|eauto].
    unfold CAM4StandaloneLib.session_get, bind.
    rewrite (transport_fault_step _ _ _ e1); [eauto|].
    rewrite nth_outcome_log. exact H1.
  - unfold CAM4StandaloneLib.session_get, bind.
    rewrite (transport_fault_step _ _ _ _ H0). eauto.
Qed.

(** X7: the library module absorbs every exception of the profile lookup,
    [KeyboardInterrupt] included: its two lookups never raise, and when the
    requests of the profile lookup all fail, with whatever exception,
    [check_performer] returns NOT_FOUND. *)
Theorem library_absorbs_every_exception
        (cfg : CAM4StandaloneLib.Config) (url id : string) (w : World) :
  re_match_id VALID_URL_PATTERN url = Some id ->
  (forall k : nat, (k < 2)%nat -> exists e, nth_outcome w k = Fault e) ->
  (forall u w', exists v, fst (CAM4StandaloneLib.get_profile_info cfg u w') = Ok v) /\
  (forall u w', exists v, fst (CAM4StandaloneLib.get_stream_info cfg u w') = Ok v) /\
  exists info,
    fst (CAM4StandaloneLib.check_performer cfg url w) = Ok info /\
    status info = NOT_FOUND /\ stream_url info = None /\ thumbnail_url info = None.
Proof.
  intros Hid Hf. split; [|split].
  - intros u w'. unfold CAM4StandaloneLib.get_profile_info, try_except.
    destruct (bind _ _ w') as [[v|e] w1]; eexists; reflexivity.
  - intros u w'. unfold CAM4StandaloneLib.get_stream_info, try_except.
    destruct (bind _ _ w') as [[v|e] w1]; eexists; reflexivity.
  - unfold CAM4StandaloneLib.check_performer.
    unfold bind at 1. rewrite (extract_username_match _ _ _ Hid).
    unfold bind at 1.
    assert (E : exists w1, CAM4StandaloneLib.get_profile_info cfg (str_lower id) w
                           = (Ok PyNone, w1)).
    { unfold CAM4StandaloneLib.get_profile_info, try_except. unfold bind at 1.
      destruct (make_request_faults cfg
                  (PyStr (BASE_API_URL +:+ "/" +:+ str_lower id +:+ "/info")) w Hf)
        as (e & w1 & ->).
      eexists. reflexivity. }
    destruct E as [w1 ->]. cbn [truthy negb]. eexists. repeat split.
Qed.

Lemma library_absorbs_witness :
  exists info,
    fst (CAM4StandaloneLib.check_performer through_flaresolverr
           "https://www.cam4.com/foo_1" (fresh_world scenario_interrupted)) = Ok info /\
    status info = NOT_FOUND /\ stream_url info = None /\ thumbnail_url info = None.
Proof.
  refine (proj2 (proj2 (library_absorbs_every_exception through_flaresolverr
            "https://www.cam4.com/foo_1" "foo_1" (fresh_world scenario_interrupted) _ _))).
  - reflexivity.
  - intros k _. eexists. reflexivity.
Defined.

(** ** What is requested, and when *)

(** X8: the requests the script issues are determined by the state it
    returns: the profile URL alone for NOT_FOUND and OFFLINE, then the
    descriptor URL for ONLINE_NOT_STREAMING, then the playback URL for
    PRIVATE_OR_AWAY and STREAMING; all through the session, appended to the
    log in this order, and for STREAMING the URL probed is the one returned. *)
Theorem requests_follow_the_state
        (url id : string) (w : World) (info : PerformerInfo) :
  re_match_id VALID_URL_PATTERN url = Some id ->
  fst (CAM4Standalone.check_performer url w) = Ok info ->
  exists probed,
    requests (snd (CAM4Standalone.check_performer url w))
    = (requests w ++ requests_in_state (str_lower id) (status info) probed)%list /\
    (status info = STREAMING -> stream_url info = Some probed).
Proof.
  intros Hid.
  destruct (CAM4Standalone.check_performer url w) as [res w'] eqn:E.
  cbn [fst snd]. intros ->. revert E.
  unfold CAM4Standalone.check_performer.
  unfold bind at 1. rewrite (extract_username_match _ _ _ Hid).
  unfold bind at 1. rewrite get_profile_info_eq.
  destruct (profile_result (nth_outcome w 0)) as [profile|e]; [|discriminate].
  destruct (negb (truthy profile)).
  { intros E. injection E as <- <-. exists PyNone. split; [reflexivity | discriminate]. }
  unfold bind at 1, lift at 1.
  destruct (dict_get profile "online" (PyBool false)) as [is_online|e]; [|discriminate].
  destruct (negb (truthy is_online)).
  { intros E. injection E as <- <-. exists PyNone. split; [reflexivity | discriminate]. }
  unfold bind at 1. rewrite get_stream_info_eq.
  destruct (stream_result _) as [stream_info|e]; [|discriminate].
  destruct (negb (truthy stream_info)).
  { intros E. injection E as <- <-. exists PyNone.
    split; [|discriminate]. cbn [requests log_request status requests_in_state].
    rewrite <- app_assoc. reflexivity. }
  unfold bind at 1, lift at 1.
  destruct (dict_get stream_info "cdnURL" PyNone) as [cdn_url|e]; [|discriminate].
  destruct (negb (truthy cdn_url)).
  { intros E. injection E as <- <-. exists PyNone.
    split; [|discriminate]. cbn [requests log_request status requests_in_state].
    rewrite <- app_assoc. reflexivity. }
  unfold bind at 1. rewrite verify_stream_accessible_eq.
  destruct (probe_result _) as [res|e]; [|discriminate].
  destruct (negb (fst res)); intros E; injection E as <- <-; exists cdn_url;
    (split; [|try discriminate; reflexivity]);
    cbn [requests log_request status requests_in_state];
    rewrite <- !app_assoc; reflexivity.
Qed.

Lemma requests_follow_the_state_witness :
  exists probed,
    requests (snd (CAM4Standalone.check_performer "https://www.cam4.com/foo_1"
                     (fresh_world scenario_no_content)))
    = (nil ++ requests_in_state "foo_1" ONLINE_NOT_STREAMING probed)%list /\
    (ONLINE_NOT_STREAMING = STREAMING -> None = Some probed).
Proof.
  refine (requests_follow_the_state
            "https://www.cam4.com/foo_1" "foo_1" (fresh_world scenario_no_content)
            {| username := "foo_1"; status := ONLINE_NOT_STREAMING; stream_url := None;
               thumbnail_url := Some "https://snapshots.xcdnpro.com/thumbnails/foo_1";
               error_message :=
                 Some "foo_1: Performer is online but not currently streaming" |} _ _).
  - reflexivity.
  - vm_compute. reflexivity.
Defined.

(** ** Starting a recording *)

Section Preservation.
Context {X : Type}.
Variable f : World -> X.
Hypothesis f_log : forall ch url w, f (log_request ch url w) = f w.

Lemma pr_ret {A} (a : A) : preserves f (ret a).
Proof. intros w. reflexivity. Qed.

Lemma pr_raise {A} (e : exn) : preserves f (@raise A e).
Proof. intros w. reflexivity. Qed.

Lemma pr_lift {A} (r : Result A) : preserves f (lift r).
Proof. intros w. reflexivity. Qed.

Lemma pr_transport (ch : Channel) (url : value) : preserves f (transport ch url).
Proof. intros w. unfold transport. destruct (script w _); cbn [snd]; apply f_log. Qed.

Lemma pr_bind {A B} (m : M A) (k : A -> M B) :
  preserves f m -> (forall a, preserves f (k a)) -> preserves f (bind m k).
Proof.
  intros Hm Hk w. unfold bind. specialize (Hm w).
  destruct (m w) as [[a|e] w1]; cbn [snd] in *.
  - rewrite (Hk a w1). exact Hm.
  - exact Hm.
Qed.

Lemma pr_try {A} (body : M A) (handler : exn -> option (M A)) :
  preserves f body ->
  (forall e, match handler e with Some h => preserves f h | None => True end) ->
  preserves f (try_except body handler).
Proof.
  intros Hb Hh w. unfold try_except. specialize (Hb w).
  destruct (body w) as [[a|e] w1]; cbn [snd] in *; [exact Hb|].
  specialize (Hh e). destruct (handler e) as [h|]; cbn [snd].
  - rewrite (Hh w1). exact Hb.
  - exact Hb.
Qed.

Ltac preserved_using known :=
  repeat first
    [ exact I
    | known
    | apply pr_ret | apply pr_raise | apply pr_lift | apply pr_transport
    | apply pr_bind; [|intros ?]
    | apply pr_try; [|intros ?]
    | match goal with
      | |- preserves _ (if ?b then _ else _) => destruct b
      | |- preserves _ (match ?x with _ => _ end) => destruct x
      | |- match (if ?b then _ else _) with _ => _ end => destruct b
      end ].

Lemma extract_username_preserves (url : string) : preserves f (extract_username url).
Proof. unfold extract_username. preserved_using fail. Qed.

Lemma check_performer_preserves (url : string) :
  preserves f (CAM4Standalone.check_performer url).
Proof.
  unfold CAM4Standalone.check_performer, CAM4Standalone.get_profile_info,
    CAM4Standalone.get_stream_info, CAM4Standalone.verify_stream_accessible,
    CAM4Standalone.session_get.
  apply pr_bind; [apply extract_username_preserves | intros ?].
  preserved_using fail.
Qed.

Lemma make_request_preserves (cfg : CAM4StandaloneLib.Config) (url : value) :
  preserves f (CAM4StandaloneLib._make_request cfg url).
Proof.
  unfold CAM4StandaloneLib._make_request, CAM4StandaloneLib.flaresolverr_get,
    CAM4StandaloneLib.session_get. preserved_using fail.
Qed.

Lemma check_performer_lib_preserves (cfg : CAM4StandaloneLib.Config) (url : string) :
  preserves f (CAM4StandaloneLib.check_performer cfg url).
Proof.
  pose proof (make_request_preserves cfg) as Hreq.
  unfold CAM4StandaloneLib.check_performer, CAM4StandaloneLib.get_profile_info,
    CAM4StandaloneLib.get_stream_info, CAM4StandaloneLib.verify_stream_accessible.
  apply pr_bind; [apply extract_username_preserves | intros ?].
  preserved_using ltac:(apply Hreq).
Qed.

End Preservation.

Lemma status_streaming_eqb (s : PerformerStatus) :
  s = STREAMING -> PerformerStatus_eqb s STREAMING = true.
Proof. intros ->. reflexivity. Qed.

Lemma record_stream_tail (info : PerformerInfo) (playback : value)
      (output_path : option string) (ffmpeg_args : option (list value)) (w1 : World) :
  stream_url info = Some playback ->
  ffmpeg_present w1 = true ->
  bind (match output_path with
        | Some (String c p) => ret (String c p)
        | _ => bind strftime_now
                 (fun timestamp => ret (username info +:+ "_" +:+ timestamp +:+ ".ts"))
        end)
       (fun output_path' =>
          Popen
            ((match ffmpeg_args with
              | Some (a :: l) =>
                  (PyStr "ffmpeg" :: PyStr "-i"
                     :: match stream_url info with Some u => u | None => PyNone end
                     :: PyStr "-c:v" :: PyStr "copy" :: PyStr "-c:a" :: PyStr "copy"
                     :: PyStr "-y" :: nil) ++ a :: l
              | _ =>
                  PyStr "ffmpeg" :: PyStr "-i"
                    :: match stream_url info with Some u => u | None => PyNone end
                    :: PyStr "-c:v" :: PyStr "copy" :: PyStr "-c:a" :: PyStr "copy"
                    :: PyStr "-y" :: nil
              end) ++ PyStr output_path' :: nil)%list) w1
  = (Ok (length (spawned w1)),
     {| script := script w1; requests := requests w1; now := now w1;
        ffmpeg_present := ffmpeg_present w1;
        spawned := spawned w1 ++
          ffmpeg_command playback
            (match ffmpeg_args with Some l => l | None => nil end)
            (recording_path output_path (username info) (now w1)) :: nil |}).
Proof.
  intros Hu Hf. rewrite Hu.
  assert (P : forall cmd, Popen cmd w1
            = (Ok (length (spawned w1)),
               {| script := script w1; requests := requests w1; now := now w1;
                  ffmpeg_present := ffmpeg_present w1;
                  spawned := spawned w1 ++ cmd :: nil |})).
  { intros cmd. unfold Popen. rewrite Hf. reflexivity. }
  unfold ffmpeg_command, recording_path.
  destruct output_path as [[|c p]|]; destruct ffmpeg_args as [[|a l]|];
    unfold bind, ret, strftime_now; rewrite P;
    repeat f_equal; cbn [app]; rewrite <- ?app_assoc; reflexivity.
Qed.

(** X9: when the resolved status is STREAMING and ffmpeg can be started,
    [record_stream] starts exactly one process and returns its handle.  The
    argument vector is [ffmpeg -i <stream URL> -c:v copy -c:a copy -y],
    then the caller's extra arguments, then the output path; the path is the
    caller's when it is a non-empty string and
    [<identifier>_<timestamp>.ts] otherwise.  So in both implementations. *)
Theorem recording_starts_one_ffmpeg
        (url : string) (output_path : option string) (ffmpeg_args : option (list value))
        (w : World) :
  ffmpeg_present w = true ->
  (forall info playback,
      fst (CAM4Standalone.check_performer url w) = Ok info ->
      status info = STREAMING -> stream_url info = Some playback ->
      fst (CAM4Standalone.record_stream url output_path ffmpeg_args w)
      = Ok (length (spawned w)) /\
      spawned (snd (CAM4Standalone.record_stream url output_path ffmpeg_args w))
      = (spawned w ++
         ffmpeg_command playback (match ffmpeg_args with Some l => l | None => nil end)
           (recording_path output_path (username info) (now w)) :: nil)%list) /\
  (forall cfg info playback,
      fst (CAM4StandaloneLib.check_performer cfg url w) = Ok info ->
      status info = STREAMING -> stream_url info = Some playback ->
      fst (CAM4StandaloneLib.record_stream cfg url output_path ffmpeg_args w)
      = Ok (length (spawned w)) /\
      spawned (snd (CAM4StandaloneLib.record_stream cfg url output_path ffmpeg_args w))
      = (spawned w ++
         ffmpeg_command playback (match ffmpeg_args with Some l => l | None => nil end)
           (recording_path output_path (username info) (now w)) :: nil)%list).
Proof.
  intros Hf. split.
  - intros info playback H Hs Hu.
    pose proof (check_performer_preserves spawned (fun _ _ _ => eq_refl) url w) as Ks.
    pose proof (check_performer_preserves now (fun _ _ _ => eq_refl) url w) as Kn.
    pose proof (check_performer_preserves ffmpeg_present (fun _ _ _ => eq_refl) url w) as Kf.
    destruct (CAM4Standalone.check_performer url w) as [[i|e] w1] eqn:E0;
      cbn [fst snd] in *; [|discriminate H].
    injection H as ->.
    rewrite <- Kf in Hf.
    pose proof (record_stream_tail info playback output_path ffmpeg_args w1 Hu Hf) as T.
    match type of T with
    | _ = ?rhs =>
        assert (E : CAM4Standalone.record_stream url output_path ffmpeg_args w = rhs)
    end.
    { unfold CAM4Standalone.record_stream. unfold bind at 1.
      rewrite E0, (status_streaming_eqb _ Hs). cbn [negb]. exact T. }
    rewrite E. cbn [fst snd spawned]. rewrite Ks, Kn. split; reflexivity.
  - intros cfg info playback H Hs Hu.
    pose proof (check_performer_lib_preserves spawned (fun _ _ _ => eq_refl) cfg url w) as Ks.
    pose proof (check_performer_lib_preserves now (fun _ _ _ => eq_refl) cfg url w) as Kn.
    pose proof (check_performer_lib_preserves ffmpeg_present (fun _ _ _ => eq_refl)
                  cfg url w) as Kf.
    destruct (CAM4StandaloneLib.check_performer cfg url w) as [[i|e] w1] eqn:E0;
      cbn [fst snd] in *; [|discriminate H].
    injection H as ->.
    rewrite <- Kf in Hf.
    pose proof (record_stream_tail info playback output_path ffmpeg_args w1 Hu Hf) as T.
    match type of T with
    | _ = ?rhs =>
        assert (E : CAM4StandaloneLib.record_stream cfg url output_path ffmpeg_args w = rhs)
    end.
    { unfold CAM4StandaloneLib.record_stream. unfold bind at 1.
      rewrite E0, (status_streaming_eqb _ Hs). cbn [negb]. exact T. }
    rewrite E. cbn [fst snd spawned]. rewrite Ks, Kn. split; reflexivity.
Qed.

Lemma recording_starts_witness :
  fst (CAM4Standalone.record_stream "https://www.cam4.com/foo_1" None
         (Some (PyStr "-t" :: PyStr "60" :: nil)) (fresh_world scenario_streaming))
  = Ok 0%nat /\
  spawned (snd (CAM4Standalone.record_stream "https://www.cam4.com/foo_1" None
                  (Some (PyStr "-t" :: PyStr "60" :: nil))
                  (fresh_world scenario_streaming)))
  = (nil ++
     ffmpeg_command (PyStr "https://cdn/x.m3u8") (PyStr "-t" :: PyStr "60" :: nil)
       (recording_path None "foo_1" "20240101_000000") :: nil)%list.
Proof.
  refine (proj1 (recording_starts_one_ffmpeg "https://www.cam4.com/foo_1" None
                   (Some (PyStr "-t" :: PyStr "60" :: nil))
                   (fresh_world scenario_streaming) _)
                {| username := "foo_1"; status := STREAMING;
                   stream_url := Some (PyStr "https://cdn/x.m3u8");
                   thumbnail_url := Some "https://snapshots.xcdnpro.com/thumbnails/foo_1";
                   error_message := None |}
                (PyStr "https://cdn/x.m3u8") _ _ _).
  - reflexivity.
  - vm_compute. reflexivity.
  - reflexivity.
  - reflexivity.
Defined.

(** ** Choosing the transport *)

(** X10: a library client constructed with [use_flaresolverr=True] but
    without a usable FlareSolverr (no URL, an empty URL, or a health check
    that fails or does not answer 200) sends every request through the plain
    [requests] session, also when curl_cffi is installed: its requests are
    those of the script's session. *)
Theorem unusable_flaresolverr_means_plain_requests
        (curl rq : bool) (furl : option string) (health : Outcome)
        (cfg : CAM4StandaloneLib.Config) (url : value) (w : World) :
  CAM4StandaloneLibSetup.__init__ curl rq furl true health = Ok cfg ->
  furl = None \/ furl = Some "" \/ FlareSolverrClient.is_available health = false ->
  CAM4StandaloneLib._make_request cfg url w = CAM4Standalone.session_get url w.
Proof.
  unfold CAM4StandaloneLibSetup.__init__. rewrite andb_false_r. cbn [orb].
  destruct rq; [|discriminate]. intros E H. injection E as <-.
  assert (F : match furl with
              | Some (String _ _) => FlareSolverrClient.is_available health
              | _ => false
              end = false).
  { destruct H as [-> | [-> | H]]; try reflexivity.
    destruct furl as [[|c s]|]; [reflexivity | exact H | reflexivity]. }
  unfold CAM4StandaloneLib._make_request.
  cbn [CAM4StandaloneLib._use_flaresolverr CAM4StandaloneLib._flaresolverr].
  rewrite F. cbn [andb].
  unfold CAM4StandaloneLib.session_get, CAM4Standalone.session_get,
    CAM4StandaloneLib.session_cls.
  cbn [CAM4StandaloneLib.USING_CURL_CFFI CAM4StandaloneLib._use_flaresolverr negb].
  rewrite andb_false_r. reflexivity.
Qed.

Lemma unusable_flaresolverr_witness :
  CAM4StandaloneLib._make_request
    {| CAM4StandaloneLib.USING_CURL_CFFI := true;
       CAM4StandaloneLib._use_flaresolverr := true;
       CAM4StandaloneLib._flaresolverr := false |}
    (PyStr "https://cdn/x.m3u8") (fresh_world scenario_streaming)
  = CAM4Standalone.session_get (PyStr "https://cdn/x.m3u8") (fresh_world scenario_streaming).
Proof.
  apply (unusable_flaresolverr_means_plain_requests true true
           (Some "http://localhost:8191")
           (Fault (RequestException "Connection refused"))).
  - reflexivity.
  - right. right. reflexivity.
Defined.

(** X11: with FlareSolverr in use, one call of [_make_request] asks the
    proxy first.  If the proxy answers, that answer is returned as a
    [FlareSolverrResponse] and the session is not contacted; if the proxy call
    raises an [Exception], the same URL is requested once more through the
    session and that outcome is the result; an exception outside [Exception]
    propagates with no second request. *)
Theorem flaresolverr_first_then_session
        (cfg : CAM4StandaloneLib.Config) (url : value) (w : World) :
  CAM4StandaloneLib._use_flaresolverr cfg = true ->
  CAM4StandaloneLib._flaresolverr cfg = true ->
  let w1 := log_request FlareSolverrGet url w in
  let w2 := log_request SessionGet url w1 in
  CAM4StandaloneLib._make_request cfg url w
  = match nth_outcome w 0 with
    | Reply r => (Ok {| cls := FlareSolverrResponse; raw := r |}, w1)
    | Fault e =>
        if is_Exception e then
          match nth_outcome w 1 with
          | Reply r => (Ok {| cls := RequestsResponse; raw := r |}, w2)
          | Fault e' => (Raise e', w2)
          end
        else (Raise e, w1)
    end.
Proof.
  intros Hu Hf w1 w2.
  unfold CAM4StandaloneLib._make_request. rewrite Hu, Hf. cbn [andb].
  unfold try_except, CAM4StandaloneLib.flaresolverr_get, bind, transport.
  rewrite nth_outcome_0.
  destruct (nth_outcome w 0) as [e|r]; [|reflexivity].
  destruct (is_Exception e); [|reflexivity].
  unfold CAM4StandaloneLib.session_get, CAM4StandaloneLib.session_cls, bind, transport.
  rewrite Hu, andb_false_r.
  rewrite nth_outcome_0, nth_outcome_log.
  destruct (nth_outcome w 1); reflexivity.
Qed.

Lemma flaresolverr_first_witness :
  CAM4StandaloneLib._make_request through_flaresolverr
    (PyStr "https://www.cam4.com/rest/v1.0/profile/foo_1/info")
    (fresh_world scenario_proxy_down)
  = (Ok {| cls := RequestsResponse;
           raw := {| status_code := 404; text := "Not Found"; parsed := None |} |},
     log_request SessionGet (PyStr "https://www.cam4.com/rest/v1.0/profile/foo_1/info")
       (log_request FlareSolverrGet
          (PyStr "https://www.cam4.com/rest/v1.0/profile/foo_1/info")
          (fresh_world scenario_proxy_down))).
Proof.
  apply (flaresolverr_first_then_session through_flaresolverr
           (PyStr "https://www.cam4.com/rest/v1.0/profile/foo_1/info")
           (fresh_world scenario_proxy_down)); reflexivity.
Defined.

(** ** Cookie files *)

Example cookie_line_loaded :
  Cookies.load_line ".cam4.com	TRUE	/	true	1790000000	session	abc123
"
  = Some {| Cookies.name := "session"; Cookies.value_ := "abc123";
            Cookies.domain := ".cam4.com"; Cookies.path := "/";
            Cookies.secure := true |}.
Proof. vm_compute. reflexivity. Qed.

Example cookie_comment_skipped :
  Cookies.load_line "# Netscape HTTP Cookie File
" = None.
Proof. vm_compute. reflexivity. Qed.

Example cookie_strip_unicode :
  Cookies.strip (String "226" (String "128" (String "168" "  a b	
")))%char = "a b".
Proof. vm_compute. reflexivity. Qed.

Module CookieFacts.
Import Cookies.

Lemma split_not_nil (sep : ascii) (s : string) : split sep s <> nil.
Proof.
  induction s as [|c s IH]; cbn [split]; [discriminate|].
  destruct (Ascii.eqb c sep); [discriminate|].
  destruct (split sep s); [contradiction | discriminate].
Qed.

Lemma split_tab_free (f : string) : has_char tab f = false -> split tab f = f :: nil.
Proof.
  induction f as [|c f IH]; cbn [has_char split]; [reflexivity|].
  intros H. apply orb_false_iff in H as [Hc Hf].
  rewrite Hc, (IH Hf). reflexivity.
Qed.

Lemma split_app_tab (f rest : string) :
  has_char tab f = false ->
  split tab (f +:+ String tab rest) = f :: split tab rest.
Proof.
  induction f as [|c f IH]; intros H.
  - rewrite str_app_nil. cbn [split]. rewrite Ascii.eqb_refl. reflexivity.
  - cbn [has_char] in H. apply orb_false_iff in H as [Hc Hf].
    rewrite str_app_cons. cbn [split]. rewrite Hc, (IH Hf). reflexivity.
Qed.

Lemma split_join (fields : list string) :
  fields <> nil ->
  forallb (fun f => negb (has_char tab f)) fields = true ->
  split tab (join_tab fields) = fields.
Proof.
  induction fields as [|f rest IH]; [contradiction|]. intros _ H.
  cbn [forallb] in H. apply andb_true_iff in H as [Hf Hr].
  apply negb_true_iff in Hf.
  destruct rest as [|g rest].
  - cbn [join_tab]. apply split_tab_free, Hf.
  - change (join_tab (f :: g :: rest)) with (f +:+ String tab (join_tab (g :: rest))).
    rewrite (split_app_tab _ _ Hf), IH; [reflexivity | discriminate | exact Hr].
Qed.

Lemma join_split (s : string) : join_tab (split tab s) = s.
Proof.
  induction s as [|c s IH]; [reflexivity|]. cbn [split].
  destruct (Ascii.eqb c tab) eqn:E.
  - apply Ascii.eqb_eq in E. subst c.
    pose proof (split_not_nil tab s) as N.
    destruct (split tab s) as [|h t]; [contradiction|].
    change (join_tab ("" :: h :: t)) with ("" +:+ String tab (join_tab (h :: t))).
    rewrite IH. reflexivity.
  - pose proof (split_not_nil tab s) as N.
    destruct (split tab s) as [|h t]; [contradiction|].
    destruct t as [|h' t].
    + cbn [join_tab] in *. rewrite IH. reflexivity.
    + change (join_tab (String c h :: h' :: t))
        with (String c (h +:+ String tab (join_tab (h' :: t)))).
      change (join_tab (h :: h' :: t)) with (h +:+ String tab (join_tab (h' :: t))) in IH.
      rewrite IH. reflexivity.
Qed.

Lemma split_parts_tab_free (s : string) :
  forallb (fun f => negb (has_char tab f)) (split tab s) = true.
Proof.
  induction s as [|c s IH]; [reflexivity|]. cbn [split].
  destruct (Ascii.eqb c tab) eqn:E; [exact IH|].
  pose proof (split_not_nil tab s) as N.
  destruct (split tab s) as [|h t]; [contradiction|].
  cbn [forallb has_char] in *. rewrite E. exact IH.
Qed.

Lemma length_split (s : string) : length (split tab s) = S (count tab s).
Proof.
  induction s as [|c s IH]; [reflexivity|]. cbn [split count].
  destruct (Ascii.eqb c tab); cbn [length]; [rewrite IH; reflexivity|].
  pose proof (split_not_nil tab s) as N.
  destruct (split tab s) as [|h t]; [contradiction|]. exact IH.
Qed.

End CookieFacts.

Module StripFacts.
Import Cookies.

Lemma space_nonsolid (c : ascii) : ascii_space c = true -> solid c = false.
Proof. intros H. unfold solid. rewrite H. apply andb_false_r. Qed.

Lemma high_nonsolid (c : ascii) : (128 <= N_of_ascii c)%N -> solid c = false.
Proof.
  intros H. unfold solid. destruct (N.ltb_spec (N_of_ascii c) 128); [lia | reflexivity].
Qed.

Lemma space_is_low (c : ascii) : ascii_space c = true -> (N_of_ascii c <= 32)%N.
Proof.
  unfold ascii_space. intros H. apply orb_true_iff in H as [H|H];
    apply andb_true_iff in H as [_ H]; apply N.leb_le in H; lia.
Qed.

Ltac bools :=
  repeat match goal with
         | H : (_ && _) = true |- _ => apply andb_true_iff in H as [? ?]
         | H : (_ || _) = true |- _ => apply orb_true_iff in H as [?|?]
         | H : (_ =? _)%N = true |- _ => apply N.eqb_eq in H
         | H : (_ <=? _)%N = true |- _ => apply N.leb_le in H
         end.

(** What [drop_space] removes is a non-empty run of bytes none of which is a
    solid character. *)
Lemma drop_space_spec (s r : string) :
  drop_space s = Some r ->
  exists p, s = p +:+ r /\ p <> "" /\ str_forall nonsolid p = true.
Proof.
  unfold drop_space. destruct s as [|c s]; [discriminate|].
  destruct (ascii_space c) eqn:Sc.
  { intros H. injection H as <-. exists (String c ""). repeat split; [discriminate|].
    cbn [str_forall]. unfold nonsolid. rewrite (space_nonsolid _ Sc). reflexivity. }
  destruct (N_of_ascii c =? 194)%N eqn:E1.
  { destruct s as [|d s]; [discriminate|].
    destruct ((N_of_ascii d =? 133) || (N_of_ascii d =? 160))%N eqn:E2; [|discriminate].
    intros H. injection H as <-. exists (String c (String d "")).
    repeat split; [discriminate|]. cbn [str_forall]. unfold nonsolid.
    bools; rewrite !high_nonsolid by lia; reflexivity. }
  destruct ((N_of_ascii c =? 225) || (N_of_ascii c =? 226) || (N_of_ascii c =? 227))%N
    eqn:E2; [|discriminate].
  destruct s as [|d [|e s]]; try discriminate. cbv zeta.
  match goal with |- (if ?b then _ else _) = _ -> _ => destruct b eqn:E3 end;
    [|discriminate].
  intros H. injection H as <-. exists (String c (String d (String e ""))).
  repeat split; [discriminate|]. cbn [str_forall]. unfold nonsolid.
  bools; rewrite !high_nonsolid by lia; reflexivity.
Qed.

Lemma drop_space_solid (c : ascii) (r : string) :
  solid c = true -> drop_space (String c r) = None.
Proof.
  unfold solid. intros H. apply andb_true_iff in H as [L S].
  apply N.ltb_lt in L. apply negb_true_iff in S.
  unfold drop_space. rewrite S.
  destruct (N.eqb_spec (N_of_ascii c) 194); [lia|].
  destruct (N.eqb_spec (N_of_ascii c) 225); [lia|].
  destruct (N.eqb_spec (N_of_ascii c) 226); [lia|].
  destruct (N.eqb_spec (N_of_ascii c) 227); [lia|]. reflexivity.
Qed.

Lemma lstrip_first_solid (s : string) : first_solid s = true -> lstrip s = s.
Proof.
  destruct s as [|c r]; [discriminate|]. cbn [first_solid]. intros H.
  unfold lstrip. cbn [String.length lstrip_fuel]. rewrite (drop_space_solid _ _ H).
  reflexivity.
Qed.

Lemma lstrip_fuel_nonsolid (n : nat) (s : string) :
  lstrip_fuel n s = "" -> str_forall nonsolid s = true.
Proof.
  revert s. induction n as [|n IH]; intros s; cbn [lstrip_fuel].
  - intros ->. reflexivity.
  - destruct (drop_space s) as [r|] eqn:D; [|intros ->; reflexivity].
    intros H. apply drop_space_spec in D as (p & -> & _ & P).
    specialize (IH _ H). clear -P IH.
    induction p as [|c p IHp]; [exact IH|].
    rewrite str_app_cons. cbn [str_forall] in *.
    apply andb_true_iff in P as [-> P]. exact (IHp P).
Qed.

Lemma all_space_nonsolid (s : string) :
  all_space s = true -> str_forall nonsolid s = true.
Proof.
  unfold all_space, lstrip. destruct (lstrip_fuel _ s) eqn:E; [|discriminate].
  intros _. apply lstrip_fuel_nonsolid in E. exact E.
Qed.

Lemma last_solid_not_nonsolid (s t : string) :
  last_solid s = true -> str_forall nonsolid (s +:+ t) = false.
Proof.
  induction s as [|c s IH]; [discriminate|].
  rewrite str_app_cons. cbn [str_forall].
  destruct s as [|d s].
  - cbn [last_solid]. intros H. unfold nonsolid. rewrite H. reflexivity.
  - intros H. rewrite (IH H). apply andb_false_r.
Qed.

Lemma lstrip_fuel_spaces (n : nat) (t : string) :
  (String.length t <= n)%nat -> str_forall ascii_space t = true ->
  lstrip_fuel n t = "".
Proof.
  revert t. induction n as [|n IH]; intros t L S.
  - destruct t; [reflexivity | cbn in L; lia].
  - destruct t as [|c t]; [reflexivity|].
    cbn [str_forall] in S. apply andb_true_iff in S as [Sc St].
    cbn [lstrip_fuel drop_space]. rewrite Sc. apply IH; [cbn in L; lia | exact St].
Qed.

Lemma rstrip_spaces (t : string) : str_forall ascii_space t = true -> rstrip t = "".
Proof.
  destruct t as [|c t]; [reflexivity|]. intros S. cbn [rstrip].
  unfold all_space, lstrip. rewrite lstrip_fuel_spaces; [reflexivity | lia | exact S].
Qed.

(** A string that ends in a solid character loses exactly the ASCII
    whitespace appended to it. *)
Lemma rstrip_after_solid (s t : string) :
  last_solid s = true -> str_forall ascii_space t = true -> rstrip (s +:+ t) = s.
Proof.
  intros L S. induction s as [|c s IH]; [discriminate|].
  rewrite str_app_cons. cbn [rstrip].
  destruct (all_space (String c (s +:+ t))) eqn:A.
  - apply all_space_nonsolid in A.
    rewrite <- str_app_cons, (last_solid_not_nonsolid _ _ L) in A. discriminate.
  - f_equal. destruct s as [|d s].
    + rewrite str_app_nil. apply rstrip_spaces, S.
    + apply IH. exact L.
Qed.

Lemma strip_solid_line (s t : string) :
  first_solid s = true -> last_solid s = true -> str_forall ascii_space t = true ->
  strip (s +:+ t) = s.
Proof.
  intros F L S. unfold strip. rewrite lstrip_first_solid.
  - apply rstrip_after_solid; assumption.
  - destruct s; [discriminate | exact F].
Qed.

End StripFacts.

(** ** Cookie lines, read and written *)

Lemma join_tab_first (f : string) (rest : list string) :
  Cookies.first_solid f = true -> Cookies.first_solid (Cookies.join_tab (f :: rest)) = true.
Proof.
  destruct f as [|c f]; [discriminate|]. intros H.
  destruct rest; [exact H|]. exact H.
Qed.

Lemma last_solid_app (p s : string) :
  Cookies.last_solid s = true -> Cookies.last_solid (p +:+ s) = true.
Proof.
  intros H. induction p as [|c p IH]; [exact H|].
  rewrite str_app_cons. cbn [Cookies.last_solid].
  destruct (p +:+ s) eqn:E; [|exact IH].
  destruct p; [|discriminate E]. rewrite str_app_nil in E. subst s. discriminate H.
Qed.

Lemma join_tab_last (fields : list string) (f : string) :
  Cookies.last_solid f = true ->
  Cookies.last_solid (Cookies.join_tab (fields ++ f :: nil)) = true.
Proof.
  intros H. induction fields as [|g fields IH]; [exact H|].
  cbn [app]. destruct (fields ++ f :: nil)%list as [|h t] eqn:E.
  - destruct fields; discriminate E.
  - change (Cookies.join_tab (g :: h :: t))
      with (g +:+ String Cookies.tab (Cookies.join_tab (h :: t))).
    apply last_solid_app.
    change (String Cookies.tab (Cookies.join_tab (h :: t)))
      with (String Cookies.tab "" +:+ Cookies.join_tab (h :: t)).
    apply last_solid_app. exact IH.
Qed.

(** X12: a cookie written as one line of the cookie-jar text format
    (domain, flag, path, TRUE or FALSE, expiry, name, value, tab-separated,
    newline-terminated) is loaded back as the same cookie, provided no field
    contains a tab, the domain contains [cam4.com] and starts with an ASCII
    character other than whitespace and [#], and the value ends with an ASCII
    character other than whitespace. *)
Theorem cookie_line_round_trip (c : Cookies.Cookie) (flag expires : string) :
  forallb (fun f => negb (Cookies.has_char Cookies.tab f))
    (Cookies.domain c :: flag :: Cookies.path c :: expires
       :: Cookies.name c :: Cookies.value_ c :: nil) = true ->
  str_in "cam4.com" (Cookies.domain c) = true ->
  Cookies.first_solid (Cookies.domain c) = true ->
  starts_with "#" (Cookies.domain c) = false ->
  Cookies.last_solid (Cookies.value_ c) = true ->
  Cookies.load_line (Cookies.netscape_line c flag expires) = Some c.
Proof.
  intros T D F H L. destruct c as [n v d p s]. cbn [Cookies.domain Cookies.path
    Cookies.name Cookies.value_ Cookies.secure] in *.
  unfold Cookies.netscape_line, Cookies.load_line.
  cbn [Cookies.domain Cookies.path Cookies.name Cookies.value_ Cookies.secure].
  set (fields := d :: flag :: p :: (if s then "TRUE" else "FALSE")
                   :: expires :: n :: v :: nil).
  assert (Ff : Cookies.first_solid (Cookies.join_tab fields) = true)
    by (apply join_tab_first, F).
  assert (Lf : Cookies.last_solid (Cookies.join_tab fields) = true)
    by (apply (join_tab_last
                 (d :: flag :: p :: (if s then "TRUE" else "FALSE") :: expires :: n :: nil)),
        L).
  rewrite (StripFacts.strip_solid_line _ (String "010" "") Ff Lf eq_refl).
  assert (S : Cookies.split Cookies.tab (Cookies.join_tab fields) = fields).
  { apply CookieFacts.split_join; [discriminate|].
    cbn [forallb] in *. repeat (apply andb_true_iff in T as [? T]).
    repeat (apply andb_true_iff; split); try assumption.
    destruct s; reflexivity. }
  destruct (Cookies.join_tab fields) as [|c0 rest] eqn:J; [discriminate Ff|].
  assert (C : Ascii.eqb c0 "#" = false).
  { destruct d as [|d0 d']; [discriminate F|].
    assert (c0 = d0).
    { unfold fields in J. cbn [Cookies.join_tab] in J. rewrite str_app_cons in J.
      injection J as J _. symmetry. exact J. }
    subst c0.
    cbn [starts_with] in H. rewrite andb_true_r in H.
    rewrite Ascii.eqb_sym. exact H. }
  rewrite C, S. unfold fields. rewrite D. destruct s; reflexivity.
Qed.

Lemma cookie_line_round_trip_witness :
  Cookies.load_line
    (Cookies.netscape_line
       {| Cookies.name := "session"; Cookies.value_ := "abc 123";
          Cookies.domain := ".cam4.com"; Cookies.path := "/"; Cookies.secure := false |}
       "TRUE" "1790000000")
  = Some {| Cookies.name := "session"; Cookies.value_ := "abc 123";
            Cookies.domain := ".cam4.com"; Cookies.path := "/"; Cookies.secure := false |}.
Proof.
  apply (cookie_line_round_trip
           {| Cookies.name := "session"; Cookies.value_ := "abc 123";
              Cookies.domain := ".cam4.com"; Cookies.path := "/";
              Cookies.secure := false |} "TRUE" "1790000000"); reflexivity.
Defined.

(** X13: a cookie is set only for a line that, stripped, is neither empty
    nor a comment and splits at tabs into at least seven fields; the cookie's
    domain, path, name and value are the first, third, sixth and seventh
    field, its domain contains [cam4.com], and it is secure exactly when the
    fourth field is TRUE in some letter case. *)
Theorem cookie_comes_from_seven_fields (line : string) (c : Cookies.Cookie) :
  Cookies.load_line line = Some c ->
  exists flag sec expires rest,
    Cookies.strip line
    = Cookies.join_tab (Cookies.domain c :: flag :: Cookies.path c :: sec :: expires
                          :: Cookies.name c :: Cookies.value_ c :: rest) /\
    forallb (fun f => negb (Cookies.has_char Cookies.tab f))
      (Cookies.domain c :: flag :: Cookies.path c :: sec :: expires
         :: Cookies.name c :: Cookies.value_ c :: rest) = true /\
    starts_with "#" (Cookies.strip line) = false /\
    str_in "cam4.com" (Cookies.domain c) = true /\
    Cookies.secure c = String.eqb (Cookies.upper sec) "TRUE".
Proof.
  unfold Cookies.load_line.
  destruct (Cookies.strip line) as [|c0 s0] eqn:E; [discriminate|].
  destruct (Ascii.eqb c0 "#") eqn:C; [discriminate|].
  pose proof (CookieFacts.join_split (String c0 s0)) as J.
  pose proof (CookieFacts.split_parts_tab_free (String c0 s0)) as T.
  destruct (Cookies.split Cookies.tab (String c0 s0))
    as [|d [|flag [|p [|sec [|expires [|n [|v rest]]]]]]]; try discriminate.
  destruct (str_in "cam4.com" d) eqn:D; [|discriminate].
  intros H. injection H as <-.
  cbn [Cookies.domain Cookies.path Cookies.name Cookies.value_ Cookies.secure].
  exists flag, sec, expires, rest. repeat split; try assumption.
  - symmetry. exact J.
  - cbn [starts_with]. rewrite Ascii.eqb_sym, C. reflexivity.
Qed.

Lemma cookie_comes_from_witness :
  exists flag sec expires rest,
    Cookies.strip "  .cam4.com	TRUE	/	true	0	sid	v	extra
"
    = Cookies.join_tab (".cam4.com" :: flag :: "/" :: sec :: expires
                          :: "sid" :: "v" :: rest) /\
    forallb (fun f => negb (Cookies.has_char Cookies.tab f))
      (".cam4.com" :: flag :: "/" :: sec :: expires :: "sid" :: "v" :: rest) = true /\
    starts_with "#" (Cookies.strip "  .cam4.com	TRUE	/	true	0	sid	v	extra
") = false /\
    str_in "cam4.com" ".cam4.com" = true /\
    true = String.eqb (Cookies.upper sec) "TRUE".
Proof.
  apply (cookie_comes_from_seven_fields "  .cam4.com	TRUE	/	true	0	sid	v	extra
"
           {| Cookies.name := "sid"; Cookies.value_ := "v"; Cookies.domain := ".cam4.com";
              Cookies.path := "/"; Cookies.secure := true |}).
  vm_compute. reflexivity.
Defined.

Lemma load_lines_ok (lines : list string) (tail : list (Result string))
      (jar : list Cookies.Cookie) :
  Cookies.load_lines (map Ok lines ++ tail)%list jar
  = Cookies.load_lines tail (jar ++ Cookies.cookies_of lines)%list.
Proof.
  revert jar. induction lines as [|l lines IH]; intros jar.
  - cbn [map app Cookies.cookies_of]. rewrite app_nil_r. reflexivity.
  - cbn [map app Cookies.load_lines Cookies.cookies_of]. rewrite IH.
    destruct (Cookies.load_line l); [rewrite <- app_assoc|]; reflexivity.
Qed.

(** X14: loading a cookie file never raises an [Exception].  The cookies of
    the lines read are added to the jar in file order, after what the jar
    held; when reading fails part-way the cookies of the lines already read
    stay in the jar, and when the file cannot be opened the jar is
    unchanged. *)
Theorem cookie_file_loads_what_was_read
        (lines : list string) (e : exn) (rest : list (Result string))
        (jar : list Cookies.Cookie) :
  is_Exception e = true ->
  Cookies._load_cookies_from_file (Ok (map Ok lines)) jar
  = (Ok tt, (jar ++ Cookies.cookies_of lines)%list) /\
  Cookies._load_cookies_from_file (Ok (map Ok lines ++ Raise e :: rest)%list) jar
  = (Ok tt, (jar ++ Cookies.cookies_of lines)%list) /\
  Cookies._load_cookies_from_file (Raise e) jar = (Ok tt, jar).
Proof.
  intros He. unfold Cookies._load_cookies_from_file. repeat split.
  - rewrite <- (app_nil_r (map Ok lines)), load_lines_ok. reflexivity.
  - rewrite load_lines_ok. cbn [Cookies.load_lines]. rewrite He. reflexivity.
  - rewrite He. reflexivity.
Qed.

Lemma cookie_file_witness :
  Cookies._load_cookies_from_file
    (Ok (map Ok ("# Netscape HTTP Cookie File
" :: ".cam4.com	TRUE	/	TRUE	0	sid	v
" :: nil)
         ++ Raise (OtherException "UnicodeDecodeError") :: Ok ".cam4.com	TRUE	/	TRUE	0	late	w
" :: nil)%list) nil
  = (Ok tt,
     (nil ++ Cookies.cookies_of ("# Netscape HTTP Cookie File
" :: ".cam4.com	TRUE	/	TRUE	0	sid	v
" :: nil))%list).
Proof.
  refine (proj1 (proj2 (cookie_file_loads_what_was_read
            ("# Netscape HTTP Cookie File
" :: ".cam4.com	TRUE	/	TRUE	0	sid	v
" :: nil) (OtherException "UnicodeDecodeError") (Ok ".cam4.com	TRUE	/	TRUE	0	late	w
" :: nil) nil _))).
  reflexivity.
Defined.

Module StripMore.
Import Cookies.

Lemma drop_space_app_some (s r t : string) :
  drop_space s = Some r -> drop_space (s +:+ t) = Some (r +:+ t).
Proof.
  unfold drop_space. destruct s as [|c s]; [discriminate|]. rewrite str_app_cons.
  destruct (ascii_space c); [intros H; injection H as <-; reflexivity|].
  destruct (N_of_ascii c =? 194)%N.
  { destruct s as [|d s]; [discriminate|]. rewrite str_app_cons.
    destruct (_ || _)%N; [intros H; injection H as <-; reflexivity | discriminate]. }
  destruct (_ || _)%N; [|discriminate].
  destruct s as [|d [|e s]]; try discriminate. rewrite !str_app_cons. cbv zeta.
  match goal with |- (if ?b then _ else _) = _ -> _ => destruct b end;
    [intros H; injection H as <-; reflexivity | discriminate].
Qed.

Lemma space_low_tests (c : ascii) :
  ascii_space c = true ->
  forall n, (128 <= n)%N -> (N_of_ascii c =? n)%N = false.
Proof.
  intros S n H. apply StripFacts.space_is_low in S. apply N.eqb_neq. lia.
Qed.

Lemma drop_space_app_none (s t : string) :
  s <> "" -> drop_space s = None -> str_forall ascii_space t = true ->
  drop_space (s +:+ t) = None.
Proof.
  intros N D S. unfold drop_space in *. destruct s as [|c s]; [contradiction|].
  rewrite str_app_cons.
  destruct (ascii_space c); [discriminate|].
  destruct (N_of_ascii c =? 194)%N.
  { destruct s as [|d s].
    - rewrite str_app_nil. destruct t as [|d t]; [reflexivity|].
      cbn [str_forall] in S. apply andb_true_iff in S as [Sd _].
      rewrite !(space_low_tests _ Sd) by lia. reflexivity.
    - rewrite str_app_cons. destruct (_ || _)%N; [discriminate | reflexivity]. }
  destruct (_ || _)%N; [|reflexivity].
  destruct s as [|d [|e s]].
  - rewrite str_app_nil. destruct t as [|d [|e t]]; try reflexivity.
    cbn [str_forall] in S. apply andb_true_iff in S as [Sd _]. cbv zeta.
    rewrite !(space_low_tests _ Sd) by lia.
    rewrite ?andb_false_r, ?andb_false_l. reflexivity.
  - rewrite str_app_cons, str_app_nil. destruct t as [|e t]; [reflexivity|].
    cbn [str_forall] in S. apply andb_true_iff in S as [Se _]. cbv zeta.
    rewrite !(space_low_tests _ Se) by lia.
    assert (R : ((128 <=? N_of_ascii e) && (N_of_ascii e <=? 138))%N = false).
    { apply StripFacts.space_is_low in Se.
      destruct (N.leb_spec 128 (N_of_ascii e)); [lia | reflexivity]. }
    rewrite R, ?andb_false_r. reflexivity.
  - rewrite !str_app_cons. cbv zeta in *.
    match type of D with
    | (if ?b then _ else _) = None => destruct b; [discriminate D | reflexivity]
    end.
Qed.

Lemma drop_space_shorter (s r : string) :
  drop_space s = Some r -> (String.length r < String.length s)%nat.
Proof.
  intros D. apply StripFacts.drop_space_spec in D as (p & -> & N & _).
  rewrite str_length_app. destruct p; [contradiction | cbn; lia].
Qed.

Lemma lstrip_fuel_app (n : nat) (x t : string) :
  (String.length x <= n)%nat -> str_forall ascii_space t = true ->
  lstrip_fuel (n + String.length t) (x +:+ t)
  = match lstrip_fuel n x with
    | EmptyString => EmptyString
    | y => y +:+ t
    end.
Proof.
  revert x. induction n as [|n IH]; intros x L Sp.
  - destruct x; [|cbn in L; lia]. rewrite str_app_nil. cbn [lstrip_fuel plus].
    apply StripFacts.lstrip_fuel_spaces; [lia | exact Sp].
  - cbn [plus lstrip_fuel].
    destruct (drop_space x) as [r|] eqn:D.
    + rewrite (drop_space_app_some _ _ t D). apply IH; [|exact Sp].
      apply drop_space_shorter in D. lia.
    + destruct x as [|c x].
      * rewrite str_app_nil.
        change (match drop_space t with
                | Some r => lstrip_fuel (n + String.length t) r
                | None => t
                end) with (lstrip_fuel (S (n + String.length t)) t).
        apply StripFacts.lstrip_fuel_spaces; [lia | exact Sp].
      * rewrite (drop_space_app_none (String c x) t); [reflexivity | discriminate | exact D | exact Sp].
Qed.

Lemma lstrip_app (x t : string) :
  str_forall ascii_space t = true ->
  lstrip (x +:+ t) = match lstrip x with EmptyString => EmptyString | y => y +:+ t end.
Proof.
  intros S. unfold lstrip. rewrite str_length_app. apply lstrip_fuel_app; [lia | exact S].
Qed.

Lemma all_space_app (x t : string) :
  x <> "" -> str_forall ascii_space t = true -> all_space (x +:+ t) = all_space x.
Proof.
  intros N S. unfold all_space. rewrite (lstrip_app _ _ S).
  destruct (lstrip x) as [|c y]; [reflexivity|]. rewrite str_app_cons. reflexivity.
Qed.

Lemma rstrip_app_space (x t : string) :
  str_forall ascii_space t = true -> rstrip (x +:+ t) = rstrip x.
Proof.
  intros S. induction x as [|c x IH].
  - rewrite str_app_nil. apply StripFacts.rstrip_spaces, S.
  - rewrite str_app_cons. cbn [rstrip]. rewrite <- str_app_cons.
    rewrite (all_space_app (String c x) t); [|discriminate | exact S].
    rewrite IH. reflexivity.
Qed.

Lemma count_app (c : ascii) (a b : string) :
  count c (a +:+ b) = (count c a + count c b)%nat.
Proof.
  induction a as [|d a IH]; [reflexivity|].
  rewrite str_app_cons. cbn [count]. rewrite IH. lia.
Qed.

Lemma count_lstrip_fuel (c : ascii) (n : nat) (s : string) :
  (count c (lstrip_fuel n s) <= count c s)%nat.
Proof.
  revert s. induction n as [|n IH]; intros s; cbn [lstrip_fuel]; [lia|].
  destruct (drop_space s) as [r|] eqn:D; [|lia].
  apply StripFacts.drop_space_spec in D as (p & -> & _ & _).
  rewrite count_app. specialize (IH r). lia.
Qed.

Lemma count_rstrip (c : ascii) (s : string) : (count c (rstrip s) <= count c s)%nat.
Proof.
  induction s as [|d s IH]; [reflexivity|]. cbn [rstrip].
  destruct (all_space (String d s)); cbn [count]; lia.
Qed.

Lemma count_join_tab_free (fields : list string) :
  fields <> nil ->
  forallb (fun f => negb (has_char tab f)) fields = true ->
  count tab (join_tab fields) = pred (length fields).
Proof.
  intros N T. rewrite <- (CookieFacts.split_join fields N T) at 2.
  rewrite CookieFacts.length_split. reflexivity.
Qed.

End StripMore.

(** X15: a record whose value field is empty is not loaded: stripping the
    line removes the tab that ends the sixth field, and fewer than seven
    fields remain.  This holds for every line of six tab-free fields followed
    by a tab and a newline. *)
Theorem cookie_with_empty_value_is_dropped (f0 f1 f2 f3 f4 f5 : string) :
  forallb (fun f => negb (Cookies.has_char Cookies.tab f))
    (f0 :: f1 :: f2 :: f3 :: f4 :: f5 :: nil) = true ->
  Cookies.load_line
    (Cookies.join_tab (f0 :: f1 :: f2 :: f3 :: f4 :: f5 :: "" :: nil) +:+ String "010" "")
  = None.
Proof.
  intros T.
  set (six := Cookies.join_tab (f0 :: f1 :: f2 :: f3 :: f4 :: f5 :: nil)).
  assert (E : Cookies.join_tab (f0 :: f1 :: f2 :: f3 :: f4 :: f5 :: "" :: nil)
                +:+ String "010" ""
              = six +:+ String Cookies.tab (String "010" "")).
  { unfold six. cbn [Cookies.join_tab].
    repeat first [rewrite str_app_assoc | rewrite str_app_cons | rewrite str_app_nil].
    reflexivity. }
  rewrite E. clear E.
  assert (C : (Cookies.count Cookies.tab
                 (Cookies.strip (six +:+ String Cookies.tab (String "010" ""))) <= 5)%nat).
  { unfold Cookies.strip. rewrite StripMore.lstrip_app by reflexivity.
    pose proof (StripMore.count_lstrip_fuel Cookies.tab (String.length six) six) as Cl.
    fold (Cookies.lstrip six) in Cl.
    assert (C6 : Cookies.count Cookies.tab six = 5%nat)
      by (unfold six; rewrite StripMore.count_join_tab_free;
          [reflexivity | discriminate | exact T]).
    destruct (Cookies.lstrip six) as [|c y] eqn:L; [cbn; lia|].
    rewrite StripMore.rstrip_app_space by reflexivity.
    pose proof (StripMore.count_rstrip Cookies.tab (String c y)). lia. }
  unfold Cookies.load_line.
  destruct (Cookies.strip _) as [|c0 s0]; [reflexivity|].
  destruct (Ascii.eqb c0 "#"); [reflexivity|].
  pose proof (CookieFacts.length_split (String c0 s0)) as Ls.
  destruct (Cookies.split Cookies.tab (String c0 s0))
    as [|? [|? [|? [|? [|? [|? [|? ?]]]]]]]; try reflexivity.
  cbn [length] in Ls. lia.
Qed.

Lemma cookie_with_empty_value_witness :
  Cookies.load_line
    (Cookies.join_tab (".cam4.com" :: "TRUE" :: "/" :: "FALSE" :: "0" :: "flag" :: "" :: nil)
       +:+ String "010" "")
  = None.
Proof.
  apply (cookie_with_empty_value_is_dropped ".cam4.com" "TRUE" "/" "FALSE" "0" "flag").
  reflexivity.
Defined.

(** ** Downloading the thumbnail *)

Lemma session_get_step (url : value) (w : World) :
  CAM4Standalone.session_get url w
  = (match nth_outcome w 0 with
     | Fault e => Raise e
     | Reply r => Ok {| cls := RequestsResponse; raw := r |}
     end, log_request SessionGet url w).
Proof.
  unfold CAM4Standalone.session_get, bind, transport. rewrite nth_outcome_0.
  destruct (nth_outcome w 0); reflexivity.
Qed.

Lemma session_get_lib_step (cfg : CAM4StandaloneLib.Config) (url : value) (w : World) :
  CAM4StandaloneLib.session_get cfg url w
  = (match nth_outcome w 0 with
     | Fault e => Raise e
     | Reply r => Ok {| cls := CAM4StandaloneLib.session_cls cfg; raw := r |}
     end, log_request SessionGet url w).
Proof.
  unfold CAM4StandaloneLib.session_get, bind, transport. rewrite nth_outcome_0.
  destruct (nth_outcome w 0); reflexivity.
Qed.

Lemma raise_for_status_exception (response : Response) (e : exn) :
  raise_for_status response = Raise e -> is_Exception e = true.
Proof.
  unfold raise_for_status. destruct (cls response);
    match goal with |- (if ?b then _ else _) = _ -> _ => destruct b end;
    intros H; try discriminate H; injection H as <-; reflexivity.
Qed.

(** X16: for a URL with identifier [id], [download_thumbnail] of either
    file issues exactly one request, through the session (never through
    FlareSolverr), for the template URL that [check_performer] reports as
    [thumbnail_url].  When the reply passes [raise_for_status] and the path
    can be written, it stores the reply's content at the path (the caller's
    non-empty path, or [<id>_thumb.jpg]), changes no other file and returns
    the path. *)
Theorem thumbnail_is_fetched_and_stored
        (content : RawResponse -> string) (cfg : CAM4StandaloneLib.Config)
        (url id : string) (output_path : option string) (w : World)
        (d : Thumbnails.Disk) (r : RawResponse) :
  re_match_id VALID_URL_PATTERN url = Some id ->
  nth_outcome w 0 = Reply r ->
  200 <= status_code r < 400 ->
  let path := match output_path with
              | Some (String c p) => String c p
              | _ => str_lower id +:+ "_thumb.jpg"
              end in
  Thumbnails.unwritable d path = false ->
  let w' := log_request SessionGet (PyStr (thumbnail_template (str_lower id))) w in
  let d' := {| Thumbnails.files := <[ path := content r ]> (Thumbnails.files d);
               Thumbnails.unwritable := Thumbnails.unwritable d |} in
  Thumbnails.download_thumbnail content url output_path w d = (Ok (Some path), w', d') /\
  Thumbnails.download_thumbnail_lib content cfg url output_path w d
  = (Ok (Some path), w', d').
Proof.
  intros Hid H0 Hs path Hw w' d'.
  assert (P : forall c, raise_for_status {| cls := c; raw := r |} = Ok tt).
  { intros c. unfold raise_for_status. cbn [cls raw].
    destruct c.
    - destruct (Z.leb_spec 400 (status_code r)); [lia | reflexivity].
    - destruct (Z.leb_spec 200 (status_code r)), (Z.ltb_spec (status_code r) 400);
        first [reflexivity | lia].
    - destruct (Z.leb_spec 400 (status_code r)); [lia | reflexivity]. }
  unfold Thumbnails.download_thumbnail, Thumbnails.download_thumbnail_lib.
  rewrite (extract_username_match _ _ _ Hid).
  unfold Thumbnails.fetch_and_save.
  rewrite session_get_step, session_get_lib_step, H0.
  unfold Thumbnails.save_response. rewrite !P. cbn [raw].
  fold (Thumbnails.thumb_path output_path (str_lower id)).
  change (Thumbnails.thumb_path output_path (str_lower id)) with path.
  unfold Thumbnails.write_file. rewrite Hw. split; reflexivity.
Qed.

Lemma thumbnail_is_fetched_witness :
  Thumbnails.download_thumbnail text "https://www.cam4.com/foo_1" None
    (fresh_world (fun _ => reply 200 "JFIF" None))
    {| Thumbnails.files := ∅; Thumbnails.unwritable := fun _ => false |}
  = (Ok (Some "foo_1_thumb.jpg"),
     log_request SessionGet (PyStr (thumbnail_template "foo_1"))
       (fresh_world (fun _ => reply 200 "JFIF" None)),
     {| Thumbnails.files := <[ "foo_1_thumb.jpg" := "JFIF" ]> ∅;
        Thumbnails.unwritable := fun _ => false |}).
Proof.
  refine (proj1 (thumbnail_is_fetched_and_stored text plain_requests
            "https://www.cam4.com/foo_1" "foo_1" None
            (fresh_world (fun _ => reply 200 "JFIF" None))
            {| Thumbnails.files := ∅; Thumbnails.unwritable := fun _ => false |}
            {| status_code := 200; text := "JFIF"; parsed := None |} _ _ _ _)).
  - reflexivity.
  - reflexivity.
  - cbn [status_code]. lia.
  - reflexivity.
Defined.

(** X17: when the request for the thumbnail raises an [Exception] or is
    answered with a 4xx or 5xx status, or when the path cannot be written,
    [download_thumbnail] of either file returns [None], raises nothing and
    leaves the disk as it was. *)
Theorem thumbnail_failure_is_none
        (content : RawResponse -> string) (cfg : CAM4StandaloneLib.Config)
        (url id : string) (output_path : option string) (w : World)
        (d : Thumbnails.Disk) :
  re_match_id VALID_URL_PATTERN url = Some id ->
  (exists e, nth_outcome w 0 = Fault e /\ is_Exception e = true) \/
  (exists r, nth_outcome w 0 = Reply r /\ 400 <= status_code r < 600) \/
  (exists r, nth_outcome w 0 = Reply r /\
             Thumbnails.unwritable d (Thumbnails.thumb_path output_path (str_lower id)) = true) ->
  let w' := log_request SessionGet (PyStr (thumbnail_template (str_lower id))) w in
  Thumbnails.download_thumbnail content url output_path w d = (Ok None, w', d) /\
  Thumbnails.download_thumbnail_lib content cfg url output_path w d = (Ok None, w', d).
Proof.
  intros Hid H w'.
  unfold Thumbnails.download_thumbnail, Thumbnails.download_thumbnail_lib.
  rewrite (extract_username_match _ _ _ Hid).
  unfold Thumbnails.fetch_and_save.
  rewrite session_get_step, session_get_lib_step.
  destruct H as [(e & -> & He) | [(r & -> & Hs) | (r & -> & Hw)]].
  - rewrite He. split; reflexivity.
  - unfold Thumbnails.save_response.
    assert (P : forall c, exists e, raise_for_status {| cls := c; raw := r |} = Raise e
                                    /\ is_Exception e = true).
    { intros c. unfold raise_for_status. cbn [cls raw]. destruct c.
      - destruct (Z.leb_spec 400 (status_code r)), (Z.ltb_spec (status_code r) 600);
          try lia. eexists. split; reflexivity.
      - destruct (Z.ltb_spec (status_code r) 400); [lia|]. rewrite andb_false_r.
        eexists. split; reflexivity.
      - destruct (Z.leb_spec 400 (status_code r)); [|lia]. eexists. split; reflexivity. }
    destruct (P RequestsResponse) as (e1 & -> & ->).
    destruct (P (CAM4StandaloneLib.session_cls cfg)) as (e2 & -> & _).
    split; reflexivity.
  - unfold Thumbnails.save_response, Thumbnails.write_file. rewrite Hw.
    destruct (raise_for_status {| cls := RequestsResponse; raw := r |}) as [[]|e1] eqn:E1;
      destruct (raise_for_status {| cls := CAM4StandaloneLib.session_cls cfg; raw := r |})
        as [[]|e2]; cbn [is_Exception];
      try rewrite (raise_for_status_exception _ _ E1); split; reflexivity.
Qed.

Lemma thumbnail_failure_witness :
  Thumbnails.download_thumbnail text "https://www.cam4.com/foo_1" (Some "t.jpg")
    (fresh_world scenario_absent)
    {| Thumbnails.files := ∅; Thumbnails.unwritable := fun _ => false |}
  = (Ok None,
     log_request SessionGet (PyStr (thumbnail_template "foo_1"))
       (fresh_world scenario_absent),
     {| Thumbnails.files := ∅; Thumbnails.unwritable := fun _ => false |}).
Proof.
  refine (proj1 (thumbnail_failure_is_none text plain_requests
            "https://www.cam4.com/foo_1" "foo_1" (Some "t.jpg")
            (fresh_world scenario_absent)
            {| Thumbnails.files := ∅; Thumbnails.unwritable := fun _ => false |} _ _)).
  - reflexivity.
  - right. left. eexists. split; [reflexivity|]. cbn [status_code]. lia.
Defined.

(** ** The extractor's decisions *)

Lemma truthy_get (v on : value) (k : string) (default : value) :
  truthy default = false ->
  dict_get v k default = Ok on -> truthy on = true ->
  exists m, v = PyDict m /\ m !! k = Some on.
Proof.
  intros D H T. destruct v; try discriminate H. cbn [dict_get] in H.
  exists m. split; [reflexivity|].
  destruct (m !! k) as [x|]; injection H as <-; [reflexivity|].
  rewrite D in T. discriminate T.
Qed.

(** X18: what [_real_extract] returns is decided by its two downloads and by
    the format extraction.  It returns an info dict exactly when the profile
    download is an object with a true [online] entry, the stream-info
    download is an object with a non-empty [cdnURL] and format extraction
    from that URL succeeds; the dict then carries the channel id as [id] and
    [title], [is_live], age limit 18, those formats and the thumbnail
    template.  Every [ExtractorError] it raises is an expected one, with the
    message of the first check that failed.  The playlist itself is never
    inspected: there is no private-or-away refusal. *)
Theorem extractor_decision_table
        (_match_id : string -> string) (_download_json : string -> list Z -> value)
        (_extract_m3u8_formats : value -> string -> Result value) (url : string) :
  let u := _match_id url in
  let profile :=
    _download_json ("https://www.cam4.com/rest/v1.0/profile/" +:+ u +:+ "/info")
      (404 :: nil) in
  let stream_info :=
    _download_json ("https://www.cam4.com/rest/v1.0/profile/" +:+ u +:+ "/streamInfo")
      (204 :: 404 :: nil) in
  let outcome :=
    CAM4IE._real_extract _match_id _download_json _extract_m3u8_formats url in
  (forall info,
      outcome = CAM4IE.Extracted info <->
      exists m d on cdn fmts,
        profile = PyDict m /\ m !! "online" = Some on /\ truthy on = true /\
        stream_info = PyDict d /\ d !! "cdnURL" = Some cdn /\ truthy cdn = true /\
        _extract_m3u8_formats cdn u = Ok fmts /\
        info = {| CAM4IE.id := u; CAM4IE.title := u; CAM4IE.is_live := true;
                  CAM4IE.age_limit := 18; CAM4IE.formats := fmts;
                  CAM4IE.thumbnail := thumbnail_template u |}) /\
  (forall msg expected,
      outcome = CAM4IE.ExtractorError msg expected ->
      expected = true /\
      ((truthy profile = false /\ msg = u +:+ ": Performer not found") \/
       (truthy profile = true /\
        (exists on, dict_get profile "online" (PyBool false) = Ok on /\ truthy on = false) /\
        msg = u +:+ ": Performer is currently offline") \/
       (truthy stream_info = false /\
        msg = u +:+ ": Performer is online but not currently streaming") \/
       (truthy stream_info = true /\
        (exists cdn, dict_get stream_info "cdnURL" PyNone = Ok cdn /\ truthy cdn = false) /\
        msg = u +:+ ": Stream info found but no playlist URL available"))).
Proof.
  intros u profile stream_info outcome.
  subst outcome. unfold CAM4IE._real_extract. fold u. fold profile. fold stream_info.
  clearbody profile stream_info.
  split.
  - intros info. split.
    + destruct (truthy profile) eqn:Tp; cbn [negb]; [|discriminate].
      destruct (dict_get profile "online" (PyBool false)) as [on|e] eqn:Gp; [|discriminate].
      destruct (truthy on) eqn:Ton; cbn [negb]; [|discriminate].
      destruct (truthy stream_info) eqn:Ts; cbn [negb]; [|discriminate].
      destruct (dict_get stream_info "cdnURL" PyNone) as [cdn|e] eqn:Gs; [|discriminate].
      destruct (truthy cdn) eqn:Tc; cbn [negb]; [|discriminate].
      destruct (_extract_m3u8_formats cdn u) as [fmts|e] eqn:F; [|discriminate].
      intros H. injection H as <-.
      destruct (truthy_get _ _ _ (PyBool false) eq_refl Gp Ton) as (m & Em & Lm).
      destruct (truthy_get _ _ _ PyNone eq_refl Gs Tc) as (d & Ed & Ld).
      exists m, d, on, cdn, fmts. repeat split; assumption.
    + intros (m & d & on & cdn & fmts & Ep & Lm & Ton & Es & Ld & Tc & F & ->).
      rewrite Ep, Es. cbn [dict_get]. rewrite Lm, Ld, Ton, Tc.
      rewrite (dict_truthy m) by (eapply dict_with_key, Lm).
      rewrite (dict_truthy d) by (eapply dict_with_key, Ld).
      cbn [negb]. rewrite F. reflexivity.
  - intros msg expected.
    destruct (truthy profile) eqn:Tp; cbn [negb].
    2:{ intros H. injection H as <- <-. split; [reflexivity|]. left. auto. }
    destruct (dict_get profile "online" (PyBool false)) as [on|e] eqn:Gp; [|discriminate].
    destruct (truthy on) eqn:Ton; cbn [negb].
    2:{ intros H. injection H as <- <-. split; [reflexivity|]. right. left. eauto. }
    destruct (truthy stream_info) eqn:Ts; cbn [negb].
    2:{ intros H. injection H as <- <-. split; [reflexivity|]. right. right. left. auto. }
    destruct (dict_get stream_info "cdnURL" PyNone) as [cdn|e] eqn:Gs; [|discriminate].
    destruct (truthy cdn) eqn:Tc; cbn [negb].
    2:{ intros H. injection H as <- <-. split; [reflexivity|]. right. right. right. eauto. }
    destruct (_extract_m3u8_formats cdn u); discriminate.
Qed.

(** ** Agreement under transport faults *)

Lemma make_request_plain (cfg : CAM4StandaloneLib.Config) (url : value) (w : World) :
  request_cls cfg = RequestsResponse -> request_channel cfg = SessionGet ->
  CAM4StandaloneLib._make_request cfg url w = CAM4Standalone.session_get url w.
Proof.
  unfold request_cls, request_channel, CAM4StandaloneLib._make_request.
  destruct (_ && _); [discriminate|]. intros E _.
  unfold CAM4StandaloneLib.session_get, CAM4Standalone.session_get. rewrite E. reflexivity.
Qed.

Lemma get_profile_info_plain (cfg : CAM4StandaloneLib.Config) (u : string) (w : World) :
  request_cls cfg = RequestsResponse -> request_channel cfg = SessionGet ->
  (forall e, nth_outcome w 0 = Fault e -> transport_fault e) ->
  CAM4StandaloneLib.get_profile_info cfg u w = CAM4Standalone.get_profile_info u w.
Proof.
  intros Hc Hch Hf. rewrite get_profile_info_eq.
  unfold CAM4StandaloneLib.get_profile_info, try_except. unfold bind at 1.
  rewrite (make_request_plain _ _ _ Hc Hch), session_get_step.
  destruct (nth_outcome w 0) as [e|r].
  - cbn [profile_result]. rewrite (Hf e eq_refl). reflexivity.
  - cbn [raw profile_result]. destruct (status_code r =? 404); [reflexivity|].
    unfold bind, lift, ret, raise_for_status, json. cbn [cls raw].
    destruct ((400 <=? status_code r) && (status_code r <? 600)); [reflexivity|].
    destruct (parsed r); reflexivity.
Qed.

Lemma get_stream_info_plain (cfg : CAM4StandaloneLib.Config) (u : string) (w : World) :
  request_cls cfg = RequestsResponse -> request_channel cfg = SessionGet ->
  (forall e, nth_outcome w 0 = Fault e -> transport_fault e) ->
  CAM4StandaloneLib.get_stream_info cfg u w = CAM4Standalone.get_stream_info u w.
Proof.
  intros Hc Hch Hf. rewrite get_stream_info_eq.
  unfold CAM4StandaloneLib.get_stream_info, try_except. unfold bind at 1.
  rewrite (make_request_plain _ _ _ Hc Hch), session_get_step.
  destruct (nth_outcome w 0) as [e|r].
  - cbn [stream_result]. rewrite (Hf e eq_refl). reflexivity.
  - cbn [raw stream_result]. destruct (status_code r =? 204); [reflexivity|].
    destruct (status_code r =? 404); [reflexivity|]. cbn [orb].
    unfold bind, lift, ret, raise_for_status, json. cbn [cls raw].
    destruct ((400 <=? status_code r) && (status_code r <? 600)); [reflexivity|].
    destruct (parsed r); reflexivity.
Qed.

Lemma verify_stream_accessible_plain
      (cfg : CAM4StandaloneLib.Config) (url : value) (w : World) :
  request_cls cfg = RequestsResponse -> request_channel cfg = SessionGet ->
  (forall e, nth_outcome w 0 = Fault e -> transport_fault e) ->
  CAM4StandaloneLib.verify_stream_accessible cfg url w
  = CAM4Standalone.verify_stream_accessible url w.
Proof.
  intros Hc Hch Hf. rewrite verify_stream_accessible_eq.
  unfold CAM4StandaloneLib.verify_stream_accessible, try_except. unfold bind at 1.
  rewrite (make_request_plain _ _ _ Hc Hch), session_get_step.
  destruct (nth_outcome w 0) as [e|r]; [|reflexivity].
  cbn [probe_result]. pose proof (Hf e eq_refl) as T. unfold transport_fault in T.
  rewrite T. destruct e; try discriminate T; reflexivity.
Qed.

(** X19: on the plain [requests] session (no FlareSolverr in use, no
    curl_cffi session) the library module and the script return the same
    status, stream URL and thumbnail URL, or raise the same exception, also
    when requests fail, as long as the failures are transport faults. *)
Theorem implementations_agree_under_transport_faults
        (cfg : CAM4StandaloneLib.Config) (url : string) (w : World) :
  request_cls cfg = RequestsResponse ->
  request_channel cfg = SessionGet ->
  (forall (k : nat) e, (k < 3)%nat -> nth_outcome w k = Fault e -> transport_fault e) ->
  same_result (fst (CAM4Standalone.check_performer url w))
              (fst (CAM4StandaloneLib.check_performer cfg url w)).
Proof.
  intros Hc Hch Hf.
  destruct (re_match_id VALID_URL_PATTERN url) as [id|] eqn:Hid.
  2:{ rewrite (check_performer_no_match _ _ Hid), (check_performer_lib_no_match _ _ _ Hid).
      apply same_result_refl. }
  rewrite (check_performer_classify _ _ _ Hid).
  unfold CAM4StandaloneLib.check_performer, classify, thumbnail_template.
  unfold bind at 1. rewrite (extract_username_match _ _ _ Hid).
  unfold bind at 1.
  rewrite (get_profile_info_plain _ _ _ Hc Hch), get_profile_info_eq
    by (intros e; apply Hf; lia).
  destruct (profile_result (nth_outcome w 0)) as [profile|e]; [|apply same_result_refl].
  destruct (negb (truthy profile)); [simpl; auto|].
  unfold bind at 1, lift at 1.
  destruct (dict_get profile "online" (PyBool false)) as [is_online|e];
    [|apply same_result_refl].
  destruct (negb (truthy is_online)); [simpl; auto|].
  unfold bind at 1.
  rewrite (get_stream_info_plain _ _ _ Hc Hch), get_stream_info_eq, nth_outcome_log
    by (intros e; rewrite nth_outcome_log; apply Hf; lia).
  destruct (stream_result (nth_outcome w 1)) as [stream_info|e];
    [|apply same_result_refl].
  unfold bind at 1.
  destruct (truthy stream_info) eqn:Ts; cbn [negb]; [|simpl; auto].
  unfold bind at 1, lift at 1.
  destruct (dict_get stream_info "cdnURL" PyNone) as [cdn_url|e] eqn:Eg;
    [|apply same_result_refl].
  unfold ret at 1.
  destruct (truthy cdn_url) eqn:Tc; cbn [negb]; [|simpl; auto].
  unfold bind at 1, lift at 1. rewrite (dict_index_of_get _ _ _ Eg Tc).
  unfold bind at 1.
  rewrite (verify_stream_accessible_plain _ _ _ Hc Hch), verify_stream_accessible_eq,
    !nth_outcome_log
    by (intros e; rewrite !nth_outcome_log; apply Hf; lia).
  destruct (probe_result (nth_outcome w 2)) as [res|e]; [|apply same_result_refl].
  destruct (negb (fst res)); simpl; auto.
Qed.

Lemma implementations_agree_under_faults_witness :
  same_result
    (fst (CAM4Standalone.check_performer "https://www.cam4.com/foo_1"
            (fresh_world scenario_probe_reset)))
    (fst (CAM4StandaloneLib.check_performer plain_requests
            "https://www.cam4.com/foo_1" (fresh_world scenario_probe_reset))).
Proof.
  apply (implementations_agree_under_transport_faults plain_requests
           "https://www.cam4.com/foo_1" (fresh_world scenario_probe_reset)).
  - reflexivity.
  - reflexivity.
  - intros k e Hk H. destruct k as [|[|[|k]]]; try discriminate H; [|lia].
    injection H as <-. reflexivity.
Defined.

(** ** Letter case of the URL *)

Lemma ascii_lower_idem (c : ascii) : ascii_lower (ascii_lower c) = ascii_lower c.
Proof. destruct c as [[] [] [] [] [] [] [] []]; reflexivity. Qed.

Lemma ascii_case_orbit (c : ascii) :
  (ascii_lower c = c /\ ascii_upper (ascii_lower c) = ascii_upper c) \/
  (ascii_upper c = c /\ ascii_upper (ascii_lower c) = c).
Proof.
  destruct c as [[] [] [] [] [] [] [] []];
    first [left; split; reflexivity | right; split; reflexivity].
Qed.

Lemma atom_matches_lower (a : atom) (c : ascii) :
  atom_matches true a (String (ascii_lower c) "") = atom_matches true a (String c "").
Proof.
  destruct a as [x|neg rs]; cbn [atom_matches andb].
  - rewrite ascii_lower_idem.
    destruct (Ascii.eqb_spec (ascii_lower x) (ascii_lower c)) as [E|E].
    + rewrite !orb_true_r. reflexivity.
    + rewrite !orb_false_r.
      destruct (Ascii.eqb_spec x c) as [->|N]; [contradiction|].
      destruct (Ascii.eqb_spec x (ascii_lower c)) as [->|N']; [|reflexivity].
      rewrite ascii_lower_idem in E. contradiction.
  - f_equal. unfold in_ranges. cbn [andb]. rewrite ascii_lower_idem.
    destruct (ascii_case_orbit c) as [[E1 E2] | [E1 E2]].
    + rewrite E1. reflexivity.
    + rewrite E2, E1.
      destruct (existsb (in_range (ascii_lower c)) rs), (existsb (in_range c) rs);
        reflexivity.
Qed.

Lemma singles_length (s : string) : length (singles s) = String.length s.
Proof. induction s as [|c s IH]; cbn [singles length String.length]; congruence. Qed.

Lemma lower_length (s : string) : String.length (lower s) = String.length s.
Proof. induction s as [|c s IH]; cbn [lower String.length]; congruence. Qed.

Lemma lower_glue_firstn (n : nat) (s : string) :
  glue (firstn n (singles (lower s))) = lower (glue (firstn n (singles s))).
Proof.
  revert n. induction s as [|c s IH]; intros n.
  - destruct n; reflexivity.
  - destruct n as [|n]; cbn [lower singles firstn glue]; [reflexivity|].
    rewrite IH. reflexivity.
Qed.

Section LowerSimulation.
Context {A B : Type}.
Variable P : A -> B -> Prop.

Lemma plus_greedy_lower (a : atom) (s : string)
      (k : list string -> option A) (k' : list string -> option B) :
  (forall s', both P (k (singles s')) (k' (singles (lower s')))) ->
  both P (plus_greedy true a (singles s) k) (plus_greedy true a (singles (lower s)) k').
Proof.
  intros Hk. induction s as [|c s IH]; cbn [lower singles plus_greedy]; [exact I|].
  rewrite atom_matches_lower.
  destruct (atom_matches true a (String c "")); [|exact I].
  destruct (plus_greedy true a (singles s) k) as [x|],
    (plus_greedy true a (singles (lower s)) k') as [y|];
    cbn [both] in IH; try contradiction; [exact IH | apply Hk].
Qed.

Lemma rmatch_lower (r : regex) :
  forall (s : string) (cap : option string)
         (k : list string -> option string -> option A)
         (k' : list string -> option string -> option B),
    (forall s' c, both P (k (singles s') c) (k' (singles (lower s')) (lower_cap c))) ->
    both P (rmatch true r (singles s) cap k)
           (rmatch true r (singles (lower s)) (lower_cap cap) k').
Proof.
  induction r as [|a|r1 IH1 r2 IH2|r1 IH1|a|r1 IH1]; intros s cap k k' Hk;
    cbn [rmatch].
  - apply Hk.
  - destruct s as [|c s]; cbn [lower singles]; [exact I|].
    rewrite atom_matches_lower.
    destruct (atom_matches true a (String c "")); [apply Hk | exact I].
  - apply IH1. intros s' c. apply IH2. exact Hk.
  - specialize (IH1 s cap k k' Hk).
    destruct (rmatch true r1 (singles s) cap k) as [x|],
      (rmatch true r1 (singles (lower s)) (lower_cap cap) k') as [y|];
      cbn [both] in IH1; try contradiction; [exact IH1 | apply Hk].
  - apply plus_greedy_lower. intros s'. apply Hk.
  - apply IH1. intros s' c. rewrite !singles_length, !lower_length, lower_glue_firstn.
    apply (Hk s' (Some (glue (firstn (String.length s - String.length s') (singles s))))).
Qed.

End LowerSimulation.

Lemma lower_idem (s : string) : lower (lower s) = lower s.
Proof.
  induction s as [|c s IH]; cbn [lower]; [reflexivity|].
  rewrite ascii_lower_idem, IH. reflexivity.
Qed.

(** X20: the identifier of a URL of ASCII characters does not depend on the
    letter case of the URL: [extract_username] returns for it exactly what it
    returns for the URL in lower case, and fails on the one exactly when it
    fails on the other.  (Outside ASCII this fails: U+0130 is an identifier
    character, its lower-case form [i] followed by U+0307 is not.) *)
Theorem identifier_ignores_url_case (url : string) (w : World) :
  is_ascii url = true ->
  (forall u, fst (extract_username url w) = Ok u <->
             fst (extract_username (lower url) w) = Ok u) /\
  (re_match_id VALID_URL_PATTERN url = None <->
   re_match_id VALID_URL_PATTERN (lower url) = None).
Proof.
  intros A.
  assert (Al : is_ascii (lower url) = true) by (rewrite is_ascii_lower; exact A).
  pose proof (rmatch_lower (fun a b : option string => lower_cap a = b)
                VALID_URL_PATTERN url None
                (fun _ cap => Some cap) (fun _ cap => Some cap)
                (fun _ _ => eq_refl)) as H.
  cbn [lower_cap] in H.
  pose proof (re_match_id_group url) as G.
  unfold extract_username, re_match_id in *.
  rewrite (code_points_ascii _ A) in *. rewrite (code_points_ascii _ Al).
  destruct (rmatch true VALID_URL_PATTERN (singles url) None (fun _ cap => Some cap))
    as [c|],
    (rmatch true VALID_URL_PATTERN (singles (lower url)) None (fun _ cap => Some cap))
    as [c'|];
    cbn [both] in H; try contradiction.
  - subst c'. destruct c as [g|]; cbn [lower_cap ret raise fst].
    + destruct (G g eq_refl) as (front & pre & rest & Hs & -> & _ & _).
      rewrite <- (code_points_ascii _ A) in Hs.
      destruct (ascii_group _ _ _ _ A Hs) as [Ag _].
      rewrite (str_lower_ascii _ Ag).
      rewrite str_lower_ascii by (rewrite is_ascii_lower; exact Ag).
      rewrite lower_idem. split; [intros u; reflexivity|]. split; discriminate.
    + split; [intros u; split; discriminate|]. split; reflexivity.
  - cbn [raise fst]. split; [intros u; split; discriminate|]. split; reflexivity.
Qed.

Lemma identifier_ignores_url_case_witness :
  (forall u,
      fst (extract_username "HTTPS://WWW.CAM4.COM/Foo_1/x" (fresh_world scenario_streaming))
      = Ok u <->
      fst (extract_username (lower "HTTPS://WWW.CAM4.COM/Foo_1/x")
             (fresh_world scenario_streaming)) = Ok u) /\
  (re_match_id VALID_URL_PATTERN "HTTPS://WWW.CAM4.COM/Foo_1/x" = None <->
   re_match_id VALID_URL_PATTERN (lower "HTTPS://WWW.CAM4.COM/Foo_1/x") = None).
Proof.
  apply (identifier_ignores_url_case
           "HTTPS://WWW.CAM4.COM/Foo_1/x" (fresh_world scenario_streaming)).
  reflexivity.
Defined.

(** ** Totality of the library resolver *)

Lemma pr_script_log (ch : Channel) (url : value) (w : World) :
  script (log_request ch url w) = script w.
Proof. reflexivity. Qed.

Lemma make_request_origin (cfg : CAM4StandaloneLib.Config) (url : value) (w : World) :
  match fst (CAM4StandaloneLib._make_request cfg url w) with
  | Raise e => exists n, script w n = Fault e
  | Ok response => exists n, script w n = Reply (raw response)
  end.
Proof.
  assert (T : forall ch c w0,
             match fst (bind (transport ch url)
                          (fun r => ret {| cls := c; raw := r |}) w0) with
             | Raise e => exists n, script w0 n = Fault e
             | Ok response => exists n, script w0 n = Reply (raw response)
             end).
  { intros ch c w0. unfold bind, transport.
    destruct (script w0 (length (requests w0))) eqn:E; cbn [fst ret raw]; eauto. }
  unfold CAM4StandaloneLib._make_request.
  destruct (_ && _); [|apply T].
  unfold try_except, CAM4StandaloneLib.flaresolverr_get.
  pose proof (T FlareSolverrGet FlareSolverrResponse w) as T1.
  destruct (bind (transport FlareSolverrGet url) _ w) as [[resp|e] w1] eqn:E;
    cbn [fst] in *; [exact T1|].
  destruct (is_Exception e); [|exact T1].
  assert (Sw : script w1 = script w).
  { pose proof (pr_bind script (transport FlareSolverrGet url)
                  (fun r => ret {| cls := FlareSolverrResponse; raw := r |})
                  (pr_transport script pr_script_log _ _)
                  (fun a => pr_ret script _) w) as K.
    rewrite E in K. exact K. }
  pose proof (T SessionGet (CAM4StandaloneLib.session_cls cfg) w1) as T2.
  unfold CAM4StandaloneLib.session_get. rewrite Sw in T2. exact T2.
Qed.

Lemma get_profile_info_lib_origin
      (cfg : CAM4StandaloneLib.Config) (u : string) (w : World) :
  exists v, fst (CAM4StandaloneLib.get_profile_info cfg u w) = Ok v /\
            (truthy v = true -> exists n r, script w n = Reply r /\ parsed r = Some v).
Proof.
  unfold CAM4StandaloneLib.get_profile_info, try_except. unfold bind at 1.
  pose proof (make_request_origin cfg
                (PyStr (BASE_API_URL +:+ "/" +:+ u +:+ "/info")) w) as O.
  destruct (CAM4StandaloneLib._make_request cfg _ w) as [[resp|e] w1]; cbn [fst] in O;
    [|exists PyNone; split; [reflexivity | discriminate]].
  destruct (status_code (raw resp) =? 404);
    [exists PyNone; split; [reflexivity | discriminate]|].
  unfold bind, lift, ret.
  destruct (raise_for_status resp);
    [|exists PyNone; split; [reflexivity | discriminate]].
  unfold json. destruct (parsed (raw resp)) as [v|] eqn:P.
  - exists v. split; [reflexivity|]. intros _. destruct O as [n O]. eauto.
  - destruct (cls resp); exists PyNone; (split; [reflexivity | discriminate]).
Qed.

Lemma get_stream_info_lib_origin
      (cfg : CAM4StandaloneLib.Config) (u : string) (w : World) :
  exists v, fst (CAM4StandaloneLib.get_stream_info cfg u w) = Ok v /\
            (truthy v = true -> exists n r, script w n = Reply r /\ parsed r = Some v).
Proof.
  unfold CAM4StandaloneLib.get_stream_info, try_except. unfold bind at 1.
  pose proof (make_request_origin cfg
                (PyStr (BASE_API_URL +:+ "/" +:+ u +:+ "/streamInfo")) w) as O.
  destruct (CAM4StandaloneLib._make_request cfg _ w) as [[resp|e] w1]; cbn [fst] in O;
    [|exists PyNone; split; [reflexivity | discriminate]].
  destruct ((status_code (raw resp) =? 204) || (status_code (raw resp) =? 404));
    [exists PyNone; split; [reflexivity | discriminate]|].
  unfold bind, lift, ret.
  destruct (raise_for_status resp);
    [|exists PyNone; split; [reflexivity | discriminate]].
  unfold json. destruct (parsed (raw resp)) as [v|] eqn:P.
  - destruct (truthy v) eqn:T.
    + exists v. split; [reflexivity|]. intros _. destruct O as [n O]. eauto.
    + exists PyNone. split; [reflexivity | discriminate].
  - destruct (cls resp); exists PyNone; (split; [reflexivity | discriminate]).
Qed.

Lemma verify_stream_accessible_lib_total
      (cfg : CAM4StandaloneLib.Config) (url : value) (w : World) :
  (forall n e, script w n = Fault e -> is_Exception e = true) ->
  exists res, fst (CAM4StandaloneLib.verify_stream_accessible cfg url w) = Ok res.
Proof.
  intros Hf. unfold CAM4StandaloneLib.verify_stream_accessible, try_except.
  unfold bind at 1.
  pose proof (make_request_origin cfg url w) as O.
  destruct (CAM4StandaloneLib._make_request cfg url w) as [[resp|e] w1]; cbn [fst] in O.
  - eexists. reflexivity.
  - destruct O as [n O]. rewrite (Hf n e O). eexists. reflexivity.
Qed.

Lemma get_profile_info_lib_script
      (cfg : CAM4StandaloneLib.Config) (u : string) :
  preserves script (CAM4StandaloneLib.get_profile_info cfg u).
Proof.
  unfold CAM4StandaloneLib.get_profile_info.
  apply pr_try; [| intros e; apply pr_ret].
  apply pr_bind; [apply make_request_preserves, pr_script_log|].
  intros resp. destruct (_ =? _); [apply pr_ret|].
  apply pr_bind; [apply pr_lift | intros _; apply pr_lift].
Qed.

Lemma get_stream_info_lib_script
      (cfg : CAM4StandaloneLib.Config) (u : string) :
  preserves script (CAM4StandaloneLib.get_stream_info cfg u).
Proof.
  unfold CAM4StandaloneLib.get_stream_info.
  apply pr_try; [| intros e; apply pr_ret].
  apply pr_bind; [apply make_request_preserves, pr_script_log|].
  intros resp. destruct (_ || _); [apply pr_ret|].
  apply pr_bind; [apply pr_lift | intros _].
  apply pr_bind; [apply pr_lift | intros data; destruct (truthy data); apply pr_ret].
Qed.

(** X21: the library module's [check_performer] always returns one of the
    five states for a URL with an identifier, whatever [Exception]s the
    transports raise, in whichever requests and with or without FlareSolverr,
    provided every body that parses to a non-empty value parses to an
    object. *)
Theorem library_resolver_is_total
        (cfg : CAM4StandaloneLib.Config) (url id : string) (w : World) :
  re_match_id VALID_URL_PATTERN url = Some id ->
  (forall n e, script w n = Fault e -> is_Exception e = true) ->
  (forall n r v, script w n = Reply r -> parsed r = Some v -> truthy v = true ->
                 exists m, v = PyDict m) ->
  exists info,
    fst (CAM4StandaloneLib.check_performer cfg url w) = Ok info /\
    username info = str_lower id /\ five_states (status info).
Proof.
  intros Hid Hf Hobj.
  unfold CAM4StandaloneLib.check_performer.
  unfold bind at 1. rewrite (extract_username_match _ _ _ Hid).
  unfold bind at 1.
  destruct (get_profile_info_lib_origin cfg (str_lower id) w) as (profile & E0 & O0).
  pose proof (get_profile_info_lib_script cfg (str_lower id) w) as S0.
  destruct (CAM4StandaloneLib.get_profile_info cfg (str_lower id) w) as [r0 w1].
  cbn [fst snd] in E0, S0. subst r0.
  destruct (truthy profile) eqn:T0; cbn [negb];
    [|eexists; split; [reflexivity | split; [reflexivity | apply five_states_all]]].
  destruct (O0 eq_refl) as (n0 & r0 & R0 & P0).
  destruct (Hobj _ _ _ R0 P0 T0) as [m ->].
  unfold bind at 1, lift at 1. cbn [dict_get].
  destruct (negb _);
    [eexists; split; [reflexivity | split; [reflexivity | apply five_states_all]]|].
  unfold bind at 1.
  destruct (get_stream_info_lib_origin cfg (str_lower id) w1) as (si & E1 & O1).
  pose proof (get_stream_info_lib_script cfg (str_lower id) w1) as S1.
  destruct (CAM4StandaloneLib.get_stream_info cfg (str_lower id) w1) as [r1 w2].
  cbn [fst snd] in E1, S1. subst r1.
  unfold bind at 1.
  destruct (truthy si) eqn:T1; cbn [negb ret];
    [|eexists; split; [reflexivity | split; [reflexivity | apply five_states_all]]].
  destruct (O1 eq_refl) as (n1 & r1 & R1 & P1). rewrite S0 in R1.
  destruct (Hobj _ _ _ R1 P1 T1) as [d ->].
  unfold bind at 1, lift at 1. cbn [dict_get]. unfold ret at 1.
  destruct (d !! "cdnURL") as [cdn|] eqn:L; cbn [truthy negb];
    [|eexists; split; [reflexivity | split; [reflexivity | apply five_states_all]]].
  destruct (truthy cdn) eqn:Tc; cbn [negb];
    [|eexists; split; [reflexivity | split; [reflexivity | apply five_states_all]]].
  unfold bind at 1, lift at 1. cbn [CAM4StandaloneLib.dict_index]. rewrite L.
  unfold bind at 1.
  destruct (verify_stream_accessible_lib_total cfg cdn w2) as (res & E2).
  { intros n e. rewrite S1, S0. apply Hf. }
  destruct (CAM4StandaloneLib.verify_stream_accessible cfg cdn w2) as [r2 w3].
  cbn [fst] in E2. subst r2.
  destruct (negb (fst res));
    eexists; (split; [reflexivity | split; [reflexivity | apply five_states_all]]).
Qed.

Lemma library_resolver_is_total_witness :
  exists info,
    fst (CAM4StandaloneLib.check_performer through_flaresolverr
           "https://www.cam4.com/foo_1" (fresh_world scenario_proxy_down)) = Ok info /\
    username info = "foo_1" /\ five_states (status info).
Proof.
  refine (library_resolver_is_total through_flaresolverr
            "https://www.cam4.com/foo_1" "foo_1" (fresh_world scenario_proxy_down) _ _ _).
  - reflexivity.
  - intros [|n] e H; [injection H as <-; reflexivity | discriminate H].
  - intros [|n] r v H P; [discriminate H|]. injection H as <-. discriminate P.
Defined.

(** ** A URL without identifier, in the other operations *)

(** X22: on a URL that the pattern does not match, the library's
    [check_performer], both [record_stream] and both [download_thumbnail]
    raise the [CAM4Error] of [extract_username], with the invalid-URL
    message and NOT_FOUND: the extraction sits outside every [try], so
    [download_thumbnail] raises instead of returning [None].  No request is
    issued, no process started and no file written. *)
Theorem invalid_url_stops_every_operation
        (content : RawResponse -> string) (cfg : CAM4StandaloneLib.Config)
        (url : string) (output_path : option string)
        (ffmpeg_args : option (list value)) (w : World) (d : Thumbnails.Disk) :
  ~ url_matches url ->
  let e := CAM4Error (Some ("Invalid CAM4 URL: " +:+ url)) NOT_FOUND in
  CAM4StandaloneLib.check_performer cfg url w = (Raise e, w) /\
  CAM4Standalone.record_stream url output_path ffmpeg_args w = (Raise e, w) /\
  CAM4StandaloneLib.record_stream cfg url output_path ffmpeg_args w = (Raise e, w) /\
  Thumbnails.download_thumbnail content url output_path w d = (Raise e, w, d) /\
  Thumbnails.download_thumbnail_lib content cfg url output_path w d = (Raise e, w, d).
Proof.
  intros H e. apply re_match_id_none_iff in H.
  split; [apply check_performer_lib_no_match, H|].
  split; [|split; [|split]].
  - unfold CAM4Standalone.record_stream. unfold bind at 1.
    rewrite (check_performer_no_match _ _ H). reflexivity.
  - unfold CAM4StandaloneLib.record_stream. unfold bind at 1.
    rewrite (check_performer_lib_no_match _ _ _ H). reflexivity.
  - unfold Thumbnails.download_thumbnail.
    rewrite (extract_username_no_match _ _ H). reflexivity.
  - unfold Thumbnails.download_thumbnail_lib.
    rewrite (extract_username_no_match _ _ H). reflexivity.
Qed.

Lemma invalid_url_stops_witness :
  CAM4StandaloneLib.check_performer through_flaresolverr "ftp://www.cam4.com/foo_1"
    (fresh_world scenario_streaming)
  = (Raise (CAM4Error (Some "Invalid CAM4 URL: ftp://www.cam4.com/foo_1") NOT_FOUND),
     fresh_world scenario_streaming) /\
  CAM4Standalone.record_stream "ftp://www.cam4.com/foo_1" None None
    (fresh_world scenario_streaming)
  = (Raise (CAM4Error (Some "Invalid CAM4 URL: ftp://www.cam4.com/foo_1") NOT_FOUND),
     fresh_world scenario_streaming) /\
  CAM4StandaloneLib.record_stream through_flaresolverr "ftp://www.cam4.com/foo_1" None None
    (fresh_world scenario_streaming)
  = (Raise (CAM4Error (Some "Invalid CAM4 URL: ftp://www.cam4.com/foo_1") NOT_FOUND),
     fresh_world scenario_streaming) /\
  Thumbnails.download_thumbnail text "ftp://www.cam4.com/foo_1" None
    (fresh_world scenario_streaming)
    {| Thumbnails.files := ∅; Thumbnails.unwritable := fun _ => false |}
  = (Raise (CAM4Error (Some "Invalid CAM4 URL: ftp://www.cam4.com/foo_1") NOT_FOUND),
     fresh_world scenario_streaming,
     {| Thumbnails.files := ∅; Thumbnails.unwritable := fun _ => false |}) /\
  Thumbnails.download_thumbnail_lib text through_flaresolverr
    "ftp://www.cam4.com/foo_1" None (fresh_world scenario_streaming)
    {| Thumbnails.files := ∅; Thumbnails.unwritable := fun _ => false |}
  = (Raise (CAM4Error (Some "Invalid CAM4 URL: ftp://www.cam4.com/foo_1") NOT_FOUND),
     fresh_world scenario_streaming,
     {| Thumbnails.files := ∅; Thumbnails.unwritable := fun _ => false |}).
Proof.
  refine (invalid_url_stops_every_operation text through_flaresolverr
            "ftp://www.cam4.com/foo_1" None None (fresh_world scenario_streaming)
            {| Thumbnails.files := ∅; Thumbnails.unwritable := fun _ => false |} _).
  apply re_match_id_none_iff. reflexivity.
Defined.

(** ** Where the two implementations word a result differently *)

(** X23: when the profile is online and the descriptor is a non-empty
    object whose [cdnURL] is missing or empty, both files classify
    ONLINE_NOT_STREAMING, but with different messages: the script says that
    stream info was found without a playlist URL, the library module folds
    this case into its "online but not currently streaming" message. *)
Theorem implementations_word_missing_url_differently
        (cfg : CAM4StandaloneLib.Config) (url id : string) (w : World)
        (r0 r1 : RawResponse) (m d : gmap string value) :
  re_match_id VALID_URL_PATTERN url = Some id ->
  nth_outcome w 0 = Reply r0 -> 200 <= status_code r0 < 400 ->
  parsed r0 = Some (PyDict m) -> reports_online m ->
  nth_outcome w 1 = Reply r1 -> 200 <= status_code r1 < 400 -> status_code r1 <> 204 ->
  parsed r1 = Some (PyDict d) -> d <> ∅ ->
  (forall u, d !! "cdnURL" = Some u -> truthy u = false) ->
  exists i j,
    fst (CAM4Standalone.check_performer url w) = Ok i /\
    fst (CAM4StandaloneLib.check_performer cfg url w) = Ok j /\
    status i = ONLINE_NOT_STREAMING /\ status j = ONLINE_NOT_STREAMING /\
    error_message i
    = Some (str_lower id +:+ ": Stream info found but no playlist URL available") /\
    error_message j
    = Some (str_lower id +:+ ": Performer is online but not currently streaming") /\
    error_message i <> error_message j.
Proof.
  intros Hid E0 S0 P0 (on & Hon & Ton) E1 S1 N1 P1 Hd Hno.
  assert (Tm : truthy (PyDict m) = true) by (eapply dict_truthy, dict_with_key, Hon).
  assert (Td : truthy (PyDict d) = true) by (apply dict_truthy, Hd).
  assert (R0 : profile_result (Reply r0) = Ok (PyDict m)).
  { unfold profile_result.
    destruct (Z.eqb_spec (status_code r0) 404) as [K|_]; [lia|].
    rewrite status_passes by lia. rewrite P0. reflexivity. }
  assert (R1 : stream_result (Reply r1) = Ok (PyDict d)).
  { unfold stream_result.
    destruct (Z.eqb_spec (status_code r1) 204) as [K|_]; [contradiction|].
    destruct (Z.eqb_spec (status_code r1) 404) as [K|_]; [lia|].
    rewrite status_passes by lia. rewrite P1, Td. reflexivity. }
  assert (G : exists c, dict_get (PyDict d) "cdnURL" PyNone = Ok c /\ truthy c = false).
  { cbn [dict_get]. destruct (d !! "cdnURL") as [u|] eqn:L.
    - exists u. split; [reflexivity | apply Hno; reflexivity].
    - exists PyNone. split; reflexivity. }
  destruct G as (c & Gc & Tc).
  assert (Ne : forall u : string,
             Some (u +:+ ": Stream info found but no playlist URL available")
             <> Some (u +:+ ": Performer is online but not currently streaming")).
  { intros u K. injection K as K. induction u as [|a u IH].
    - rewrite !str_app_nil in K. discriminate K.
    - rewrite !str_app_cons in K. injection K as K. exact (IH K). }
  eexists. eexists.
  split; [|split].
  - rewrite (check_performer_classify _ _ _ Hid). unfold classify.
    rewrite E0, R0, Tm. cbn [negb dict_get]. rewrite Hon, Ton. cbn [negb].
    rewrite E1, R1, Td. cbn [negb]. rewrite Gc, Tc. cbn [negb]. reflexivity.
  - unfold CAM4StandaloneLib.check_performer.
    unfold bind at 1. rewrite (extract_username_match _ _ _ Hid).
    unfold bind at 1.
    rewrite (get_profile_info_lib_eq cfg (str_lower id) w r0 E0) by (left; lia).
    rewrite R0, Tm. cbn [negb].
    unfold bind at 1, lift at 1. cbn [dict_get]. rewrite Hon, Ton. cbn [negb].
    unfold bind at 1.
    rewrite (get_stream_info_lib_eq cfg (str_lower id) _ r1)
      by first [rewrite nth_outcome_log; exact E1 | left; lia].
    rewrite R1. unfold bind at 1. rewrite Td. cbn [negb].
    unfold bind at 1, lift at 1. rewrite Gc. unfold ret at 1. rewrite Tc.
    cbn [negb]. reflexivity.
  - cbn [status error_message]. repeat split. apply Ne.
Qed.

Lemma implementations_word_missing_url_witness :
  exists i j,
    fst (CAM4Standalone.check_performer "https://www.cam4.com/foo_1"
           (fresh_world scenario_no_url)) = Ok i /\
    fst (CAM4StandaloneLib.check_performer through_flaresolverr
           "https://www.cam4.com/foo_1" (fresh_world scenario_no_url)) = Ok j /\
    status i = ONLINE_NOT_STREAMING /\ status j = ONLINE_NOT_STREAMING /\
    error_message i = Some ("foo_1: Stream info found but no playlist URL available") /\
    error_message j = Some ("foo_1: Performer is online but not currently streaming") /\
    error_message i <> error_message j.
Proof.
  refine (implementations_word_missing_url_differently through_flaresolverr
            "https://www.cam4.com/foo_1" "foo_1" (fresh_world scenario_no_url)
            {| status_code := 200; text := "{online: true}"; parsed := Some (PyDict {[ "online" := PyBool true ]}) |}
            {| status_code := 200; text := "{viewers: 3}";
               parsed := Some (PyDict {[ "viewers" := PyInt 3 ]}) |}
            {[ "online" := PyBool true ]} {[ "viewers" := PyInt 3 ]}
            _ _ _ _ _ _ _ _ _ _ _).
  - reflexivity.
  - reflexivity.
  - cbn [status_code]. lia.
  - reflexivity.
  - exists (PyBool true). split; reflexivity.
  - reflexivity.
  - cbn [status_code]. lia.
  - cbn [status_code]. lia.
  - reflexivity.
  - apply (dict_with_key _ "viewers" (PyInt 3)). reflexivity.
  - intros u H. vm_compute in H. discriminate H.
Defined.
